(** * Whip risk analytics: returns, risk decomposition, the balance spread
    and the token whitelists

    A shallow embedding of [backend/app/libs/price_stats.py], of the
    balance-spread backtester exercised by
    [backend/app/spread/tests/test_update_balances_with_spread.py] and of
    [backend/app/token_whitelists/whitelists.py].

    Numbers are IEEE-754 binary64 values ([spec_float] with [prec = 53] and
    [emax = 1024]), the data type of the numpy arrays and pandas columns the
    code works on.  Python exceptions are values of [exn]; a function that
    can raise returns a [result].  The pandas operations are those of
    pandas 1 (no copy-on-write), the version of the code's time.  The
    backtester, whose source is not available, is modelled from its
    specification.  Its formulas and the rolling variance of pandas are
    written over an arithmetic and read twice: in binary64, which is what
    the code computes, and over the rationals, which is what it computes
    when no operation rounds.  The whitelists are made of JSON
    values; the remote side, the scheduling of [gather] and the storage
    helpers are parameters of that part. *)

From Stdlib Require Import ZArith QArith Qabs List Bool Lia Lqa.
From Stdlib Require Import SpecFloat.
From stdpp Require Import gmap strings list fin_maps sorting.

Open Scope Z_scope.

(** ** Exceptions and results *)

(** The built-in exceptions that the modelled code can raise. *)
Inductive exn : Type :=
| IndexError (msg : string)
| KeyError (key : string)
| StopIteration
| AssertionError (msg : string)
| ValueError (msg : string).

(** The class name of an exception, as [type(e).__name__] gives it. *)
Definition exn_name (e : exn) : string :=
  match e with
  | IndexError _ => "IndexError"
  | KeyError _ => "KeyError"
  | StopIteration => "StopIteration"
  | AssertionError _ => "AssertionError"
  | ValueError _ => "ValueError"
  end.

Inductive result (A : Type) : Type :=
| Ok (a : A)
| Err (e : exn).
Arguments Ok {A} a.
Arguments Err {A} e.

Definition bind {A B : Type} (r : result A) (k : A -> result B) : result B :=
  match r with
  | Ok a => k a
  | Err e => Err e
  end.

Notation "'do' x <- r ; k" := (bind r (fun x => k))
  (at level 10, x name, r at level 100, k at level 200).

(** [mapM f l] runs [f] on the elements of [l] from left to right and stops at
    the first exception, as a generator consumed by [np.fromiter] does. *)
Fixpoint mapM {A B : Type} (f : A -> result B) (l : list A) : result (list B) :=
  match l with
  | [] => Ok []
  | x :: l' => do y <- f x; do ys <- mapM f l'; Ok (y :: ys)
  end.

(** [foldM f l a] is [functools.reduce(f, l, a)] for a step that can raise. *)
Fixpoint foldM {A B : Type} (f : A -> B -> result A) (l : list B) (a : A)
  : result A :=
  match l with
  | [] => Ok a
  | x :: l' => do a' <- f a x; foldM f l' a'
  end.

(** ** Binary64 arithmetic *)

Module Float64.

Definition float : Type := spec_float.

Definition prec : Z := 53.
Definition emax : Z := 1024.

Definition nan : float := S754_nan.
Definition inf : float := S754_infinity false.
Definition neg_inf : float := S754_infinity true.
Definition zero : float := S754_zero false.

Definition add : float -> float -> float := SFadd prec emax.
Definition sub : float -> float -> float := SFsub prec emax.
Definition mul : float -> float -> float := SFmul prec emax.
Definition div : float -> float -> float := SFdiv prec emax.
Definition sqrt : float -> float := SFsqrt prec emax.
Definition abs : float -> float := SFabs.
Definition eqb : float -> float -> bool := SFeqb.
Definition leb : float -> float -> bool := SFleb.
Definition ltb : float -> float -> bool := SFltb.

(** Conversion of an integer, rounding to nearest even as [float(n)]. *)
Definition of_Z (z : Z) : float := binary_normalize prec emax z 0 false.

(** The decimal [n / d]: the binary64 value nearest to the quotient, which
    is what a decimal literal denotes when [n] and [d] are exact. *)
Definition of_ratio (n d : Z) : float := div (of_Z n) (of_Z d).

Definition is_nan (x : float) : bool :=
  match x with S754_nan => true | _ => false end.

Definition is_inf (x : float) : bool :=
  match x with S754_infinity _ => true | _ => false end.

(** Neither negative nor minus zero: the values [zsqrt] leaves to [sqrt]. *)
Definition not_negative (x : float) : Prop :=
  match x with
  | S754_nan => True
  | S754_zero s | S754_infinity s | S754_finite s _ _ => s = false
  end.

(** A positive finite number. *)
Definition is_finite_positive (x : float) : Prop :=
  match x with S754_finite false _ _ => True | _ => False end.

(** Infinite or not-a-number. *)
Definition is_special (x : float) : bool := is_nan x || is_inf x.

(** Zero or not-a-number. *)
Definition is_null (x : float) : bool :=
  match x with S754_zero _ | S754_nan => true | _ => false end.

(** [math.isclose(a, b, rel_tol=rel_tol)] with the default [abs_tol=0.0],
    after CPython's [math_isclose_impl]. *)
Definition isclose (a b rel_tol : float) : bool :=
  if eqb a b then true
  else if is_inf a || is_inf b then false
  else
    let diff := abs (sub b a) in
    leb diff (abs (mul rel_tol b))
    || leb diff (abs (mul rel_tol a))
    || leb diff zero.

(** The sum [y + y^3/3 + ... ] of [n] terms of the series of [atanh],
    [p] being the current odd power of [y] and [k] its exponent. *)
Fixpoint atanh_series (y2 p : float) (k : Z) (n : nat) : float :=
  match n with
  | O => zero
  | S n' => add (div p (of_Z k)) (atanh_series y2 (mul p y2) (k + 2) n')
  end.

Definition ln2 : float := of_ratio 6931471805599453 10000000000000000.

(** A reference natural logarithm, to run [make_returns_df] on examples
    ([np.log] itself is a parameter of the model).  The special values are
    those of C's [log]; a positive finite [x = f * 2^k] with
    [3/4 <= f < 3/2] gives [2 * atanh ((f - 1) / (f + 1)) + k * ln 2]. *)
Definition ln (x : float) : float :=
  match x with
  | S754_nan => nan
  | S754_zero _ => neg_inf
  | S754_infinity false => inf
  | S754_infinity true => nan
  | S754_finite true _ _ => nan
  | S754_finite false _ _ =>
      let '(f, k) := SFfrexp prec emax x in
      let '(f, k) :=
        if ltb f (of_ratio 3 4) then (mul f (of_Z 2), k - 1) else (f, k) in
      let y := div (sub f (of_Z 1)) (add f (of_Z 1)) in
      add (mul (of_Z 2) (atanh_series (mul y y) y 1 24)) (mul (of_Z k) ln2)
  end.

End Float64.

Import Float64.

(** Case analysis on the sign and the class of a binary64 value. *)
Ltac float_cases x := destruct x as [[]|[]| |[] ? ?].

(** ** Two arithmetics: binary64 and exact *)

(** The operations a formula is written with.  The code computes in
    binary64; the same formula read over the rationals tells what it
    computes when no operation rounds. *)
Module Arithmetic.

Record t (num : Type) : Type := {
  of_Z : Z -> num;
  add : num -> num -> num;
  sub : num -> num -> num;
  mul : num -> num -> num;
  div : num -> num -> num;
  isnan : num -> bool;
  is_zero : num -> bool
}.
Arguments of_Z {num} _ _.
Arguments add {num} _ _ _.
Arguments sub {num} _ _ _.
Arguments mul {num} _ _ _.
Arguments div {num} _ _ _.
Arguments isnan {num} _ _.
Arguments is_zero {num} _ _.

(** IEEE-754 binary64, the arithmetic of the code. *)
Definition binary64 : t float :=
  {| of_Z := Float64.of_Z;
     add := Float64.add;
     sub := Float64.sub;
     mul := Float64.mul;
     div := Float64.div;
     isnan := Float64.is_nan;
     is_zero := fun x => Float64.eqb x Float64.zero |}.

(** The rationals: no rounding, no not-a-number; a quotient by zero has no
    meaning and no statement below uses one. *)
Definition exact : t Q :=
  {| of_Z := inject_Z;
     add := Qplus;
     sub := Qminus;
     mul := Qmult;
     div := Qdiv;
     isnan := fun _ => false;
     is_zero := fun x => Qeq_bool x 0 |}.

End Arithmetic.

(** ** The rolling variance of pandas *)

(** [roll_var] of [pandas/_libs/window/aggregations.pyx] (pandas 1.2 to
    1.4), the kernel behind [rolling(w).var] and [rolling(w).std]: one
    state is carried along the series; at every position the value that
    leaves the window is removed from it and the value that enters is
    added (Welford's update of the mean and of the sum of squared
    deviations, with Kahan compensation).  From pandas 1.5 on the kernel
    also counts how often the last value was repeated and gives [0] for a
    window that holds one value only, whatever the state holds; on every
    other window it is the kernel below. *)
Module RollVar.

Section Kernel.

Context {num : Type} (A : Arithmetic.t num).

Record State : Type := {
  nobs : nat;
  mean_x : num;
  ssqdm_x : num;
  compensation_add : num;
  compensation_remove : num
}.

Definition initial : State :=
  {| nobs := 0;
     mean_x := Arithmetic.of_Z A 0;
     ssqdm_x := Arithmetic.of_Z A 0;
     compensation_add := Arithmetic.of_Z A 0;
     compensation_remove := Arithmetic.of_Z A 0 |}.

(** [add_var]: a not-a-number is skipped. *)
Definition add_var (val : num) (s : State) : State :=
  if Arithmetic.isnan A val then s
  else
    let nobs' := S (nobs s) in
    let prev_mean := Arithmetic.sub A (mean_x s) (compensation_add s) in
    let y := Arithmetic.sub A val (compensation_add s) in
    let t := Arithmetic.sub A y (mean_x s) in
    let compensation := Arithmetic.sub A (Arithmetic.add A t (mean_x s)) y in
    let mean :=
      Arithmetic.add A (mean_x s)
        (Arithmetic.div A t (Arithmetic.of_Z A (Z.of_nat nobs'))) in
    {| nobs := nobs';
       mean_x := mean;
       ssqdm_x :=
         Arithmetic.add A (ssqdm_x s)
           (Arithmetic.mul A (Arithmetic.sub A val prev_mean)
                             (Arithmetic.sub A val mean));
       compensation_add := compensation;
       compensation_remove := compensation_remove s |}.

(** [remove_var]: a not-a-number is skipped; when the last observation
    goes, the mean and the sum of squares are reset. *)
Definition remove_var (val : num) (s : State) : State :=
  if Arithmetic.isnan A val then s
  else
    match Nat.pred (nobs s) with
    | O =>
        {| nobs := 0;
           mean_x := Arithmetic.of_Z A 0;
           ssqdm_x := Arithmetic.of_Z A 0;
           compensation_add := compensation_add s;
           compensation_remove := compensation_remove s |}
    | S _ as nobs' =>
        let prev_mean := Arithmetic.sub A (mean_x s) (compensation_remove s) in
        let y := Arithmetic.sub A val (compensation_remove s) in
        let t := Arithmetic.sub A y (mean_x s) in
        let compensation := Arithmetic.sub A (Arithmetic.add A t (mean_x s)) y in
        let mean :=
          Arithmetic.sub A (mean_x s)
            (Arithmetic.div A t (Arithmetic.of_Z A (Z.of_nat nobs'))) in
        {| nobs := nobs';
           mean_x := mean;
           ssqdm_x :=
             Arithmetic.sub A (ssqdm_x s)
               (Arithmetic.mul A (Arithmetic.sub A val prev_mean)
                                 (Arithmetic.sub A val mean));
           compensation_add := compensation_add s;
           compensation_remove := compensation |}
    end.

(** [calc_var]: nothing ([NaN] in pandas) below the minimum number of
    observations; otherwise the sum of squared deviations over
    [nobs - ddof]. *)
Definition calc_var (minp ddof : nat) (s : State) : option num :=
  if (minp <=? nobs s)%nat && (ddof <? nobs s)%nat
  then
    Some (if (nobs s =? 1)%nat then Arithmetic.of_Z A 0
          else Arithmetic.div A (ssqdm_x s)
                 (Arithmetic.sub A (Arithmetic.of_Z A (Z.of_nat (nobs s)))
                                   (Arithmetic.of_Z A (Z.of_nat ddof))))
  else None.

(** One turn of the loop over the positions, for the windows
    [[max(0, i - w + 1), i + 1)] of [rolling(w)]: from position [w] on the
    value at [i - w] leaves; the value at [i] enters. *)
Definition step (values : list num) (w : nat) (s : State) (i : nat) : State :=
  let s :=
    if (w <=? i)%nat
    then match values !! (i - w)%nat with
         | Some val => remove_var val s
         | None => s
         end
    else s in
  match values !! i with
  | Some val => add_var val s
  | None => s
  end.

(** The states after each of the [positions], in turn. *)
Fixpoint states (values : list num) (w : nat) (s : State)
  (positions : list nat) : list State :=
  match positions with
  | [] => []
  | i :: positions' =>
      let s' := step values w s i in
      s' :: states values w s' positions'
  end.

(** The output of [roll_var], [None] standing for its [NaN]. *)
Definition roll_var (values : list num) (w minp ddof : nat)
  : list (option num) :=
  calc_var (Nat.max minp 1) ddof
    <$> states values w initial (seq 0 (length values)).

(** The window of position [t]: the values at the positions
    [[max(0, t - w + 1), t + 1)]. *)
Definition window (values : list num) (w t : nat) : list num :=
  drop (S t - w) (take (S t) values).

(** The state after position [t]. *)
Fixpoint state_at (values : list num) (w : nat) (t : nat) : State :=
  match t with
  | O => step values w initial 0
  | S t' => step values w (state_at values w t') t
  end.

End Kernel.

Arguments State : clear implicits.
Arguments nobs {num} s.
Arguments mean_x {num} s.
Arguments ssqdm_x {num} s.
Arguments compensation_add {num} s.
Arguments compensation_remove {num} s.

End RollVar.

(** ** The pandas and numpy operations the code calls *)

Module Pandas.

(** [Series.shift(periods=1)]: every value moves one position down and the
    first position becomes not-a-number. *)
Definition shift1 (xs : list float) : list float :=
  match xs with
  | [] => []
  | _ :: _ => nan :: removelast xs
  end.

(** Elementwise [a / b] of two series on the same index. *)
Definition div_series (a b : list float) : list float := zip_with div a b.

(** The mask [replace] computes: a not-a-number [to_replace] selects the
    missing values, any other one the values equal to it. *)
Definition mask_missing (to_replace x : float) : bool :=
  if is_nan to_replace then is_nan x else eqb x to_replace.

(** [Series.replace(to_replace, value, inplace=True)] on a column reached
    as [dataframe.returns]: the column object shares its data with the
    frame, which sees the replacement. *)
Definition replace (to_replace value : float) (xs : list float) : list float :=
  map (fun x => if mask_missing to_replace x then value else x) xs.

(** [s.iloc[1:].replace(to_replace, value, inplace=True)]: the slice is a
    view on the data of [s] (pandas without copy-on-write), so the
    replacement is written through to the positions from 1 on. *)
Definition replace_from_1 (to_replace value : float) (xs : list float)
  : list float :=
  take 1 xs ++ replace to_replace value (drop 1 xs).

(** [np.sum] and the sums inside [np.dot], [mean] and [cov], accumulated
    from left to right.  The order of accumulation inside numpy and BLAS
    is not fixed by the code and can change the last bit of a sum that
    rounds; the properties below either do not depend on the value of a
    sum or are stated at inputs whose partial sums are all exact. *)
Definition sum (xs : list float) : float := fold_left add xs zero.

Definition mean (xs : list float) : float :=
  div (sum xs) (of_Z (Z.of_nat (length xs))).

(** [zsqrt] of [pandas.core.window.common]: the square root, with [0] in
    place of the root of a negative value. *)
Definition zsqrt (x : float) : float :=
  if ltb x zero then zero else sqrt x.

(** [_prep_values] of [pandas.core.window.rolling]: an infinite value is
    a missing one for the kernels. *)
Definition prep_values (xs : list float) : list float :=
  map (fun x => if is_inf x then nan else x) xs.

(** [s.rolling(w).std(ddof=ddof)]: [min_periods] defaults to the window
    size, and the result is [zsqrt] of what [roll_var] gives, not-a-number
    where it gives none. *)
Definition rolling_std (w ddof : nat) (xs : list float) : list float :=
  map (fun v => match v with
                | Some x => zsqrt x
                | None => nan
                end)
      (RollVar.roll_var Arithmetic.binary64 (prep_values xs) w w ddof).

(** A table keyed by timestamp: the labels of its value columns and, per
    row, the timestamp with one value per column.  The key is the
    ["timestamp"] column before [set_index("timestamp")] and the index
    after it. *)
Record DataFrame : Type := {
  columns : list string;
  rows : list (Z * list float)
}.

(** A price-history table as [make_returns_matrix] reads it: per row the
    timestamp of the index and the value of the ["returns"] column. *)
Definition HistPrices : Type := list (Z * float).

(** The order of two rows by their timestamps. *)
Definition timestamp_le (a b : Z * float) : Prop := a.1 <= b.1.

#[global] Instance timestamp_le_dec : RelDecision timestamp_le.
Proof. intros a b. unfold timestamp_le. apply _. Defined.

(** The place of a row in a table already in order: before the first row
    whose timestamp is not earlier. *)
Fixpoint insert_row (r : Z * float) (df : HistPrices) : HistPrices :=
  match df with
  | [] => [r]
  | r' :: df' =>
      if decide (timestamp_le r r') then r :: df else r' :: insert_row r df'
  end.

(** [df.sort_index()]: rows by ascending timestamp, rows of one timestamp
    keeping their order.  That is what pandas returns for an index already
    in order (the table is returned as it is) and for a short one (numpy
    sorts up to 16 elements by insertion); for a longer index numpy's
    quicksort promises no order among the rows of one timestamp, and the
    properties below that depend on it are stated for histories with one
    row per timestamp. *)
Definition sort_index (df : HistPrices) : HistPrices :=
  foldr insert_row [] df.

(** [df.loc[start:end]] on a sorted index: both bounds are included. *)
Definition loc (start end_ : Z) (df : HistPrices) : HistPrices :=
  filter (fun r : Z * float => start <= r.1 /\ r.1 <= end_) df.

(** [df[["timestamp", "returns"]]] after [reset_index()]. *)
Definition select_returns (df : HistPrices) : DataFrame :=
  {| columns := ["returns"]; rows := map (fun r => (r.1, [r.2])) df |}.

(** [df.rename(columns={old: new})]; a label that is absent is ignored. *)
Definition rename (old new : string) (df : DataFrame) : DataFrame :=
  {| columns := map (fun c => if String.eqb c old then new else c) (columns df);
     rows := rows df |}.

(** [left.merge(right, on="timestamp")] where [right] is
    [hist_prices[["timestamp", "returns"]].rename(columns={"returns": symbol})].
    An inner join in the order of the left rows; a value column present on
    both sides gets the suffixes [_x] and [_y] (labels that the suffixes
    make equal only draw a warning in pandas 1).  When [symbol] is
    ["timestamp"] the right table has two columns of that label and pandas
    refuses the key. *)
Definition merge_on_timestamp (left : DataFrame) (symbol : string)
  (right : HistPrices) : result DataFrame :=
  if String.eqb symbol "timestamp"
  then Err (ValueError "The column label 'timestamp' is not unique.")
  else
    let overlap := existsb (String.eqb symbol) (columns left) in
    Ok {| columns :=
            map (fun c => if String.eqb c symbol then c +:+ "_x" else c)
                (columns left)
            ++ [if overlap then symbol +:+ "_y" else symbol];
          rows :=
            flat_map
              (fun l : Z * list float =>
                 map (fun r : Z * float => (l.1, l.2 ++ [r.2]))
                     (filter (fun r : Z * float => r.1 = l.1) right))
              (rows left) |}.

(** The elements of [l] whose flag in [keep] is set. *)
Fixpoint select {A : Type} (keep : list bool) (l : list A) : list A :=
  match keep, l with
  | k :: keep', x :: l' => if k then x :: select keep' l' else select keep' l'
  | _, _ => []
  end.

(** The message of the [KeyError] of [drop]:
    [f"{labels[mask]} not found in axis"], the label being printed by
    [repr] inside the brackets of an array.  The code drops ["returns"] and
    ["ETH"] only; for such a label [repr] is the label between single
    quotes. *)
Definition not_found_in_axis (label : string) : string :=
  "['" +:+ label +:+ "'] not found in axis".

(** [df.drop(label, axis=1)]: every column of that label goes; a label that
    names no column is a [KeyError]. *)
Definition drop_column (label : string) (df : DataFrame) : result DataFrame :=
  if existsb (String.eqb label) (columns df)
  then
    let keep := map (fun c => negb (String.eqb c label)) (columns df) in
    Ok {| columns := select keep (columns df);
          rows := map (fun r : Z * list float => (r.1, select keep r.2)) (rows df) |}
  else Err (KeyError (not_found_in_axis label)).

(** The values of column number [j]. *)
Definition column_values (df : DataFrame) (j : nat) : list float :=
  map (fun r : Z * list float => nth j r.2 nan) (rows df).

(** [np.dot] of two vectors. *)
Definition dot (u v : list float) : float := sum (zip_with mul u v).

(** [np.cov(mat.T, ddof=1)], the path [DataFrame.cov] takes when the table
    has no missing value: centre every column on its mean, take the
    products and scale by [1 / (N - 1)], the factor being [0.0] when
    [N - 1 <= 0]. *)
Definition np_cov (cols : list (list float)) (nrows : nat) : list (list float) :=
  let centred := map (fun xs => map (fun x => sub x (mean xs)) xs) cols in
  let fact := if (nrows <=? 1)%nat then zero else of_Z (Z.of_nat nrows - 1) in
  map (fun xs => map (fun ys => mul (dot xs ys) (div (of_Z 1) fact)) centred)
      centred.

Definition is_finite (x : float) : bool := negb (is_nan x || is_inf x).

(** [libalgos.nancorr(mat, cov=True, minp=1)], the path taken when a value
    is missing: per pair of columns, the rows where both values are finite. *)
Definition nancorr_pair (xs ys : list float) : float :=
  let obs := filter (fun p : float * float => is_finite p.1 && is_finite p.2 = true)
                    (zip xs ys) in
  if (length obs <? 1)%nat then nan
  else
    let mx := mean (obs.*1) in
    let my := mean (obs.*2) in
    let covxy := sum (map (fun p : float * float => mul (sub p.1 mx) (sub p.2 my)) obs) in
    let divisor := of_Z (Z.of_nat (length obs) - 1) in
    if eqb divisor zero then nan else div covxy divisor.

(** [df.cov()]: the sample covariance of the columns, one row and one
    column per column of [df]. *)
Definition cov (df : DataFrame) : list (list float) :=
  let cols := map (column_values df) (seq 0 (length (columns df))) in
  if forallb (forallb (fun x => negb (is_nan x))) cols
  then np_cov cols (length (rows df))
  else map (fun xs => map (fun ys => nancorr_pair xs ys) cols) cols.

(** [w.dot(m)] for a row vector [w] and a matrix [m] given by its rows:
    entry [j] is the product of [w] with column [j] of [m]. *)
Definition vec_mat (w : list float) (m : list (list float)) : list float :=
  map (fun j => dot w (map (fun row => nth j row nan) m)) (seq 0 (length w)).

End Pandas.

(** ** [backend/app/libs/price_stats.py] *)

Module PriceStats.

Definition ROLLING_WINDOW_DAYS : nat := 7.

(** The table [make_returns_df] returns: the price column (named
    [column_name] in the source), [returns] and [std_dev], by position. *)
Record ReturnsDf : Type := {
  df_price : list float;
  df_returns : list float;
  df_std_dev : list float
}.

Section MakeReturnsDf.

(** [np.log] on one binary64 value. *)
Variable np_log : float -> float.

(** The column as first computed:
    [np.log(dataframe[column_name] / dataframe[column_name].shift(periods=1))]. *)
Definition raw_returns (hist_values : list float) : list float :=
  map np_log (Pandas.div_series hist_values (Pandas.shift1 hist_values)).

Definition returns_column (hist_values : list float) : list float :=
  let returns := raw_returns hist_values in
  let returns := Pandas.replace inf zero returns in
  let returns := Pandas.replace neg_inf zero returns in
  Pandas.replace_from_1 nan zero returns.

Definition make_returns_df (hist_values : list float) : ReturnsDf :=
  let returns := returns_column hist_values in
  {| df_price := hist_values;
     df_returns := returns;
     df_std_dev := Pandas.rolling_std ROLLING_WINDOW_DAYS 0 returns |}.

End MakeReturnsDf.

(** Modelled from the spec: the asset type of
    [backend/app/libs/types.py], which is not among the sources.  An asset
    has a symbol, a balance in USD and a mutable [risk_contribution]. *)
Record Asset : Type := {
  token_symbol : string;
  balance : float;
  risk_contribution : option float
}.

(** Modelled from the spec: the [Treasury] of [backend/app/libs/types.py],
    its assets and its [usd_total] (the sum of the balances, or a total
    supplied from outside). *)
Record Treasury : Type := {
  assets : list Asset;
  usd_total : float
}.

(** Modelled from the spec: [Treasury.get_asset] of
    [backend/app/libs/types.py], the lookup of an asset by symbol; a miss
    is the [StopIteration] that [make_returns_matrix] catches. *)
Definition get_asset (treasury : Treasury) (symbol : string) : result Asset :=
  match List.find (fun a => String.eqb (token_symbol a) symbol) (assets treasury) with
  | Some a => Ok a
  | None => Err StopIteration
  end.

(** The symbols of the assets of a treasury. *)
Definition symbols (treasury : Treasury) : list string :=
  token_symbol <$> assets treasury.

(** [treasury.get_asset(symbol).risk_contribution = percentage]: the asset
    object that [get_asset] finds is updated in place. *)
Fixpoint set_risk_contribution (symbol : string) (percentage : float)
  (l : list Asset) : result (list Asset) :=
  match l with
  | [] => Err StopIteration
  | a :: l' =>
      if String.eqb (token_symbol a) symbol
      then Ok ({| token_symbol := token_symbol a;
                  balance := balance a;
                  risk_contribution := Some percentage |} :: l')
      else do l'' <- set_risk_contribution symbol percentage l'; Ok (a :: l'')
  end.

(** The mapping from symbol to price-history table, in the iteration order
    of the dictionary. *)
Definition HistPricesBySymbol : Type := list (string * Pandas.HistPrices).

Definition reducer_on_symbol_and_hist_prices (matrix : Pandas.DataFrame)
  (symbol_and_hist_prices : string * Pandas.HistPrices)
  : result Pandas.DataFrame :=
  let '(symbol, hist_prices) := symbol_and_hist_prices in
  Pandas.merge_on_timestamp matrix symbol hist_prices.

(** Create a matrix containing the returns for each asset. *)
Definition make_returns_matrix (treasury : Treasury)
  (augmented_token_hist_prices : HistPricesBySymbol) (start end_ : Z)
  : result Pandas.DataFrame :=
  let hist_prices_items :=
    map (fun item : string * Pandas.HistPrices =>
           (item.1, Pandas.loc start end_ (Pandas.sort_index item.2)))
        augmented_token_hist_prices in
  do first <- match hist_prices_items with
              | [] => Err (IndexError "list index out of range")
              | item :: _ => Ok item
              end;
  do joined <- foldM reducer_on_symbol_and_hist_prices hist_prices_items
                 (Pandas.rename "return" first.1 (Pandas.select_returns first.2));
  do returns_matrix <- Pandas.drop_column "returns" joined;
  (* Remove ETH from matrix if not an actual portfolio asset *)
  match get_asset treasury "ETH" with
  | Ok _ => Ok returns_matrix
  | Err StopIteration => Pandas.drop_column "ETH" returns_matrix
  | Err e => Err e
  end.

(** [{asset.token_symbol: asset.balance for asset in treasury.assets}]: a
    later asset of the same symbol overwrites an earlier one. *)
Definition current_balances (treasury : Treasury) : gmap string float :=
  fold_left (fun m a => <[token_symbol a := balance a]> m) (assets treasury) ∅.

(** The weight row: the balances of the columns, in column order, divided
    by [usd_total]; a column without a balance is a [KeyError]. *)
Definition make_weights (treasury : Treasury) (cols : list string)
  : result (list float) :=
  do balances <- mapM (fun symbol =>
                         match current_balances treasury !! symbol with
                         | Some b => Ok b
                         | None => Err (KeyError symbol)
                         end) cols;
  Ok (map (fun b => div b (usd_total treasury)) balances).

(** The relative tolerance [0.0001] of the assertion. *)
Definition rel_tol : float := of_ratio 1 10000.

(** The values the decomposition computes from the weights and the
    covariance matrix. *)
Record Decomposition : Type := {
  std_dev : float;
  marginal_contributions : list float;
  component_contributions : list float;
  summed_component_contributions : float;
  component_percentages : list float
}.

Definition decompose (weights : list float) (cov_matrix : list (list float))
  : Decomposition :=
  let std_dev := sqrt (Pandas.dot (Pandas.vec_mat weights cov_matrix) weights) in
  let marginal_contributions :=
    map (fun x => div x std_dev) (Pandas.vec_mat weights cov_matrix) in
  let component_contributions := zip_with mul marginal_contributions weights in
  {| std_dev := std_dev;
     marginal_contributions := marginal_contributions;
     component_contributions := component_contributions;
     summed_component_contributions := Pandas.sum component_contributions;
     component_percentages :=
       map (fun c => div c std_dev) component_contributions |}.

(** The condition of the assertion:
    [isclose(summed_component_contributions, std_dev[0][0], rel_tol=0.0001)]. *)
Definition reconciled (d : Decomposition) : bool :=
  isclose (summed_component_contributions d) (std_dev d) rel_tol.

(** What a failed assertion raises. *)
Definition assertion_error : exn := AssertionError "error in calculations".

(** The part of [fill_asset_risk_contributions] before its final loop: it
    reads the treasury and writes nothing. *)
Definition risk_percentages (treasury : Treasury)
  (augmented_token_hist_prices : HistPricesBySymbol) (start end_ : Z)
  : result (list (string * float)) :=
  do returns_matrix <-
    make_returns_matrix treasury augmented_token_hist_prices start end_;
  do weights <- make_weights treasury (Pandas.columns returns_matrix);
  let d := decompose weights (Pandas.cov returns_matrix) in
  if reconciled d
  then Ok (zip (Pandas.columns returns_matrix) (component_percentages d))
  else Err assertion_error.

(** How a call ends: the state of the treasury object, and the exception
    raised, if any; without one the call returns that treasury. *)
Record Outcome : Type := {
  final : Treasury;
  raised : option exn
}.

(** The final loop: one assignment per pair, stopping at the first lookup
    that fails. *)
Fixpoint assign_risk_contributions (treasury : Treasury)
  (pairs : list (string * float)) : Outcome :=
  match pairs with
  | [] => {| final := treasury; raised := None |}
  | (symbol, percentage) :: pairs' =>
      match set_risk_contribution symbol percentage (assets treasury) with
      | Ok assets' =>
          assign_risk_contributions
            {| assets := assets'; usd_total := usd_total treasury |} pairs'
      | Err e => {| final := treasury; raised := Some e |}
      end
  end.

Definition fill_asset_risk_contributions (treasury : Treasury)
  (augmented_token_hist_prices : HistPricesBySymbol) (start end_ : Z)
  : Outcome :=
  match risk_percentages treasury augmented_token_hist_prices start end_ with
  | Ok pairs => assign_risk_contributions treasury pairs
  | Err e => {| final := treasury; raised := Some e |}
  end.

End PriceStats.

(** ** The balance-spread backtester *)

Module Spread.

(** The days of the window from [start] to [end_], both included. *)
Definition window (start end_ : Z) : list Z :=
  seqZ start (end_ - start + 1).

(** A series from its balances on consecutive days from [first]. *)
Definition make_balance_series {num : Type} (bals : list num) (first : Z)
  : gmap Z num :=
  list_to_map (zip (seqZ first (Z.of_nat (length bals))) bals).

(** The balances of a series on the days of a window, as [tolist()] gives
    them. *)
Definition tolist {num : Type} (s : gmap Z num) (start end_ : Z)
  : list (option num) :=
  (fun t => s !! t) <$> window start end_.

Section Formulas.

(** The arithmetic of the balances: binary64 in the code. *)
Context {num : Type} (A : Arithmetic.t num).

(** A balance series is a [gmap Z num]: the balance recorded on a day, days
    being numbered. *)

(** The amount swapped: [source_balance_at_start_date * pct / 100]. *)
Definition swap_amount (source_balance_at_start_date pct : num) : num :=
  Arithmetic.div A (Arithmetic.mul A source_balance_at_start_date pct)
    (Arithmetic.of_Z A 100).

(** The factor [1 - pct/100] of the source series. *)
Definition factor (pct : num) : num :=
  Arithmetic.sub A (Arithmetic.of_Z A 1)
    (Arithmetic.div A pct (Arithmetic.of_Z A 100)).

(** Modelled from the spec: the source series that
    [update_balances_with_spread] of [backend/app/spread/actions.py] builds;
    that file is not among the sources, only its tests are.  Without a
    balance at [start_date] the series is passed through unchanged;
    otherwise the series over the window is the original one scaled by
    [1 - pct/100]. *)
Definition new_source (source : gmap Z num) (pct : num) (start end_ : Z) : gmap Z num :=
  match source !! start with
  | None => source
  | Some _ =>
      (fun b => Arithmetic.mul A b (factor pct))
        <$> filter (fun kv : Z * num => start <= kv.1 /\ kv.1 <= end_) source
  end.

(** The target's own rate of return into day [t]: the ratio of its
    balances on [t] and on the day before when it has both, and [1] (a flat
    carry) while it has no history. *)
Definition target_ratio (target : gmap Z num) (t : Z) : num :=
  match target !! (t - 1), target !! t with
  | Some previous, Some current =>
      if Arithmetic.is_zero A previous then Arithmetic.of_Z A 1
      else Arithmetic.div A current previous
  | _, _ => Arithmetic.of_Z A 1
  end.

(** The swapped amount [n] days after [start], carried forward at the
    target's own rate of return. *)
Fixpoint carried (target : gmap Z num) (amount : num) (start : Z) (n : nat) : num :=
  match n with
  | O => amount
  | S n' =>
      Arithmetic.mul A (carried target amount start n')
        (target_ratio target (start + Z.of_nat n))
  end.

(** Modelled from the spec: the target series that
    [update_balances_with_spread] builds (see [new_source]).  Without a
    source balance at [start_date] it is zero on every day of the window;
    otherwise it is, on every day of the window, the balance the target
    already had plus the carried swap amount. *)
Definition new_target (source target : gmap Z num) (pct : num) (start end_ : Z)
  : gmap Z num :=
  match source !! start with
  | None => list_to_map ((fun t => (t, Arithmetic.of_Z A 0)) <$> window start end_)
  | Some b =>
      list_to_map
        ((fun t =>
            (t, Arithmetic.add A
                  (default (Arithmetic.of_Z A 0) (target !! t))
                  (carried target (swap_amount b pct) start (Z.to_nat (t - start)))))
           <$> window start end_)
  end.

(** Modelled from the spec: [update_balances_with_spread] of
    [backend/app/spread/actions.py], which is not among the sources.  The
    source series must be in the map; a target without history is read as
    an empty series; every other symbol passes through unchanged. *)
Definition update_balances_with_spread (balances : gmap string (gmap Z num))
  (source target : string) (pct : num) (start end_ : Z)
  : option (gmap string (gmap Z num)) :=
  match balances !! source with
  | None => None
  | Some source_series =>
      let target_series := default ∅ (balances !! target) in
      Some (<[source := new_source source_series pct start end_]>
              (<[target := new_target source_series target_series pct start end_]>
                 balances))
  end.

(** The ratio [s[t] / s[t-1]] of a series, where it has both balances and
    the earlier one is not zero. *)
Definition period_ratio (s : gmap Z num) (t : Z) : option num :=
  match s !! (t - 1), s !! t with
  | Some previous, Some current =>
      if Arithmetic.is_zero A previous then None
      else Some (Arithmetic.div A current previous)
  | _, _ => None
  end.

(** The total of two series on a day, where both have a balance. *)
Definition total_at (s1 s2 : gmap Z num) (t : Z) : option num :=
  match s1 !! t, s2 !! t with
  | Some x, Some y => Some (Arithmetic.add A x y)
  | _, _ => None
  end.

End Formulas.

End Spread.

(** ** The statistic of the specification *)

(** The population standard deviation of [xs], in the words of the
    specification: the square root of the mean squared deviation from the
    mean, the divisor being the number of observations (no
    degrees-of-freedom correction). *)
Definition population_std_dev (xs : list float) : float :=
  let n := of_Z (Z.of_nat (length xs)) in
  let mu := div (Pandas.sum xs) n in
  sqrt (div (Pandas.sum (map (fun x => mul (sub x mu) (sub x mu)) xs)) n).

(** The sum of a list in a given arithmetic. *)
Definition sum_in {num : Type} (A : Arithmetic.t num) (xs : list num) : num :=
  fold_left (Arithmetic.add A) xs (Arithmetic.of_Z A 0).

(** The population variance, the square of the statistic above, in a given
    arithmetic: the mean squared deviation from the mean. *)
Definition population_variance {num : Type} (A : Arithmetic.t num)
  (xs : list num) : num :=
  let n := Arithmetic.of_Z A (Z.of_nat (length xs)) in
  let mu := Arithmetic.div A (sum_in A xs) n in
  Arithmetic.div A
    (sum_in A (map (fun x => Arithmetic.mul A (Arithmetic.sub A x mu)
                                              (Arithmetic.sub A x mu)) xs))
    n.

(** The percentages of the decomposition, in a given arithmetic: every
    contribution over the volatility. *)
Definition percentages {num : Type} (A : Arithmetic.t num) (cs : list num)
  (sigma : num) : list num :=
  map (fun c => Arithmetic.div A c sigma) cs.

(** [math.isclose(a, b, rel_tol=rel_tol)] over the rationals. *)
Definition isclose_exact (a b rel_tol : Q) : Prop :=
  (Qabs (b - a) <= Qabs (rel_tol * b) \/ Qabs (b - a) <= Qabs (rel_tol * a))%Q.

(** The rational number a binary64 value stands for; [0] for the values
    that stand for none. *)
Definition to_Q (x : float) : Q :=
  match x with
  | S754_finite s m e =>
      let q := (inject_Z (Z.pos m) * Qpower 2 e)%Q in
      if s then Qopp q else q
  | _ => 0%Q
  end.

(** What the specification asks of the raw log-return [x] at position
    [t]: an infinite one becomes [0], and so does a not-a-number one from
    position 1 on. *)
Definition cleaned (t : nat) (x : float) : float :=
  if is_inf x then zero
  else if is_nan x && (1 <=? t)%nat then zero
  else x.

(** The [n] periods of [xs] that end at position [t]. *)
Definition trailing {A : Type} (n : nat) (xs : list A) (t : nat) : list A :=
  take n (drop (S t - n) xs).

(** ** Vocabulary of the rolling variance in exact arithmetic *)

(** The squares of a list of rationals. *)
Definition squares (l : list Q) : list Q := map (fun x => x * x)%Q l.

(** What the state of [roll_var] holds of its window [l] when no
    operation rounds: the number of values, no compensation, the mean, and
    the sum of squared deviations from it (written with the sum and the sum
    of squares of [l]). *)
Definition exact_state (l : list Q) (s : RollVar.State Q) : Prop :=
  RollVar.nobs s = length l
  /\ (RollVar.compensation_add s == 0
      /\ RollVar.compensation_remove s == 0
      /\ inject_Z (Z.of_nat (length l)) * RollVar.mean_x s
         == sum_in Arithmetic.exact l
      /\ RollVar.ssqdm_x s
         == sum_in Arithmetic.exact (squares l)
            - RollVar.mean_x s * sum_in Arithmetic.exact l)%Q.

(** ** Vocabulary of the properties of the returns matrix *)

(** Every row has one value per column. *)
Definition rectangular (df : Pandas.DataFrame) : Prop :=
  Forall (fun r : Z * list float => length r.2 = length (Pandas.columns df))
         (Pandas.rows df).

(** The windowed histories, as [make_returns_matrix] joins them. *)
Definition hist_prices_items (hist : PriceStats.HistPricesBySymbol)
  (start end_ : Z) : PriceStats.HistPricesBySymbol :=
  map (fun item : string * Pandas.HistPrices =>
         (item.1, Pandas.loc start end_ (Pandas.sort_index item.2))) hist.

(** The cells of a table: every value with the label of its column and the
    timestamp of its row. *)
Definition cells (df : Pandas.DataFrame) : list (string * Z * float) :=
  flat_map (fun r : Z * list float =>
              map (fun c : string * float => (c.1, r.1, c.2))
                  (zip (Pandas.columns df) r.2))
           (Pandas.rows df).

(** What [fill_asset_risk_contributions] never writes: the symbol and the
    balance of an asset. *)
Definition holding (a : PriceStats.Asset) : string * float :=
  (PriceStats.token_symbol a, PriceStats.balance a).

(** ** [backend/app/token_whitelists/whitelists.py] *)

Module Whitelists.

(** A value as [json.loads] builds it.  The pairs of an object are the
    items of the dict, one per key. *)
#[warnings="-register-all"]
Inductive json : Type :=
| JNull
| JBool (b : bool)
| JInt (n : Z)
| JFloat (x : float)
| JString (s : string)
| JArray (items : list json)
| JObject (pairs : list (string * json)).

(** The exceptions of this module.  [HTTPStatusError] is an instance of
    that very class, as [resp.raise_for_status()] raises it;
    [RequestError cls] is an instance of [httpx.RequestError] or of a
    subclass of it, [cls] being the name of its class; [OtherError cls] is
    an instance of a class outside the four families that the module
    handles, [TypeError] apart. *)
Inductive error : Type :=
| HTTPStatusError
| RequestError (cls : string)
| JSONDecodeError
| KeyError (key : string)
| TypeError
| OtherError (cls : string).

(** How a call ends: with a value or with an exception. *)
Inductive outcome (A : Type) : Type :=
| Returns (a : A)
| Raises (e : error).
Arguments Returns {A} a.
Arguments Raises {A} e.

Definition and_then {A B : Type} (r : outcome A) (k : A -> outcome B)
  : outcome B :=
  match r with
  | Returns a => k a
  | Raises e => Raises e
  end.

Notation "'let*' x := r 'in' k" := (and_then r (fun x => k))
  (at level 10, x name, r at level 100, k at level 200).

(** [value[key]] for a string [key]: only a dict can be indexed so. *)
Definition getitem (value : json) (key : string) : outcome json :=
  match value with
  | JObject pairs =>
      match List.find (fun p : string * json => String.eqb p.1 key) pairs with
      | Some p => Returns p.2
      | None => Raises (KeyError key)
      end
  | _ => Raises TypeError
  end.

(** [for item in value]: the items of a list, the keys of a dict, the
    characters of a string. *)
Definition iterate (value : json) : outcome (list json) :=
  match value with
  | JArray items => Returns items
  | JObject pairs => Returns (map (fun p : string * json => JString p.1) pairs)
  | JString s =>
      Returns (map (fun c => JString (String c EmptyString))
                   (String.list_ascii_of_string s))
  | _ => Raises TypeError
  end.

(** [value == 1]: true of the integer, of the float [1.0] and of [True]. *)
Definition equals_1 (value : json) : bool :=
  match value with
  | JInt n => Z.eqb n 1
  | JFloat x => eqb x (of_Z 1)
  | JBool b => b
  | _ => false
  end.

(** [bool(value)], as [not value] tests it. *)
Definition truthy (value : json) : bool :=
  match value with
  | JNull => false
  | JBool b => b
  | JInt n => negb (Z.eqb n 0)
  | JFloat x => negb (eqb x zero)
  | JString s => negb (String.eqb s "")
  | JArray items => match items with [] => false | _ => true end
  | JObject pairs => match pairs with [] => false | _ => true end
  end.

Definition ETH_PLACEHOLDER : json :=
  JString "0xeeeeeeeeeeeeeeeeeeeeeeeeeeeeeeeeeeeeeeee".

(** [[token["address"] for token in raw_tokenlist if token["chainId"] == 1]],
    token after token: the condition first, then the address. *)
Fixpoint chain_1_addresses (tokens : list json) : outcome (list json) :=
  match tokens with
  | [] => Returns []
  | token :: tokens' =>
      let* chain_id := getitem token "chainId" in
      if equals_1 chain_id
      then
        let* address := getitem token "address" in
        let* rest := chain_1_addresses tokens' in
        Returns (address :: rest)
      else chain_1_addresses tokens'
  end.

Definition process_raw_tokenlist (raw_tokenlist : json) : outcome (list json) :=
  let* tokens := iterate raw_tokenlist in
  let* tokenlist_whitelist := chain_1_addresses tokens in
  Returns (tokenlist_whitelist ++ [ETH_PLACEHOLDER]).

(** [[item["exchange"] async for item in ...]] over the items of one page. *)
Fixpoint exchanges (items : list json) : outcome (list json) :=
  match items with
  | [] => Returns []
  | item :: items' =>
      let* exchange := getitem item "exchange" in
      let* rest := exchanges items' in
      Returns (exchange :: rest)
  end.

(** One turn of the loop of [covalent_pairs_generator], its items consumed
    by [get_covalent_pair_list]: the exchanges of the page, and whether the
    loop goes on. *)
Definition page_exchanges (data : json) : outcome (list json * bool) :=
  let* items := getitem data "items" in
  let* items := iterate items in
  let* whitelist := exchanges items in
  let* pagination := getitem data "pagination" in
  let* has_more := getitem pagination "has_more" in
  Returns (whitelist, truthy has_more).

(** [flatten_2d] of [get_whitelists_from_apis]. *)
Definition flatten_2d {A : Type} (input_list : list (list A)) : list A :=
  fold_left (fun payload sublist => payload ++ sublist) input_list [].

(** The classes of [except (HTTPStatusError, RequestError, JSONDecodeError,
    KeyError)], subclasses included. *)
Definition handled (e : error) : bool :=
  match e with
  | HTTPStatusError | RequestError _ | JSONDecodeError | KeyError _ => true
  | TypeError | OtherError _ => false
  end.

(** [error.__class__ in [HTTPStatusError, RequestError]]: the class itself,
    not a subclass. *)
Definition class_is_http_or_request (e : error) : bool :=
  match e with
  | HTTPStatusError => true
  | RequestError cls => String.eqb cls "RequestError"
  | _ => false
  end.

(** The requests of the module. *)
Inductive request : Type :=
| CovalentPools (chain_id : Z) (protocol : string) (page_number : nat)
| Tokenlist (tokenlist_url : string).

Definition COVALENT_POOLS_URL (chain_id : string) (protocol : string) : string :=
  "https://api.covalenthq.com/v1/" ++ chain_id ++ "/xy=k/" ++ protocol
  ++ "/pools/".

(** The provider and what the task logger has recorded. *)
Record World (Provider : Type) : Type := {
  provider : Provider;
  log : list string
}.
Arguments provider {Provider} w.
Arguments log {Provider} w.

Section Network.

(** What [resp.json()] gives for a request, or the exception that
    [client.get], [resp.raise_for_status()] or [resp.json()] raises.  No
    request is sent twice in one run, so that a function of the request
    stands for the remote side. *)
Variable respond : request -> outcome json.

(** The exception that [gather] passes on when these were raised by the
    awaited calls: the one raised first, which the scheduling decides. *)
Variable first_raised : list error -> error.

(** The storage helpers, whose module is not part of the sources:
    [store_token_whitelist] changes the provider and may raise,
    [retrieve_token_whitelist] reads it. *)
Context {Provider : Type}.
Variable store_token_whitelist : list json -> Provider -> Provider * option error.
Variable retrieve_token_whitelist : Provider -> outcome (list json).

Definition get_single_covalent_pairs_page_response (chain_id : Z)
  (protocol : string) (page_number : nat) : outcome json :=
  let* body := respond (CovalentPools chain_id protocol page_number) in
  getitem body "data".

(** One turn of the loop of [covalent_pairs_generator]: fetch the page and
    hand its items over. *)
Definition covalent_page (chain_id : Z) (protocol : string)
  (page_number : nat) : outcome (list json * bool) :=
  let* data := get_single_covalent_pairs_page_response
                 chain_id protocol page_number in
  page_exchanges data.

(** [covalent_pairs_generator] consumed by the comprehension of
    [get_covalent_pair_list], from page [page_number] on.  [fuel] bounds the
    number of turns of [while True]; [None] is a run that needs more. *)
Fixpoint covalent_pairs_from (fuel : nat) (protocol : string) (chain_id : Z)
  (page_number : nat) : option (outcome (list json)) :=
  match fuel with
  | O => None
  | S fuel' =>
      match covalent_page chain_id protocol page_number with
      | Raises e => Some (Raises e)
      | Returns (whitelist, has_more) =>
          if has_more
          then
            match covalent_pairs_from fuel' protocol chain_id (S page_number) with
            | Some (Returns rest) => Some (Returns (whitelist ++ rest))
            | Some (Raises e) => Some (Raises e)
            | None => None
            end
          else Some (Returns whitelist)
      end
  end.

Definition get_covalent_pair_list (fuel : nat) (protocol : string)
  (chain_id : Z) : option (outcome (list json)) :=
  covalent_pairs_from fuel protocol chain_id 0.

(** The result of a getter: the data source and its whitelist. *)
Definition with_datasource (datasource : string)
  (r : option (outcome (list json))) : option (outcome (string * list json)) :=
  match r with
  | Some (Returns whitelist) => Some (Returns (datasource, whitelist))
  | Some (Raises e) => Some (Raises e)
  | None => None
  end.

Definition get_uniswap_v2_pairs_covalent (fuel : nat)
  : option (outcome (string * list json)) :=
  with_datasource (COVALENT_POOLS_URL "1" "uniswap_v2")
    (get_covalent_pair_list fuel "uniswap_v2" 1).

Definition get_sushiswap_pairs_covalent (fuel : nat)
  : option (outcome (string * list json)) :=
  with_datasource (COVALENT_POOLS_URL "1" "sushiswap")
    (get_covalent_pair_list fuel "sushiswap" 1).

Definition get_raw_tokenlist (tokenlist_url : string) : outcome json :=
  let* body := respond (Tokenlist tokenlist_url) in
  getitem body "tokens".

Definition get_processed_tokenlists (tokenlist_url : string)
  : outcome (list json) :=
  let* raw_tokenlist := get_raw_tokenlist tokenlist_url in
  process_raw_tokenlist raw_tokenlist.

Definition uniswap_pairs_tokenlists_url : string :=
  "https://raw.githubusercontent.com/"
  ++ "jab416171/uniswap-pairtokens/master/uniswap_pair_tokens.json".

Definition coingecko_tokenlists_url : string :=
  "https://tokens.coingecko.com/uniswap/all.json".

Definition cmc_tokenlists_url : string :=
  "https://api.coinmarketcap.com/data-api/v3/uniswap/all.json".

Definition get_uniswap_pairs_tokenlists : option (outcome (string * list json)) :=
  with_datasource uniswap_pairs_tokenlists_url
    (Some (get_processed_tokenlists uniswap_pairs_tokenlists_url)).

Definition get_coingecko_tokenlists : option (outcome (string * list json)) :=
  with_datasource coingecko_tokenlists_url
    (Some (get_processed_tokenlists coingecko_tokenlists_url)).

Definition get_cmc_tokenlists : option (outcome (string * list json)) :=
  with_datasource cmc_tokenlists_url
    (Some (get_processed_tokenlists cmc_tokenlists_url)).

(** The exceptions among the ends of the awaited calls. *)
Definition raised_by {A : Type} (awaited : list (option (outcome A)))
  : list error :=
  omap (fun r => match r with Some (Raises e) => Some e | _ => None end) awaited.

(** The values of the awaited calls, if every one of them returned. *)
Fixpoint returned_by {A : Type} (awaited : list (option (outcome A)))
  : option (list A) :=
  match awaited with
  | [] => Some []
  | Some (Returns a) :: awaited' =>
      match returned_by awaited' with
      | Some rest => Some (a :: rest)
      | None => None
      end
  | _ :: _ => None
  end.

(** [await gather] over the awaited calls: the values in the order of the calls once all
    have returned; the first exception raised, if any; no end while a call
    goes on and none has raised. *)
Definition gather {A : Type} (awaited : list (option (outcome A)))
  : option (outcome (list A)) :=
  match raised_by awaited with
  | [] =>
      match returned_by awaited with
      | Some values => Some (Returns values)
      | None => None
      end
  | e :: es => Some (Raises (first_raised (e :: es)))
  end.

Definition get_whitelists_from_apis
  (api_getters : list (option (outcome (string * list json))))
  : option (outcome (list json)) :=
  match gather api_getters with
  | Some (Returns results) =>
      Some (Returns (flatten_2d (map (fun r : string * list json => r.2) results)))
  | Some (Raises e) => Some (Raises e)
  | None => None
  end.

Definition get_all_covalent_pairs (fuel : nat) : option (outcome (list json)) :=
  get_whitelists_from_apis
    [get_uniswap_v2_pairs_covalent fuel; get_sushiswap_pairs_covalent fuel].

Definition get_all_tokenlists : option (outcome (list json)) :=
  get_whitelists_from_apis
    [get_cmc_tokenlists; get_coingecko_tokenlists; get_uniswap_pairs_tokenlists].

(** [logger.error(message, exc_info=error)]: the message is recorded. *)
Definition logger_error (message : string) (w : World Provider) : World Provider :=
  {| provider := provider w; log := log w ++ [message] |}.

(** The part after [try] of both [store_and_get] functions: store, then
    return what was stored. *)
Definition store_and_return (latest_whitelist : list json) (w : World Provider)
  : World Provider * outcome (list json) :=
  let stored := store_token_whitelist latest_whitelist (provider w) in
  ({| provider := stored.1; log := log w |},
   match stored.2 with
   | None => Returns latest_whitelist
   | Some e => Raises e
   end).

Definition store_and_get_covalent_pairs_whitelist (fuel : nat)
  (w : World Provider) : option (World Provider * outcome (list json)) :=
  match get_all_covalent_pairs fuel with
  | None => None
  | Some (Raises error) =>
      if handled error
      then
        let log_args :=
          if class_is_http_or_request error
          then ("receiving pairs", "Covalent API")
          else ("processing pairs", "Covalent API repsonse") in
        Some (logger_error ("error " ++ log_args.1 ++ " from " ++ log_args.2) w,
              Returns [])
      else Some (w, Raises error)
  | Some (Returns latest_whitelist) => Some (store_and_return latest_whitelist w)
  end.

Definition store_and_get_tokenlist_whitelist (w : World Provider)
  : option (World Provider * outcome (list json)) :=
  match get_all_tokenlists with
  | None => None
  | Some (Raises error) =>
      if handled error
      then
        if class_is_http_or_request error
        then Some (logger_error "error receiving token list from API" w,
                   Returns [])
        else Some (logger_error "error processing token list API repsonse" w,
                   Returns [])
      else Some (w, Raises error)
  | Some (Returns latest_whitelist) => Some (store_and_return latest_whitelist w)
  end.

Definition maybe_populate_whitelist (fuel : nat) (w : World Provider)
  : option (World Provider * outcome (list json)) :=
  match retrieve_token_whitelist (provider w) with
  | Raises e => Some (w, Raises e)
  | Returns latest_whitelist =>
      match latest_whitelist with
      | [] =>
          match store_and_get_tokenlist_whitelist w with
          | None => None
          | Some (w1, Raises e) => Some (w1, Raises e)
          | Some (w1, Returns tokenlist) =>
              match store_and_get_covalent_pairs_whitelist fuel w1 with
              | None => None
              | Some (w2, Raises e) => Some (w2, Raises e)
              | Some (w2, Returns pairs) =>
                  Some (w2, Returns (latest_whitelist ++ tokenlist ++ pairs))
              end
          end
      | _ :: _ => Some (w, Returns latest_whitelist)
      end
  end.

End Network.

(** *** Vocabulary of the properties *)

(** A token that the comprehension of [process_raw_tokenlist] keeps. *)
Definition on_chain_1 (token : json) : bool :=
  match getitem token "chainId" with
  | Returns chain_id => equals_1 chain_id
  | Raises _ => false
  end.

Definition address_of (token : json) : option json :=
  match getitem token "address" with
  | Returns address => Some address
  | Raises _ => None
  end.

(** A token that the comprehension gets through: a dict with a [chainId],
    and with an [address] if it is of chain 1. *)
Definition well_formed (token : json) : Prop :=
  (exists chain_id, getitem token "chainId" = Returns chain_id)
  /\ (on_chain_1 token = true -> is_Some (address_of token)).

(** The addresses of the tokens of chain 1. *)
Definition chain_1 (tokens : list json) : list json :=
  omap address_of (filter (fun token => on_chain_1 token = true) tokens).

(** The remote side answers the request for a token list with an object
    whose [tokens] are these. *)
Definition serves (respond : request -> outcome json) (tokenlist_url : string)
  (tokens : list json) : Prop :=
  exists body, respond (Tokenlist tokenlist_url) = Returns body
               /\ getitem body "tokens" = Returns (JArray tokens).

(** The message that [store_and_get_tokenlist_whitelist] logs. *)
Definition tokenlist_message (e : error) : string :=
  if class_is_http_or_request e
  then "error receiving token list from API"
  else "error processing token list API repsonse".

(** The message that [store_and_get_covalent_pairs_whitelist] logs. *)
Definition covalent_pairs_message (e : error) : string :=
  if class_is_http_or_request e
  then "error receiving pairs from Covalent API"
  else "error processing pairs from Covalent API repsonse".

End Whitelists.

(** ** Sample inputs *)

Module Samples.

Import PriceStats.

Definition eth : Asset :=
  {| token_symbol := "ETH"; balance := of_Z 100; risk_contribution := None |}.

Definition dai : Asset :=
  {| token_symbol := "DAI"; balance := of_Z 300; risk_contribution := None |}.

(** Returns 0, 1, 2 on the days 1, 2, 3 (given out of order) and one day
    outside the window. *)
Definition hist_a : Pandas.HistPrices :=
  [(3, of_Z 2); (1, of_Z 0); (2, of_Z 1); (9, of_Z 5)].

Definition hist_b : Pandas.HistPrices :=
  [(1, of_Z 1); (2, of_Z 3); (3, of_Z 2)].

Definition treasury_eth_dai : Treasury :=
  {| assets := [eth; dai]; usd_total := of_Z 400 |}.

Definition treasury_dai : Treasury :=
  {| assets := [dai]; usd_total := of_Z 300 |}.

Definition treasury_eth : Treasury :=
  {| assets := [eth]; usd_total := of_Z 100 |}.

(** A treasury in debt: one asset of balance -100, which is its total. *)
Definition treasury_eth_negative_total : Treasury :=
  {| assets := [ {| token_symbol := "ETH"; balance := of_Z (-100);
                    risk_contribution := None |} ];
     usd_total := of_Z (-100) |}.

(** An empty position: one asset of balance 0, which is its total. *)
Definition treasury_eth_zero_total : Treasury :=
  {| assets := [ {| token_symbol := "ETH"; balance := of_Z 0;
                    risk_contribution := None |} ];
     usd_total := of_Z 0 |}.

(** The returns matrix of [hist_a] alone over the days 1 to 3. *)
Definition matrix_a : Pandas.DataFrame :=
  {| Pandas.columns := ["ETH"];
     Pandas.rows := [(1, [of_Z 0]); (2, [of_Z 1]); (3, [of_Z 2])] |}.

(** The returns matrix of [hist_a] and [hist_b] over the days 1 to 3. *)
Definition matrix_ab : Pandas.DataFrame :=
  {| Pandas.columns := ["ETH"; "DAI"];
     Pandas.rows := [(1, [of_Z 0; of_Z 1]); (2, [of_Z 1; of_Z 3]);
                     (3, [of_Z 2; of_Z 2])] |}.

Definition prices : list float :=
  map of_Z [5; 5; 5; 0; 0; 3; 6; -12; 24; 48; 48].

(** A price that jumps from 1 to [2^512], stays there for a week and then
    doubles: the returns are [512 ln 2], six times [0], and [ln 2]. *)
Definition prices_jump : list float :=
  of_Z 1 :: repeat (of_Z (2 ^ 512)) 7 ++ [of_Z (2 ^ 513)].

(** Two assets that move against each other, day by day. *)
Definition hist_up : Pandas.HistPrices := [(1, of_Z 0); (2, of_Z 1)].

Definition hist_down : Pandas.HistPrices := [(1, of_Z 0); (2, of_Z (-1))].

(** A treasury that holds the two in nearly equal amounts. *)
Definition treasury_hedged : Treasury :=
  {| assets :=
       [ {| token_symbol := "ETH"; balance := of_Z (2 ^ 47 + 27);
            risk_contribution := None |};
         {| token_symbol := "iETH"; balance := of_Z (2 ^ 47 - 27);
            risk_contribution := None |} ];
     usd_total := of_Z (2 ^ 48) |}.

(** The balances of the tests of the backtester, 2022-01-01 being day 1,
    in a given arithmetic. *)
Definition gvt {num : Type} (A : Arithmetic.t num) : gmap Z num :=
  Spread.make_balance_series
    [Arithmetic.of_Z A 123; Arithmetic.of_Z A 246] 1.

Definition usdc {num : Type} (A : Arithmetic.t num) : gmap Z num :=
  Spread.make_balance_series
    [Arithmetic.of_Z A 10; Arithmetic.of_Z A 10] 1.



End Samples.

(** ** Sample answers of the remote side *)

Module Responses.

Import Whitelists.

(** A token of chain 1, one of another chain that has no address, and one
    whose [chainId] is [true]. *)
Definition tokens : list json :=
  [ JObject [("chainId", JInt 1); ("address", JString "0xa")];
    JObject [("chainId", JInt 56)];
    JObject [("address", JString "0xb"); ("chainId", JBool true)] ].

Definition pair (exchange : string) : json :=
  JObject [("exchange", JString exchange)].

Definition page (items : list json) (pagination : list (string * json)) : json :=
  JObject [("data", JObject [("items", JArray items);
                             ("pagination", JObject pagination)])].

(** A remote side with the same token list at the three sources, two pages
    of Uniswap pairs, the second of which has [null] for [has_more], and
    SushiSwap pairs whose second page has no [has_more]. *)
Definition respond (r : request) : outcome json :=
  match r with
  | Tokenlist _ => Returns (JObject [("tokens", JArray tokens)])
  | CovalentPools _ "uniswap_v2" 0 =>
      Returns (page [pair "0xp0"] [("has_more", JBool true)])
  | CovalentPools _ "uniswap_v2" 1 =>
      Returns (page [pair "0xp1"] [("has_more", JNull)])
  | CovalentPools _ "sushiswap" 0 =>
      Returns (page [pair "0xs0"] [("has_more", JInt 1)])
  | CovalentPools _ "sushiswap" 1 => Returns (page [pair "0xs1"] [])
  | CovalentPools _ _ _ => Raises HTTPStatusError
  end.

(** A remote side that always has one more page. *)
Definition respond_endless (r : request) : outcome json :=
  Returns (page [] [("has_more", JBool true)]).

(** A remote side that cannot be reached. *)
Definition respond_down (r : request) : outcome json :=
  Raises (RequestError "ConnectTimeout").

(** [gather] passes on the exception of the first call that raised one. *)
Definition first_raised (es : list error) : error :=
  match es with
  | e :: _ => e
  | [] => TypeError
  end.

(** A provider that keeps what it is given. *)
Definition store_token_whitelist (whitelist : list json) (stored : list json)
  : list json * option error :=
  (stored ++ whitelist, None).

Definition retrieve_token_whitelist (stored : list json) : outcome (list json) :=
  Returns stored.

Definition empty : World (list json) := {| provider := []; log := [] |}.

End Responses.

(** * Properties *)

Import PriceStats.

(** ** The returns matrix: failures *)

Lemma existsb_eqb_elem_of (s : string) (l : list string) :
  existsb (String.eqb s) l = true <-> s ∈ l.
Proof.
  rewrite existsb_exists. split.
  - intros (x & Hx & Heq). apply String.eqb_eq in Heq. subst.
    by apply list_elem_of_In.
  - intros H. exists s. split; [by apply list_elem_of_In | apply String.eqb_refl].
Qed.

Lemma select_subseteq {A : Type} (keep : list bool) (l : list A) :
  Pandas.select keep l ⊆ l.
Proof.
  revert l. induction keep as [|k keep IH]; intros [|x l]; simpl; try set_solver.
  destruct k; specialize (IH l); set_solver.
Qed.

Lemma drop_column_columns label df df' :
  Pandas.drop_column label df = Ok df' ->
  Pandas.columns df' ⊆ Pandas.columns df.
Proof.
  unfold Pandas.drop_column. destruct (existsb _ _); [|discriminate].
  intros [= <-]. simpl. apply select_subseteq.
Qed.

Lemma drop_column_absent label df :
  label ∉ Pandas.columns df ->
  Pandas.drop_column label df
  = Err (KeyError (Pandas.not_found_in_axis label)).
Proof.
  intros H. unfold Pandas.drop_column.
  destruct (existsb _ _) eqn:E; [|done].
  apply existsb_eqb_elem_of in E. done.
Qed.

Lemma append_x_not_ETH (s : string) : s +:+ "_x" <> "ETH".
Proof. destruct s as [|a [|b [|c [|d s]]]]; simpl; discriminate. Qed.

Lemma append_y_not_ETH (s : string) : s +:+ "_y" <> "ETH".
Proof. destruct s as [|a [|b [|c [|d s]]]]; simpl; discriminate. Qed.

Lemma merge_no_ETH left symbol right df :
  "ETH" ∉ Pandas.columns left ->
  symbol <> "ETH" ->
  Pandas.merge_on_timestamp left symbol right = Ok df ->
  "ETH" ∉ Pandas.columns df.
Proof.
  intros Hleft Hsym. unfold Pandas.merge_on_timestamp.
  destruct (String.eqb symbol "timestamp"); [discriminate|].
  intros [= <-]. simpl. rewrite elem_of_app, list_elem_of_fmap.
  intros [(c & Hc & Hin) | Hlast].
  - destruct (String.eqb c symbol).
    + by apply (append_x_not_ETH c).
    + by subst.
  - apply list_elem_of_singleton in Hlast.
    destruct (existsb _ _).
    + by apply (append_y_not_ETH symbol).
    + done.
Qed.

Lemma reduce_no_ETH items matrix df :
  "ETH" ∉ Pandas.columns matrix ->
  "ETH" ∉ items.*1 ->
  foldM reducer_on_symbol_and_hist_prices items matrix = Ok df ->
  "ETH" ∉ Pandas.columns df.
Proof.
  revert matrix. induction items as [|[symbol hist] items IH]; intros matrix Hm Hk; simpl.
  - by intros [= <-].
  - destruct (Pandas.merge_on_timestamp matrix symbol hist) as [m'|e] eqn:E; [|discriminate].
    simpl. apply IH.
    + eapply merge_no_ETH; [done| |done]. set_solver.
    + set_solver.
Qed.

(** C5, amended.  With an empty asset mapping [make_returns_matrix] fails,
    for every treasury and window, and the exception is the [IndexError] of
    [hist_prices_items[0]] on the empty list; the code has no
    [EmptyInputError]. *)
Theorem make_returns_matrix_empty treasury start end_ :
  make_returns_matrix treasury [] start end_
  = Err (IndexError "list index out of range").
Proof. reflexivity. Qed.

(** C5 as stated fails: on the empty mapping the exception raised is not
    an [EmptyInputError]. *)
Lemma make_returns_matrix_empty_not_EmptyInputError :
  ~ (exists e, make_returns_matrix Samples.treasury_eth [] 1 3 = Err e
               /\ exn_name e = "EmptyInputError").
Proof. intros (e & He & Hn). cbv in He. injection He as <-. discriminate. Qed.

Lemma join_without_ETH treasury items matrix :
  get_asset treasury "ETH" = Err StopIteration ->
  "ETH" ∉ Pandas.columns matrix ->
  "ETH" ∉ items.*1 ->
  exists e,
    (do joined <- foldM reducer_on_symbol_and_hist_prices items matrix;
     do returns_matrix <- Pandas.drop_column "returns" joined;
     match get_asset treasury "ETH" with
     | Ok _ => Ok returns_matrix
     | Err StopIteration => Pandas.drop_column "ETH" returns_matrix
     | Err e => Err e
     end) = Err e.
Proof.
  intros Hget Hm Hkeys.
  destruct (foldM _ items matrix) as [joined|e] eqn:Ejoin; simpl; [|eauto].
  destruct (Pandas.drop_column "returns" joined) as [rm|e] eqn:Edrop; simpl; [|eauto].
  rewrite Hget. exists (KeyError (Pandas.not_found_in_axis "ETH")).
  apply drop_column_absent.
  intros Hin. apply (drop_column_columns _ _ _ Edrop) in Hin. revert Hin.
  by eapply reduce_no_ETH.
Qed.

(** C10.  When the treasury has no asset of symbol ["ETH"] and ["ETH"] is
    not a key of the asset mapping, every call of [make_returns_matrix]
    ends in an exception: if nothing fails before, the lookup of ["ETH"]
    misses and the drop of the ["ETH"] column, attempted without a test for
    its presence, is a [KeyError]. *)
Theorem make_returns_matrix_without_ETH treasury
  (augmented_token_hist_prices : HistPricesBySymbol) start end_ :
  get_asset treasury "ETH" = Err StopIteration ->
  "ETH" ∉ augmented_token_hist_prices.*1 ->
  exists e, make_returns_matrix treasury augmented_token_hist_prices start end_ = Err e.
Proof.
  intros Hget Hkeys. unfold make_returns_matrix.
  set (items := map _ augmented_token_hist_prices).
  assert (Hitems : items.*1 = augmented_token_hist_prices.*1).
  { subst items. clear. induction augmented_token_hist_prices as [|[s h] l IH]; simpl; [done|]. by f_equal. }
  rewrite <- Hitems in Hkeys. clearbody items.
  destruct items as [|item items']; [simpl; eauto|].
  apply join_without_ETH; [done| |done].
  simpl. set_solver.
Qed.

Lemma make_returns_matrix_without_ETH_witness :
  exists e, make_returns_matrix Samples.treasury_dai [("DAI", Samples.hist_b)] 1 3 = Err e.
Proof.
  apply make_returns_matrix_without_ETH.
  - reflexivity.
  - simpl. set_solver.
Defined.

(** ** Balances, weights and the assignment loop *)

Lemma fold_insert_lookup_None (l : list Asset) (m : gmap string float) s :
  fold_left (fun m a => <[token_symbol a := balance a]> m) l m !! s = None
  <-> m !! s = None /\ s ∉ token_symbol <$> l.
Proof.
  revert m. induction l as [|a l IH]; intros m; simpl.
  - set_solver.
  - rewrite IH, lookup_insert_None, not_elem_of_cons. naive_solver.
Qed.

Lemma current_balances_None treasury s :
  current_balances treasury !! s = None <-> s ∉ symbols treasury.
Proof.
  unfold current_balances, symbols. rewrite fold_insert_lookup_None.
  rewrite lookup_empty. naive_solver.
Qed.

Lemma find_symbol_None (l : list Asset) s :
  List.find (fun a => String.eqb (token_symbol a) s) l = None
  <-> s ∉ token_symbol <$> l.
Proof.
  induction l as [|a l IH]; simpl.
  - set_solver.
  - destruct (String.eqb_spec (token_symbol a) s) as [->|Hne].
    + split; [done|]. intros H. exfalso. apply H. set_solver.
    + rewrite IH, not_elem_of_cons. naive_solver.
Qed.

Lemma get_asset_StopIteration treasury s :
  get_asset treasury s = Err StopIteration <-> s ∉ symbols treasury.
Proof.
  unfold get_asset, symbols. rewrite <- find_symbol_None.
  destruct (List.find _ _); naive_solver.
Qed.

(** The weights exist exactly when every column has a balance. *)
Lemma make_weights_Ok treasury cols :
  (forall s, s ∈ cols -> s ∈ symbols treasury) ->
  exists w, make_weights treasury cols = Ok w /\ length w = length cols.
Proof.
  intros H. unfold make_weights.
  assert (exists bs, mapM (fun symbol =>
            match current_balances treasury !! symbol with
            | Some b => Ok b | None => Err (KeyError symbol) end) cols = Ok bs
            /\ length bs = length cols) as (bs & -> & Hlen).
  { induction cols as [|c cols IH]; simpl; [by exists []|].
    destruct (current_balances treasury !! c) as [b|] eqn:E.
    - destruct IH as (bs & -> & Hlen); [set_solver|].
      exists (b :: bs). simpl. by rewrite Hlen.
    - apply current_balances_None in E. exfalso. apply E, H. set_solver. }
  simpl. eexists. split; [done|]. by rewrite length_map.
Qed.

Lemma make_weights_Ok_inv treasury cols w :
  make_weights treasury cols = Ok w ->
  forall s, s ∈ cols -> s ∈ symbols treasury.
Proof.
  unfold make_weights. revert w. induction cols as [|c cols IH]; intros w; simpl.
  - set_solver.
  - destruct (current_balances treasury !! c) as [b|] eqn:E; simpl; [|discriminate].
    destruct (mapM _ cols) as [bs|e] eqn:E'; simpl; [|discriminate].
    intros _ s [->|Hs]%elem_of_cons.
    + destruct (decide (c ∈ symbols treasury)) as [|Hn]; [done|].
      apply current_balances_None in Hn. congruence.
    + by eapply (IH _ eq_refl).
Qed.

Lemma make_weights_KeyError treasury cols s :
  s ∈ cols -> s ∉ symbols treasury ->
  exists k, make_weights treasury cols = Err (KeyError k)
            /\ k ∈ cols /\ k ∉ symbols treasury.
Proof.
  unfold make_weights. induction cols as [|c cols IH]; intros Hin Hs; simpl.
  - set_solver.
  - destruct (current_balances treasury !! c) as [b|] eqn:E; simpl.
    + assert (Hc : c ∈ symbols treasury).
      { destruct (decide (c ∈ symbols treasury)) as [|Hn]; [done|].
        apply current_balances_None in Hn. congruence. }
      destruct IH as (k & Hk & Hkin & Hkn); [set_solver|done|].
      destruct (mapM _ cols) as [bs|e]; simpl in *; [discriminate|].
      exists k. split; [done|]. set_solver.
    + apply current_balances_None in E. exists c. set_solver.
Qed.

Lemma set_risk_contribution_Ok s p (l : list Asset) :
  s ∈ token_symbol <$> l ->
  exists l', set_risk_contribution s p l = Ok l'
             /\ token_symbol <$> l' = token_symbol <$> l.
Proof.
  induction l as [|a l IH]; simpl; [set_solver|].
  intros Hin. destruct (String.eqb_spec (token_symbol a) s) as [->|Hne].
  - eexists. split; [done|]. done.
  - destruct IH as (l' & -> & Hl'); [set_solver|].
    simpl. eexists. split; [done|]. rewrite !fmap_cons. by f_equal.
Qed.

Lemma set_risk_contribution_find_eq s p (l l' : list Asset) :
  set_risk_contribution s p l = Ok l' ->
  exists a, List.find (fun a => String.eqb (token_symbol a) s) l' = Some a
            /\ risk_contribution a = Some p.
Proof.
  revert l'. induction l as [|a l IH]; intros l'; simpl; [discriminate|].
  destruct (String.eqb (token_symbol a) s) eqn:E.
  - intros [= <-]. simpl. rewrite E. eauto.
  - destruct (set_risk_contribution s p l) as [l''|e]; simpl; [|discriminate].
    intros [= <-]. simpl. rewrite E. by apply IH.
Qed.

Lemma set_risk_contribution_find_ne s s' p (l l' : list Asset) :
  s <> s' ->
  set_risk_contribution s p l = Ok l' ->
  List.find (fun a => String.eqb (token_symbol a) s') l'
  = List.find (fun a => String.eqb (token_symbol a) s') l.
Proof.
  intros Hne. revert l'. induction l as [|a l IH]; intros l'; simpl; [discriminate|].
  destruct (String.eqb_spec (token_symbol a) s) as [Heq|Hn].
  - intros [= <-]. simpl. rewrite Heq.
    destruct (String.eqb_spec s s'); [done|]. done.
  - destruct (set_risk_contribution s p l) as [l''|e]; simpl; [|discriminate].
    intros [= <-]. simpl. destruct (String.eqb _ s'); [done|]. by apply IH.
Qed.

(** The loop ends normally when every symbol has an asset. *)
Lemma assign_risk_contributions_returns treasury pairs :
  (forall s, s ∈ pairs.*1 -> s ∈ symbols treasury) ->
  raised (assign_risk_contributions treasury pairs) = None.
Proof.
  revert treasury. induction pairs as [|[s p] pairs IH]; intros treasury H; simpl; [done|].
  destruct (set_risk_contribution_Ok s p (assets treasury)) as (l' & -> & Hl').
  { apply H. set_solver. }
  apply IH. unfold symbols. cbn [assets]. rewrite Hl'. intros s' Hs'. apply H. set_solver.
Qed.

(** After a loop that ends normally over distinct symbols, every pair is
    found in the treasury. *)
Lemma assign_risk_contributions_lookup treasury pairs s p :
  NoDup pairs.*1 ->
  raised (assign_risk_contributions treasury pairs) = None ->
  (s, p) ∈ pairs ->
  exists a, get_asset (final (assign_risk_contributions treasury pairs)) s = Ok a
            /\ risk_contribution a = Some p.
Proof.
  revert treasury. induction pairs as [|[s' p'] pairs IH]; intros treasury Hnd; simpl.
  - set_solver.
  - apply NoDup_cons in Hnd as [Hnotin Hnd].
    destruct (set_risk_contribution s' p' (assets treasury)) as [l'|e] eqn:E;
      simpl; [|discriminate].
    intros Hr [[= -> ->]|Hin]%elem_of_cons; [|by apply IH].
    assert (Hkeep : forall pairs t,
               s' ∉ pairs.*1 ->
               raised (assign_risk_contributions t pairs) = None ->
               List.find (fun a => String.eqb (token_symbol a) s')
                 (assets (final (assign_risk_contributions t pairs)))
               = List.find (fun a => String.eqb (token_symbol a) s') (assets t)).
    { clear. induction pairs as [|[s p] pairs IH]; intros t Hn; simpl; [done|].
      destruct (set_risk_contribution s p (assets t)) as [l'|e] eqn:E; simpl; [|discriminate].
      intros Hr. rewrite IH; [|set_solver|done]. simpl.
      eapply set_risk_contribution_find_ne; [|done]. set_solver. }
    unfold get_asset. rewrite Hkeep; [|done|done]. simpl.
    destruct (set_risk_contribution_find_eq _ _ _ _ E) as (a & -> & Ha). eauto.
Qed.

Lemma zip_fst_subseteq {A B : Type} (l : list A) (k : list B) :
  (zip l k).*1 ⊆ l.
Proof.
  revert k. induction l as [|x l IH]; intros [|y k]; simpl; set_solver.
Qed.

(** ** The columns of the returns matrix *)

Lemma append_x_not_returns (s : string) : s +:+ "_x" <> "returns".
Proof.
  destruct s as [|? [|? [|? [|? [|? [|? [|? [|? s]]]]]]]]; simpl; discriminate.
Qed.

Lemma append_y_not_returns (s : string) : s +:+ "_y" <> "returns".
Proof.
  destruct s as [|? [|? [|? [|? [|? [|? [|? [|? s]]]]]]]]; simpl; discriminate.
Qed.

Lemma select_filter {A : Type} (f : A -> bool) (l : list A) :
  Pandas.select (map f l) l = filter (fun x => f x = true) l.
Proof.
  induction l as [|x l IH]; simpl; [done|].
  rewrite filter_cons. destruct (f x) eqn:E.
  - rewrite decide_True by done. by f_equal.
  - rewrite decide_False by done. done.
Qed.

Lemma filter_all {A : Type} (P : A -> Prop) `{forall x, Decision (P x)} (l : list A) :
  (forall x, x ∈ l -> P x) -> filter P l = l.
Proof.
  induction l as [|x l IH]; intros HP; [done|].
  rewrite filter_cons_True by (apply HP; set_solver).
  f_equal. apply IH. intros y Hy. apply HP. set_solver.
Qed.

Lemma drop_column_filter label df df' :
  Pandas.drop_column label df = Ok df' ->
  label ∈ Pandas.columns df
  /\ Pandas.columns df' = filter (fun c => c <> label) (Pandas.columns df).
Proof.
  unfold Pandas.drop_column. destruct (existsb _ _) eqn:E; [|discriminate].
  intros [= <-]. split; [by apply existsb_eqb_elem_of|]. simpl.
  rewrite select_filter. apply list_filter_iff. intros c.
  destruct (String.eqb_spec c label); simpl; naive_solver.
Qed.

Lemma merge_columns_fresh left symbol right df :
  symbol ∉ Pandas.columns left ->
  Pandas.merge_on_timestamp left symbol right = Ok df ->
  Pandas.columns df = Pandas.columns left ++ [symbol].
Proof.
  intros Hfresh. unfold Pandas.merge_on_timestamp.
  destruct (String.eqb symbol "timestamp"); [discriminate|].
  intros [= <-]. simpl. f_equal.
  - rewrite <- (map_id (Pandas.columns left)) at 2. apply map_ext_in.
    intros c Hc%list_elem_of_In. destruct (String.eqb_spec c symbol); [|done].
    by subst.
  - destruct (existsb _ _) eqn:E; [|done].
    by apply existsb_eqb_elem_of in E.
Qed.

Lemma reduce_columns items matrix df :
  NoDup items.*1 ->
  (forall s, s ∈ items.*1 -> s ∉ Pandas.columns matrix) ->
  foldM reducer_on_symbol_and_hist_prices items matrix = Ok df ->
  Pandas.columns df = Pandas.columns matrix ++ items.*1.
Proof.
  revert matrix. induction items as [|[symbol hist] items IH]; intros matrix Hnd Hfresh; simpl.
  - intros [= <-]. by rewrite app_nil_r.
  - apply NoDup_cons in Hnd as [Hnotin Hnd].
    destruct (Pandas.merge_on_timestamp matrix symbol hist) as [m'|e] eqn:E;
      simpl; [|discriminate].
    apply merge_columns_fresh in E; [|apply Hfresh; set_solver].
    intros Hfold. apply IH in Hfold; [|done|].
    + rewrite Hfold, E, <- app_assoc. done.
    + intros s Hs. rewrite E. rewrite not_elem_of_app. split.
      * apply Hfresh. set_solver.
      * set_solver.
Qed.

Lemma merge_keeps_absent label left symbol right df :
  (forall s, s +:+ "_x" <> label) ->
  (forall s, s +:+ "_y" <> label) ->
  label ∉ Pandas.columns left ->
  symbol <> label ->
  Pandas.merge_on_timestamp left symbol right = Ok df ->
  label ∉ Pandas.columns df.
Proof.
  intros Hx Hy Hleft Hsym. unfold Pandas.merge_on_timestamp.
  destruct (String.eqb symbol "timestamp"); [discriminate|].
  intros [= <-]. simpl. rewrite elem_of_app, list_elem_of_fmap.
  intros [(c & Hc & Hin) | Hlast].
  - destruct (String.eqb c symbol); [by apply (Hx c)|by subst].
  - apply list_elem_of_singleton in Hlast.
    destruct (existsb _ _); [by apply (Hy symbol)|done].
Qed.

Lemma reduce_keeps_absent label items matrix df :
  (forall s, s +:+ "_x" <> label) ->
  (forall s, s +:+ "_y" <> label) ->
  label ∉ Pandas.columns matrix ->
  label ∉ items.*1 ->
  foldM reducer_on_symbol_and_hist_prices items matrix = Ok df ->
  label ∉ Pandas.columns df.
Proof.
  intros Hx Hy. revert matrix.
  induction items as [|[symbol hist] items IH]; intros matrix Hm Hk; simpl.
  - by intros [= <-].
  - destruct (Pandas.merge_on_timestamp matrix symbol hist) as [m'|e] eqn:E;
      simpl; [|discriminate].
    apply IH; [|set_solver].
    eapply merge_keeps_absent; [done|done|done| |done]. set_solver.
Qed.

(** A symbol ["returns"] takes the ["returns"] column away. *)
Lemma reduce_returns_key items matrix df :
  NoDup items.*1 ->
  "returns" ∈ items.*1 ->
  "returns" ∈ Pandas.columns matrix ->
  foldM reducer_on_symbol_and_hist_prices items matrix = Ok df ->
  "returns" ∉ Pandas.columns df.
Proof.
  revert matrix. induction items as [|[symbol hist] items IH]; intros matrix Hnd Hk Hm; simpl.
  - set_solver.
  - apply NoDup_cons in Hnd as [Hnotin Hnd].
    destruct (Pandas.merge_on_timestamp matrix symbol hist) as [m'|e] eqn:E;
      simpl; [|discriminate].
    simpl in Hk, Hnotin.
    destruct (decide (symbol = "returns")) as [->|Hne].
    + apply (reduce_keeps_absent "returns");
        [apply append_x_not_returns|apply append_y_not_returns| |done].
      revert E. unfold Pandas.merge_on_timestamp.
      apply existsb_eqb_elem_of in Hm. rewrite Hm. simpl. intros [= <-]. simpl.
      rewrite elem_of_app, list_elem_of_fmap.
      intros [(c & Hc & Hin) | Hlast].
      * destruct (String.eqb_spec c "returns"); [by apply (append_x_not_returns c)|done].
      * apply list_elem_of_singleton in Hlast. discriminate.
    + apply IH; [done|set_solver|].
      revert E. unfold Pandas.merge_on_timestamp.
      destruct (String.eqb symbol "timestamp"); [discriminate|].
      intros [= <-]. simpl. rewrite elem_of_app, list_elem_of_fmap. left.
      exists "returns". split; [|done].
      destruct (String.eqb_spec "returns" symbol); [congruence|done].
Qed.

(** The columns of the returns matrix: the symbols of the mapping, in its
    order, without ["ETH"] when the treasury holds none. *)
Lemma make_returns_matrix_columns treasury
  (augmented_token_hist_prices : HistPricesBySymbol) start end_ m :
  NoDup augmented_token_hist_prices.*1 ->
  make_returns_matrix treasury augmented_token_hist_prices start end_ = Ok m ->
  Pandas.columns m
  = filter (fun s => s <> "ETH" \/ "ETH" ∈ symbols treasury)
           augmented_token_hist_prices.*1.
Proof.
  intros Hnd. unfold make_returns_matrix.
  set (items := map _ augmented_token_hist_prices).
  assert (Hitems : items.*1 = augmented_token_hist_prices.*1).
  { subst items. clear. induction augmented_token_hist_prices as [|[s h] l IH]; simpl; [done|]. by f_equal. }
  rewrite <- Hitems in *. clearbody items. clear Hitems.
  destruct items as [|item items'] eqn:Eitems; [discriminate|].
  rewrite <- Eitems in *. clear Eitems. unfold bind at 1.
  set (init := Pandas.rename _ _ _).
  assert (Hinit : Pandas.columns init = ["returns"]) by done.
  clearbody init.
  destruct (foldM _ items init) as [joined|e] eqn:Ejoin; simpl; [|discriminate].
  destruct (Pandas.drop_column "returns" joined) as [rm|e] eqn:Edrop; simpl; [|discriminate].
  apply drop_column_filter in Edrop as [Hret Hrm].
  assert (Hkeys : "returns" ∉ items.*1).
  { intros Hin. revert Hret. eapply reduce_returns_key; [done|done| |done].
    rewrite Hinit. set_solver. }
  apply reduce_columns in Ejoin; [|done|rewrite Hinit; set_solver].
  rewrite Ejoin, Hinit in Hrm. simpl in Hrm.
  rewrite filter_cons, decide_False in Hrm by (intros H; by apply H).
  assert (Hrm' : Pandas.columns rm = items.*1).
  { rewrite Hrm. apply filter_all. by intros c Hc ->. }
  destruct (get_asset treasury "ETH") as [a|e] eqn:Eget.
  - intros [= <-]. rewrite Hrm'. symmetry. apply filter_all.
    intros c _. right. destruct (decide ("ETH" ∈ symbols treasury)) as [|Hn]; [done|].
    apply get_asset_StopIteration in Hn. congruence.
  - assert (e = StopIteration) as ->.
    { revert Eget. unfold get_asset. destruct (List.find _ _); congruence. }
    apply get_asset_StopIteration in Eget.
    intros Hdrop. apply drop_column_filter in Hdrop as [_ ->].
    rewrite Hrm'. apply list_filter_iff. naive_solver.
Qed.

Lemma make_returns_matrix_NoDup treasury
  (augmented_token_hist_prices : HistPricesBySymbol) start end_ m :
  NoDup augmented_token_hist_prices.*1 ->
  make_returns_matrix treasury augmented_token_hist_prices start end_ = Ok m ->
  NoDup (Pandas.columns m).
Proof.
  intros Hnd Hm. rewrite (make_returns_matrix_columns _ _ _ _ _ Hnd Hm).
  by apply NoDup_filter.
Qed.

(** ** Signs and special values of binary64 results *)

Lemma binary_round_aux_not_negative (m e : Z) (l : location) :
  not_negative (binary_round_aux prec emax false m e l).
Proof.
  unfold binary_round_aux.
  destruct (shr_fexp prec emax m e l) as [mrs e'].
  destruct (shr_fexp prec emax _ e' loc_Exact) as [mrs' e''].
  destruct (shr_m mrs'); simpl; [done| |done].
  by destruct (e'' <=? emax - prec)%Z.
Qed.

Lemma binary_round_not_negative (m : positive) (e : Z) :
  not_negative (binary_round prec emax false m e).
Proof.
  unfold binary_round. destruct (shl_align _ _ _).
  apply binary_round_aux_not_negative.
Qed.

Lemma mul_self_not_negative (d : float) : not_negative (mul d d).
Proof.
  destruct d as [s|s| |s m e]; simpl; try done; try by destruct s.
  unfold mul, SFmul. rewrite xorb_nilpotent. apply binary_round_aux_not_negative.
Qed.

Lemma add_not_negative (x y : float) :
  not_negative x -> not_negative y -> not_negative (add x y).
Proof.
  destruct x as [sx|sx| |sx mx ex], y as [sy|sy| |sy my ey]; simpl;
    try done; intros -> ->; try done.
  unfold cond_Zopp. cbn [Z.add]. apply binary_round_not_negative.
Qed.

Lemma sum_not_negative (xs : list float) :
  Forall not_negative xs -> not_negative (Pandas.sum xs).
Proof.
  unfold Pandas.sum. assert (H0 : not_negative zero) by done. revert H0.
  generalize zero. induction xs as [|x xs IH]; intros acc Hacc Hxs; [done|].
  apply Forall_cons in Hxs as [Hx Hxs]. simpl.
  apply IH; [|done]. by apply add_not_negative.
Qed.

Lemma div_positive_not_negative (x : float) (m : positive) (e : Z) :
  not_negative x -> not_negative (div x (S754_finite false m e)).
Proof.
  destruct x as [sx|sx| |sx mx ex]; simpl; try done; intros ->; try done.
  unfold div, SFdiv. destruct (SFdiv_core_binary _ _ _ _ _ _) as [[mz ez] lz].
  apply binary_round_aux_not_negative.
Qed.

Lemma zsqrt_not_negative (x : float) :
  not_negative x -> Pandas.zsqrt x = sqrt x.
Proof.
  unfold Pandas.zsqrt. by destruct x as [s|s| |s m e]; simpl; try done; intros ->.
Qed.

Lemma sum_special (xs : list float) (acc : float) :
  Forall (fun x => is_special x = true) xs ->
  is_special acc = true ->
  is_special (fold_left add xs acc) = true.
Proof.
  revert acc. induction xs as [|x xs IH]; intros acc Hxs Hacc; [done|].
  apply Forall_cons in Hxs as [Hx Hxs]. simpl. apply IH; [done|].
  float_cases x; float_cases acc; done.
Qed.

Lemma sum_special_nonempty (xs : list float) :
  xs <> [] ->
  Forall (fun x => is_special x = true) xs ->
  is_special (Pandas.sum xs) = true.
Proof.
  destruct xs as [|x xs]; [done|]. intros _ [Hx Hxs]%Forall_cons.
  unfold Pandas.sum. simpl. apply sum_special; [done|].
  by float_cases x.
Qed.

Lemma sum_null (xs : list float) (acc : float) :
  Forall (fun x => is_null x = true) xs ->
  is_null acc = true ->
  is_null (fold_left add xs acc) = true.
Proof.
  revert acc. induction xs as [|x xs IH]; intros acc Hxs Hacc; [done|].
  apply Forall_cons in Hxs as [Hx Hxs]. simpl. apply IH; [done|].
  float_cases x; float_cases acc; done.
Qed.

Lemma div_zero_special (x s : float) :
  is_null s = true -> is_special (div x s) = true.
Proof. float_cases s; float_cases x; done. Qed.

Lemma mul_special (x w : float) :
  is_special x = true -> is_special (mul x w) = true.
Proof. float_cases x; float_cases w; done. Qed.

Lemma div_inf_null (x s : float) :
  is_inf s = true -> is_null (div x s) = true.
Proof. float_cases s; float_cases x; done. Qed.

Lemma mul_null (x w : float) :
  is_null x = true -> is_null (mul x w) = true.
Proof. float_cases x; float_cases w; done. Qed.

Lemma isclose_special_null (a b : float) :
  is_special a = true -> is_null b = true -> isclose a b rel_tol = false.
Proof. float_cases a; float_cases b; done. Qed.

Lemma isclose_null_inf (a b : float) :
  is_null a = true -> is_inf b = true -> isclose a b rel_tol = false.
Proof. float_cases a; float_cases b; done. Qed.

Lemma sqrt_cases (x : float) :
  is_null (sqrt x) = true \/ is_inf (sqrt x) = true \/ is_finite_positive (sqrt x).
Proof.
  float_cases x; simpl; auto.
  unfold sqrt, SFsqrt.
  destruct (SFsqrt_core_binary _ _ _ _) as [[mz ez] lz].
  pose proof (binary_round_aux_not_negative mz ez lz) as H.
  destruct (binary_round_aux prec emax false mz ez lz) as [s|s| |s m' e'];
    simpl in *; subst; auto.
Qed.

Lemma Forall_component_contributions (P : float -> Prop) (v w : list float)
  (s : float) :
  (forall x wi, P (mul (div x s) wi)) ->
  Forall P (zip_with mul (map (fun x => div x s) v) w).
Proof.
  intros HP. apply Forall_forall. intros y [i Hi]%list_elem_of_lookup.
  apply lookup_zip_with_Some in Hi as (m & wi & -> & Hm & _).
  rewrite list_lookup_fmap in Hm.
  destruct (v !! i) as [x|]; [|done]. injection Hm as <-. apply HP.
Qed.

(** The assertion is a backstop: with at least one weight, a decomposition
    that reconciles has a portfolio volatility that is a positive finite
    number, not zero, infinite or not-a-number. *)
Lemma reconciled_std_dev_positive (weights : list float)
  (cov_matrix : list (list float)) :
  weights <> [] ->
  reconciled (decompose weights cov_matrix) = true ->
  is_finite_positive (std_dev (decompose weights cov_matrix)).
Proof.
  intros Hw. unfold reconciled, decompose.
  cbn [std_dev summed_component_contributions].
  set (v := Pandas.vec_mat weights cov_matrix).
  set (s := sqrt (Pandas.dot v weights)).
  destruct (sqrt_cases (Pandas.dot v weights)) as [Hs|[Hs|Hs]]; fold s in Hs;
    [| |done].
  - rewrite isclose_special_null; [done| |done].
    apply sum_special_nonempty.
    + intros H%(f_equal length). revert H.
      rewrite length_zip_with, length_map. subst v. unfold Pandas.vec_mat.
      rewrite length_map, length_seq. destruct weights; [done|]. simpl. lia.
    + apply Forall_component_contributions. intros x wi.
      by apply mul_special, div_zero_special.
  - rewrite isclose_null_inf; [done| |done].
    apply sum_null; [|done].
    apply Forall_component_contributions. intros x wi.
    by apply mul_null, div_inf_null.
Qed.

(** ** The risk decomposition *)

Section Fill.

Variables (treasury : Treasury) (hist : HistPricesBySymbol) (start end_ : Z).

Lemma fill_matrix_Err e :
  make_returns_matrix treasury hist start end_ = Err e ->
  fill_asset_risk_contributions treasury hist start end_
  = {| final := treasury; raised := Some e |}.
Proof.
  intros H. unfold fill_asset_risk_contributions, risk_percentages. by rewrite H.
Qed.

Lemma fill_weights_Err m e :
  make_returns_matrix treasury hist start end_ = Ok m ->
  make_weights treasury (Pandas.columns m) = Err e ->
  fill_asset_risk_contributions treasury hist start end_
  = {| final := treasury; raised := Some e |}.
Proof.
  intros H H'. unfold fill_asset_risk_contributions, risk_percentages.
  rewrite H. simpl. by rewrite H'.
Qed.

Lemma fill_unreconciled m w :
  make_returns_matrix treasury hist start end_ = Ok m ->
  make_weights treasury (Pandas.columns m) = Ok w ->
  reconciled (decompose w (Pandas.cov m)) = false ->
  fill_asset_risk_contributions treasury hist start end_
  = {| final := treasury; raised := Some assertion_error |}.
Proof.
  intros H H' Hc. unfold fill_asset_risk_contributions, risk_percentages.
  rewrite H. cbn [bind]. rewrite H'. cbn [bind]. cbv zeta. by rewrite Hc.
Qed.

Lemma fill_reconciled m w :
  make_returns_matrix treasury hist start end_ = Ok m ->
  make_weights treasury (Pandas.columns m) = Ok w ->
  reconciled (decompose w (Pandas.cov m)) = true ->
  fill_asset_risk_contributions treasury hist start end_
  = assign_risk_contributions treasury
      (zip (Pandas.columns m) (component_percentages (decompose w (Pandas.cov m))))
  /\ raised (fill_asset_risk_contributions treasury hist start end_) = None.
Proof.
  intros H H' Hc. unfold fill_asset_risk_contributions, risk_percentages.
  rewrite H. cbn [bind]. rewrite H'. cbn [bind]. cbv zeta. rewrite Hc.
  split; [done|]. apply assign_risk_contributions_returns.
  intros s Hs. eapply make_weights_Ok_inv; [done|].
  by apply zip_fst_subseteq in Hs.
Qed.

End Fill.

Lemma reduce_exn items matrix e :
  foldM reducer_on_symbol_and_hist_prices items matrix = Err e ->
  exists msg, e = ValueError msg.
Proof.
  revert matrix. induction items as [|[symbol hist] items IH]; intros matrix; simpl;
    [discriminate|].
  unfold Pandas.merge_on_timestamp.
  destruct (String.eqb symbol "timestamp"); simpl; [intros [= <-]; eauto|].
  apply IH.
Qed.

Lemma drop_column_exn label df e :
  Pandas.drop_column label df = Err e ->
  e = KeyError (Pandas.not_found_in_axis label).
Proof.
  unfold Pandas.drop_column. destruct (existsb _ _); [discriminate|]. congruence.
Qed.

(** The exceptions of [make_returns_matrix]. *)
Lemma make_returns_matrix_exn treasury hist start end_ e :
  make_returns_matrix treasury hist start end_ = Err e ->
  exn_name e ∈ ["IndexError"; "ValueError"; "KeyError"].
Proof.
  unfold make_returns_matrix.
  set (items := map _ hist). clearbody items.
  destruct items as [|item items'] eqn:Eitems; [simpl; intros [= <-]; set_solver|].
  rewrite <- Eitems. clear Eitems. unfold bind at 1.
  set (init := Pandas.rename _ _ _). clearbody init.
  destruct (foldM _ items init) as [joined|e'] eqn:Ejoin; simpl.
  - destruct (Pandas.drop_column "returns" joined) as [rm|e'] eqn:Edrop; simpl.
    + destruct (get_asset treasury "ETH") as [a|e'] eqn:Eget; [discriminate|].
      assert (e' = StopIteration) as ->.
      { revert Eget. unfold get_asset. destruct (List.find _ _); congruence. }
      intros ->%drop_column_exn. set_solver.
    + apply drop_column_exn in Edrop as ->. intros [= <-]. set_solver.
  - apply reduce_exn in Ejoin as [msg ->]. intros [= <-]. set_solver.
Qed.

Lemma decompose_lengths w c :
  length (component_contributions (decompose w c)) = length w
  /\ length (component_percentages (decompose w c)) = length w.
Proof.
  unfold decompose, Pandas.vec_mat.
  cbn [component_contributions component_percentages].
  rewrite !length_map, length_zip_with, !length_map, length_seq. lia.
Qed.

(** The ["ETH"] column goes when the treasury holds no ETH. *)
Example make_returns_matrix_drops_ETH :
  make_returns_matrix Samples.treasury_dai
    [("ETH", Samples.hist_a); ("DAI", Samples.hist_b)] 1 3
  = Ok {| Pandas.columns := ["DAI"];
          Pandas.rows := [(1, [of_Z 1]); (2, [of_Z 3]); (3, [of_Z 2])] |}
  /\ make_returns_matrix Samples.treasury_eth_dai
       [("ETH", Samples.hist_a); ("DAI", Samples.hist_b)] 1 3
     = Ok Samples.matrix_ab.
Proof. split; vm_compute; reflexivity. Qed.

(** C8, amended.  If the returns matrix has a column whose symbol has no
    asset in the treasury, [fill_asset_risk_contributions] fails with a
    [KeyError] on such a symbol, raised while the weights are built: the
    treasury is as it was, no [risk_contribution] assigned.  The code has
    no [MissingAssetError]. *)
Theorem fill_missing_balance treasury hist start end_ m s :
  make_returns_matrix treasury hist start end_ = Ok m ->
  s ∈ Pandas.columns m ->
  s ∉ symbols treasury ->
  exists k,
    fill_asset_risk_contributions treasury hist start end_
    = {| final := treasury; raised := Some (KeyError k) |}
    /\ k ∈ Pandas.columns m /\ k ∉ symbols treasury.
Proof.
  intros Hm Hs Hn.
  destruct (make_weights_KeyError treasury _ s Hs Hn) as (k & Hk & Hin & Hnot).
  exists k. split; [|done]. by eapply fill_weights_Err.
Qed.

Lemma fill_missing_balance_witness :
  exists m,
    make_returns_matrix Samples.treasury_eth
      [("ETH", Samples.hist_a); ("DAI", Samples.hist_b)] 1 3 = Ok m
    /\ exists k,
      fill_asset_risk_contributions Samples.treasury_eth
        [("ETH", Samples.hist_a); ("DAI", Samples.hist_b)] 1 3
      = {| final := Samples.treasury_eth; raised := Some (KeyError k) |}
      /\ k ∈ Pandas.columns m /\ k ∉ symbols Samples.treasury_eth.
Proof.
  eexists. split; [vm_compute; reflexivity|].
  apply (fill_missing_balance _ _ _ _ _ "DAI").
  - vm_compute. reflexivity.
  - simpl. set_solver.
  - vm_compute. set_solver.
Defined.

(** C8 as stated fails: with a ["DAI"] column and no ["DAI"] asset the
    exception is a [KeyError], not a [MissingAssetError]. *)
Lemma fill_missing_balance_not_MissingAssetError :
  exists m,
    make_returns_matrix Samples.treasury_eth
      [("ETH", Samples.hist_a); ("DAI", Samples.hist_b)] 1 3 = Ok m
    /\ "DAI" ∈ Pandas.columns m
    /\ get_asset Samples.treasury_eth "DAI" = Err StopIteration
    /\ raised (fill_asset_risk_contributions Samples.treasury_eth
                 [("ETH", Samples.hist_a); ("DAI", Samples.hist_b)] 1 3)
       = Some (KeyError "DAI")
    /\ exn_name (KeyError "DAI") <> "MissingAssetError".
Proof.
  eexists. split; [vm_compute; reflexivity|].
  split; [simpl; set_solver|].
  split; [reflexivity|]. split; [vm_compute; reflexivity|discriminate].
Qed.

(** C2, amended.  Once the matrix and the weights are built: if the sum of
    the component contributions is not within the relative tolerance
    [1e-4] of the portfolio volatility, the call ends in the
    [AssertionError] of the [assert] statement with the treasury as it was
    (no [risk_contribution] assigned); and a call that returns has passed
    that test.  The code has no [RiskDecompositionInvariantError]. *)
Theorem fill_unreconciled_aborts treasury hist start end_ m w :
  make_returns_matrix treasury hist start end_ = Ok m ->
  make_weights treasury (Pandas.columns m) = Ok w ->
  (reconciled (decompose w (Pandas.cov m)) = false ->
   fill_asset_risk_contributions treasury hist start end_
   = {| final := treasury; raised := Some assertion_error |})
  /\ (raised (fill_asset_risk_contributions treasury hist start end_) = None ->
      reconciled (decompose w (Pandas.cov m)) = true).
Proof.
  intros Hm Hw. split.
  - by apply fill_unreconciled.
  - destruct (reconciled _) eqn:E; [done|].
    rewrite (fill_unreconciled _ _ _ _ _ _ Hm Hw E). discriminate.
Qed.

Lemma fill_unreconciled_aborts_witness :
  reconciled (decompose [nan] (Pandas.cov Samples.matrix_a)) = false
  /\ fill_asset_risk_contributions Samples.treasury_eth_zero_total
       [("ETH", Samples.hist_a)] 1 3
     = {| final := Samples.treasury_eth_zero_total; raised := Some assertion_error |}.
Proof.
  split; [vm_compute; reflexivity|].
  refine (proj1 (fill_unreconciled_aborts Samples.treasury_eth_zero_total
                   [("ETH", Samples.hist_a)] 1 3 Samples.matrix_a [nan] _ _) _);
    vm_compute; reflexivity.
Defined.

(** C2 as stated fails: with a balance and a [usd_total] of [0] the weight
    is not-a-number, the decomposition does not reconcile, and the
    exception raised is an [AssertionError], not a
    [RiskDecompositionInvariantError]. *)
Lemma fill_unreconciled_not_RiskDecompositionInvariantError :
  exists m w,
    make_returns_matrix Samples.treasury_eth_zero_total [("ETH", Samples.hist_a)] 1 3 = Ok m
    /\ make_weights Samples.treasury_eth_zero_total (Pandas.columns m) = Ok w
    /\ reconciled (decompose w (Pandas.cov m)) = false
    /\ raised (fill_asset_risk_contributions Samples.treasury_eth_zero_total
                 [("ETH", Samples.hist_a)] 1 3)
       = Some (AssertionError "error in calculations")
    /\ exn_name (AssertionError "error in calculations")
       <> "RiskDecompositionInvariantError".
Proof.
  eexists. eexists.
  split; [vm_compute; reflexivity|].
  split; [vm_compute; reflexivity|].
  split; [vm_compute; reflexivity|].
  split; [vm_compute; reflexivity|discriminate].
Qed.

Lemma make_weights_exn treasury cols e :
  make_weights treasury cols = Err e -> exists k, e = KeyError k.
Proof.
  unfold make_weights. induction cols as [|c cols IH]; simpl; [discriminate|].
  destruct (current_balances treasury !! c); simpl; [|intros [= <-]; eauto].
  destruct (mapM _ cols); simpl in *; [discriminate|]. intros [= <-]. by apply IH.
Qed.

(** C9, amended.  [fill_asset_risk_contributions] does not look at
    [usd_total] before it computes.  Whatever [usd_total] is, zero and
    negative included: an exception of the call is an [IndexError], a
    [ValueError], a [KeyError] or an [AssertionError], never a division
    error; and when the matrix is built and every column has an asset, the
    weights are computed and the call returns exactly when the
    decomposition reconciles. *)
Theorem fill_usd_total_unchecked treasury hist start end_ :
  (forall e, raised (fill_asset_risk_contributions treasury hist start end_) = Some e ->
             exn_name e ∈ ["IndexError"; "ValueError"; "KeyError"; "AssertionError"])
  /\ (forall m, make_returns_matrix treasury hist start end_ = Ok m ->
        (forall s, s ∈ Pandas.columns m -> s ∈ symbols treasury) ->
        exists w, make_weights treasury (Pandas.columns m) = Ok w
          /\ (reconciled (decompose w (Pandas.cov m)) = true <->
              raised (fill_asset_risk_contributions treasury hist start end_) = None)).
Proof.
  split.
  - intros e.
    destruct (make_returns_matrix treasury hist start end_) as [m|e'] eqn:Hm.
    + destruct (make_weights treasury (Pandas.columns m)) as [w|e'] eqn:Hw.
      * destruct (reconciled (decompose w (Pandas.cov m))) eqn:Hc.
        -- destruct (fill_reconciled _ _ _ _ _ _ Hm Hw Hc) as [_ ->]. discriminate.
        -- rewrite (fill_unreconciled _ _ _ _ _ _ Hm Hw Hc). intros [= <-]. set_solver.
      * rewrite (fill_weights_Err _ _ _ _ _ _ Hm Hw). intros [= <-].
        apply make_weights_exn in Hw as [k ->]. set_solver.
    + rewrite (fill_matrix_Err _ _ _ _ _ Hm). intros [= <-].
      apply make_returns_matrix_exn in Hm. set_solver.
  - intros m Hm Hall.
    destruct (make_weights_Ok treasury (Pandas.columns m) Hall) as (w & Hw & _).
    exists w. split; [done|]. split.
    + intros Hc. by destruct (fill_reconciled _ _ _ _ _ _ Hm Hw Hc).
    + destruct (reconciled _) eqn:Hc; [done|].
      rewrite (fill_unreconciled _ _ _ _ _ _ Hm Hw Hc). discriminate.
Qed.

Lemma fill_usd_total_unchecked_witness :
  exists m,
    make_returns_matrix Samples.treasury_eth_negative_total [("ETH", Samples.hist_a)] 1 3
    = Ok m
    /\ exists w, make_weights Samples.treasury_eth_negative_total (Pandas.columns m) = Ok w
       /\ (reconciled (decompose w (Pandas.cov m)) = true <->
           raised (fill_asset_risk_contributions Samples.treasury_eth_negative_total
                     [("ETH", Samples.hist_a)] 1 3) = None).
Proof.
  eexists. split; [vm_compute; reflexivity|].
  apply (fill_usd_total_unchecked Samples.treasury_eth_negative_total
           [("ETH", Samples.hist_a)] 1 3).
  - vm_compute. reflexivity.
  - simpl. intros s Hs. vm_compute. set_solver.
Defined.

(** C9 as stated fails: with one asset of balance [-100] and
    [usd_total = -100] the call is not rejected; it returns and assigns the
    risk contribution [1.0]. *)
Lemma fill_negative_usd_total_returns :
  leb (usd_total Samples.treasury_eth_negative_total) zero = true
  /\ fill_asset_risk_contributions Samples.treasury_eth_negative_total
       [("ETH", Samples.hist_a)] 1 3
     = {| final :=
            {| assets := [ {| token_symbol := "ETH"; balance := of_Z (-100);
                              risk_contribution := Some (of_Z 1) |} ];
               usd_total := of_Z (-100) |};
          raised := None |}.
Proof. split; vm_compute; reflexivity. Qed.

(** ** Sums and percentages in exact arithmetic *)

Section ExactPercentages.

Open Scope Q_scope.

Lemma fold_left_Qplus (l : list Q) (a : Q) :
  fold_left Qplus l a == a + fold_left Qplus l 0.
Proof.
  revert a. induction l as [|x l IH]; intros a; cbn [fold_left]; [ring|].
  rewrite (IH (a + x)), (IH (0 + x)). ring.
Qed.

Lemma sum_in_cons (x : Q) (l : list Q) :
  sum_in Arithmetic.exact (x :: l) == x + sum_in Arithmetic.exact l.
Proof.
  unfold sum_in. cbn [fold_left Arithmetic.add Arithmetic.of_Z Arithmetic.exact].
  rewrite fold_left_Qplus. change (inject_Z 0) with 0. ring.
Qed.

Lemma sum_in_snoc (l : list Q) (v : Q) :
  sum_in Arithmetic.exact (l ++ [v]) == sum_in Arithmetic.exact l + v.
Proof. unfold sum_in. rewrite fold_left_app. reflexivity. Qed.

Lemma sum_in_percentages (cs : list Q) (sigma : Q) :
  sum_in Arithmetic.exact (percentages Arithmetic.exact cs sigma)
  == sum_in Arithmetic.exact cs / sigma.
Proof.
  unfold percentages. induction cs as [|c cs IH].
  - unfold sum_in. cbn [map fold_left Arithmetic.of_Z Arithmetic.exact].
    change (inject_Z 0) with 0. unfold Qdiv. ring.
  - cbn [map]. rewrite !sum_in_cons, IH.
    cbn [Arithmetic.div Arithmetic.exact]. unfold Qdiv. ring.
Qed.

Lemma scaled_difference (tol x sigma : Q) (d : Q) :
  ~ sigma == 0 ->
  Qabs d <= Qabs (tol * x) ->
  Qabs (d / sigma) <= Qabs (tol * (x / sigma)).
Proof.
  intros Hs H.
  assert (E1 : d / sigma == d * / sigma) by reflexivity.
  assert (E2 : tol * (x / sigma) == (tol * x) * / sigma) by (unfold Qdiv; ring).
  rewrite E1, E2, !Qabs_Qmult.
  apply Qmult_le_compat_r; [|apply Qabs_nonneg]. by rewrite <- Qabs_Qmult.
Qed.

(** In exact arithmetic, percentages of contributions that reconcile with
    the volatility sum to 1 within the same tolerance. *)
Lemma percentages_sum_to_1 (cs : list Q) (sigma rel_tol : Q) :
  ~ sigma == 0 ->
  isclose_exact (sum_in Arithmetic.exact cs) sigma rel_tol ->
  isclose_exact (sum_in Arithmetic.exact (percentages Arithmetic.exact cs sigma))
    1 rel_tol.
Proof.
  intros Hs. unfold isclose_exact. rewrite sum_in_percentages.
  set (s := sum_in Arithmetic.exact cs).
  assert (E : 1 - s / sigma == (sigma - s) / sigma) by (field; done).
  rewrite E.
  intros [H|H]; [left|right].
  - apply (scaled_difference rel_tol sigma sigma) in H; [|done].
    assert (E' : rel_tol * 1 == rel_tol * (sigma / sigma)) by (field; done).
    by rewrite E'.
  - by apply scaled_difference.
Qed.

End ExactPercentages.

(** C1, as amended.  When [fill_asset_risk_contributions] returns, the
    sum of the component contributions is within the relative tolerance
    [1e-4] of the portfolio volatility [std_dev], which is a positive
    finite number when the returns matrix has a column; there is one
    component contribution [c] per column, and the asset of that column has
    [risk_contribution = c / std_dev].  In exact arithmetic such
    percentages sum to [1] within the same tolerance; in binary64 every
    quotient rounds and their sum need not.  (The keys of the mapping are
    distinct, as those of a dictionary are.) *)
Theorem fill_returns_reconciled treasury hist start end_ :
  NoDup hist.*1 ->
  raised (fill_asset_risk_contributions treasury hist start end_) = None ->
  (exists m w,
     make_returns_matrix treasury hist start end_ = Ok m
     /\ make_weights treasury (Pandas.columns m) = Ok w
     /\ let d := decompose w (Pandas.cov m) in
        isclose (summed_component_contributions d) (std_dev d) rel_tol = true
        /\ (Pandas.columns m <> [] -> is_finite_positive (std_dev d))
        /\ length (component_contributions d) = length (Pandas.columns m)
        /\ component_percentages d
           = percentages Arithmetic.binary64 (component_contributions d)
               (std_dev d)
        /\ forall i s c,
             Pandas.columns m !! i = Some s ->
             component_contributions d !! i = Some c ->
             exists a,
               get_asset
                 (final (fill_asset_risk_contributions treasury hist start end_))
                 s = Ok a
               /\ risk_contribution a = Some (div c (std_dev d)))
  /\ (forall (cs : list Q) (sigma : Q),
        ~ (sigma == 0)%Q ->
        isclose_exact (sum_in Arithmetic.exact cs) sigma (1 # 10000) ->
        isclose_exact
          (sum_in Arithmetic.exact (percentages Arithmetic.exact cs sigma))
          1 (1 # 10000)).
Proof.
  intros Hnd Hret. split; [|intros cs sigma; apply percentages_sum_to_1].
  destruct (make_returns_matrix treasury hist start end_) as [m|e] eqn:Hm;
    [|by rewrite (fill_matrix_Err _ _ _ _ _ Hm) in Hret].
  destruct (make_weights treasury (Pandas.columns m)) as [w|e] eqn:Hw;
    [|by rewrite (fill_weights_Err _ _ _ _ _ _ Hm Hw) in Hret].
  destruct (reconciled (decompose w (Pandas.cov m))) eqn:Hc;
    [|by rewrite (fill_unreconciled _ _ _ _ _ _ Hm Hw Hc) in Hret].
  exists m, w. split; [done|]. split; [done|]. cbv zeta.
  assert (Hlen : length w = length (Pandas.columns m)).
  { destruct (make_weights_Ok treasury (Pandas.columns m)) as (w' & Hw' & Hlen).
    - by eapply make_weights_Ok_inv.
    - congruence. }
  destruct (decompose_lengths w (Pandas.cov m)) as [Hlc Hlp].
  split; [done|]. split.
  { intros Hcols. apply reconciled_std_dev_positive; [|done].
    intros ->. apply Hcols. by destruct (Pandas.columns m). }
  split; [congruence|].
  split; [reflexivity|].
  intros i s c Hs Hci.
  destruct (fill_reconciled _ _ _ _ _ _ Hm Hw Hc) as [Hfill _].
  rewrite Hfill in Hret |- *.
  apply assign_risk_contributions_lookup; [|done|].
  - rewrite fst_zip by lia. by eapply make_returns_matrix_NoDup.
  - apply list_elem_of_lookup. exists i. apply lookup_zip_with_Some.
    exists s, (div c (std_dev (decompose w (Pandas.cov m)))).
    split; [done|]. split; [done|].
    unfold decompose at 1. cbn [component_percentages].
    rewrite list_lookup_fmap. unfold decompose in Hci at 1.
    cbn [component_contributions] in Hci. rewrite Hci. done.
Qed.

Lemma fill_returns_reconciled_witness :
  let d := decompose [of_ratio 100 400; of_ratio 300 400]
             (Pandas.cov Samples.matrix_ab) in
  reconciled d = true
  /\ is_finite_positive (std_dev d)
  /\ (exists c a,
        component_contributions d !! 1%nat = Some c
        /\ get_asset (final (fill_asset_risk_contributions Samples.treasury_eth_dai
                               [("ETH", Samples.hist_a); ("DAI", Samples.hist_b)] 1 3))
             "DAI" = Ok a
        /\ risk_contribution a = Some (div c (std_dev d)))
  /\ isclose_exact
       (sum_in Arithmetic.exact
          (percentages Arithmetic.exact [1 # 4; 3 # 4]%Q (10001 # 10000)))
       1 (1 # 10000).
Proof.
  destruct (fill_returns_reconciled Samples.treasury_eth_dai
              [("ETH", Samples.hist_a); ("DAI", Samples.hist_b)] 1 3)
    as [(m & w & Hm & Hw & Hclose & Hpos & _ & _ & Hall) Hexact].
  - simpl. repeat constructor; set_solver.
  - vm_compute. reflexivity.
  - assert (m = Samples.matrix_ab) as ->.
    { vm_compute in Hm. injection Hm as <-. reflexivity. }
    assert (w = [of_ratio 100 400; of_ratio 300 400]) as ->.
    { vm_compute in Hw. injection Hw as <-. reflexivity. }
    split; [exact Hclose|].
    split; [apply Hpos; discriminate|].
    split.
    + destruct (component_contributions
                  (decompose [of_ratio 100 400; of_ratio 300 400]
                     (Pandas.cov Samples.matrix_ab)) !! 1%nat) as [c|] eqn:Hc;
        [|vm_compute in Hc; discriminate].
      destruct (Hall 1%nat "DAI" c eq_refl Hc) as (a & Ha & Hr).
      exists c, a. split; [reflexivity|]. split; assumption.
    + apply Hexact; [discriminate|].
      left. vm_compute. discriminate.
Defined.

(** C1 as stated fails twice.  With a positive [usd_total], an ["ETH"]
    history and no ["ETH"] asset, the matrix has no column; the call
    returns, no percentage is assigned, and their sum [0.0] is not within
    [1e-4] of [1.0].  And with two assets that move against each other,
    held in the amounts [2^47 + 27] and [2^47 - 27] out of a total of
    [2^48], the contributions sum to the volatility within [1e-4], the
    call returns, and the two percentages it assigns,
    [2606249784358.426] and [-2606249784357.4253], sum to
    [1.00048828125], which is not within [1e-4] of [1.0].  (The weights,
    the covariances [0.5] and [-0.5] and every sum inside the dot products
    are exact here, so the order in which numpy accumulates plays no part:
    only the square root, the quotients and the products round.) *)
Lemma fill_percentages_do_not_sum_to_1 :
  (leb (usd_total Samples.treasury_dai) zero = false
   /\ raised (fill_asset_risk_contributions Samples.treasury_dai
                [("ETH", Samples.hist_a)] 1 3) = None
   /\ risk_percentages Samples.treasury_dai [("ETH", Samples.hist_a)] 1 3 = Ok []
   /\ isclose (Pandas.sum ([] : list (string * float)).*2) (of_Z 1) rel_tol
      = false)
  /\ (let hist := [("ETH", Samples.hist_up); ("iETH", Samples.hist_down)] in
      let p1 := S754_finite false 5337599558366056 (-11) in
      let p2 := S754_finite true 5337599558364007 (-11) in
      leb (usd_total Samples.treasury_hedged) zero = false
      /\ make_returns_matrix Samples.treasury_hedged hist 1 2
         = Ok {| Pandas.columns := ["ETH"; "iETH"];
                 Pandas.rows := [(1, [of_Z 0; of_Z 0]);
                                 (2, [of_Z 1; of_Z (-1)])] |}
      /\ raised (fill_asset_risk_contributions Samples.treasury_hedged hist 1 2)
         = None
      /\ risk_contribution
           <$> assets (final (fill_asset_risk_contributions
                                Samples.treasury_hedged hist 1 2))
         = [Some p1; Some p2]
      /\ Pandas.sum [p1; p2] = S754_finite false 4505798650626048 (-52)
      /\ isclose (Pandas.sum [p1; p2]) (of_Z 1) rel_tol = false).
Proof. repeat split; vm_compute; reflexivity. Qed.

(** ** The returns table *)

Section ReturnsColumn.

Variable np_log : float -> float.

Lemma replace_infinities (xs : list float) :
  Pandas.replace neg_inf zero (Pandas.replace inf zero xs)
  = map (fun x => if is_inf x then zero else x) xs.
Proof.
  unfold Pandas.replace. rewrite map_map. apply map_ext.
  intros x. float_cases x; reflexivity.
Qed.

Lemma replace_nan_lookup (xs : list float) (t : nat) :
  Pandas.replace nan zero xs !! t
  = (fun x => if is_nan x then zero else x) <$> xs !! t.
Proof. unfold Pandas.replace. by rewrite <- list_lookup_fmap. Qed.

Lemma length_shift1 (xs : list float) : length (Pandas.shift1 xs) = length xs.
Proof.
  destruct xs as [|x xs]; [done|]. unfold Pandas.shift1.
  cbn [length]. rewrite removelast_firstn_len, length_take. simpl. lia.
Qed.

Lemma length_raw_returns (hist_values : list float) :
  length (raw_returns np_log hist_values) = length hist_values.
Proof.
  unfold raw_returns, Pandas.div_series.
  rewrite length_map, length_zip_with, length_shift1. lia.
Qed.

Lemma returns_column_lookup (hist_values : list float) (t : nat) :
  returns_column np_log hist_values !! t
  = cleaned t <$> raw_returns np_log hist_values !! t.
Proof.
  unfold returns_column. fold (raw_returns np_log hist_values).
  rewrite replace_infinities. unfold Pandas.replace_from_1.
  set (xs := raw_returns np_log hist_values).
  destruct xs as [|x xs']; [by destruct t|].
  destruct t as [|t]; simpl.
  - unfold cleaned. simpl. by rewrite andb_false_r.
  - rewrite drop_0. rewrite replace_nan_lookup, !list_lookup_fmap.
    destruct (xs' !! t) as [y|]; [|done]. simpl. unfold cleaned. simpl.
    rewrite andb_true_r. float_cases y; reflexivity.
Qed.

Lemma length_returns_column (hist_values : list float) :
  length (returns_column np_log hist_values) = length hist_values.
Proof.
  unfold returns_column. fold (raw_returns np_log hist_values).
  unfold Pandas.replace_from_1, Pandas.replace.
  rewrite length_app, length_map, length_take, length_drop, !length_map.
  rewrite length_raw_returns. lia.
Qed.

Lemma div_nan (x : float) : div x nan = nan.
Proof. by float_cases x. Qed.

Hypothesis np_log_nan : np_log nan = nan.

Lemma raw_returns_first (hist_values : list float) :
  hist_values <> [] -> raw_returns np_log hist_values !! 0%nat = Some nan.
Proof.
  destruct hist_values as [|x xs]; [done|]. intros _.
  unfold raw_returns. simpl. by rewrite div_nan, np_log_nan.
Qed.

Lemma returns_column_first (hist_values : list float) :
  hist_values <> [] -> returns_column np_log hist_values !! 0%nat = Some nan.
Proof.
  intros H. by rewrite returns_column_lookup, raw_returns_first.
Qed.

Lemma returns_column_not_nan (hist_values : list float) (t : nat) (x : float) :
  (1 <= t)%nat ->
  returns_column np_log hist_values !! t = Some x ->
  is_nan x = false.
Proof.
  intros Ht. rewrite returns_column_lookup.
  destruct (raw_returns np_log hist_values !! t) as [y|]; [|done].
  intros [= <-]. unfold cleaned.
  apply Nat.leb_le in Ht. rewrite Ht, andb_true_r.
  by float_cases y.
Qed.

End ReturnsColumn.

(** C6.  In the [returns] column of [make_returns_df]: a log-return that
    evaluates to plus or minus infinity is replaced with [0]; a
    not-a-number at a position from 1 on is replaced with [0]; the value at
    position 0 stays not-a-number.  ([np.log] maps not-a-number to
    not-a-number.) *)
Theorem make_returns_df_returns (np_log : float -> float)
  (hist_values : list float) :
  np_log nan = nan ->
  let raw := raw_returns np_log hist_values in
  let returns := df_returns (make_returns_df np_log hist_values) in
  (forall t x, raw !! t = Some x -> is_inf x = true -> returns !! t = Some zero)
  /\ (forall t x, (1 <= t)%nat -> raw !! t = Some x -> is_nan x = true ->
                  returns !! t = Some zero)
  /\ (hist_values <> [] -> returns !! 0%nat = Some nan).
Proof.
  intros Hnan raw returns. subst raw returns. cbn [make_returns_df df_returns].
  split; [|split].
  - intros t x Hx Hinf. rewrite returns_column_lookup, Hx. simpl.
    unfold cleaned. by rewrite Hinf.
  - intros t x Ht Hx Hn. rewrite returns_column_lookup, Hx. simpl.
    unfold cleaned. apply Nat.leb_le in Ht. rewrite Hn, Ht.
    by destruct (is_inf x).
  - by apply returns_column_first.
Qed.

Lemma make_returns_df_returns_witness :
  let returns := df_returns (make_returns_df ln Samples.prices) in
  returns !! 5%nat = Some zero
  /\ returns !! 3%nat = Some zero
  /\ returns !! 4%nat = Some zero
  /\ returns !! 0%nat = Some nan.
Proof.
  destruct (make_returns_df_returns ln Samples.prices eq_refl)
    as (Hinf & Hnan & Hfirst).
  split; [|split; [|split]].
  - apply (Hinf 5%nat inf); reflexivity.
  - apply (Hinf 3%nat neg_inf); reflexivity.
  - apply (Hnan 4%nat nan); [lia|reflexivity|reflexivity].
  - apply Hfirst. discriminate.
Defined.

Example returns_of_sample_prices :
  raw_returns ln Samples.prices
  = [nan; zero; zero; neg_inf; nan; inf; ln (of_Z 2); nan; nan; ln (of_Z 2); zero]
  /\ df_returns (make_returns_df ln Samples.prices)
  = [nan; zero; zero; zero; zero; zero; ln (of_Z 2); zero; zero; ln (of_Z 2); zero].
Proof. split; vm_compute; reflexivity. Qed.

(** A constant price gives all-zero returns after the first position. *)
Example returns_of_constant_prices :
  df_returns (make_returns_df ln (map of_Z [7; 7; 7; 7]))
  = [nan; zero; zero; zero].
Proof. vm_compute. reflexivity. Qed.

(** ** The rolling variance *)

Section RollVarProperties.

Context {num : Type} (A : Arithmetic.t num).

Lemma states_app (values : list num) (w : nat) (s : RollVar.State num)
  (l1 l2 : list nat) :
  RollVar.states A values w s (l1 ++ l2)
  = RollVar.states A values w s l1
    ++ RollVar.states A values w (fold_left (RollVar.step A values w) l1 s) l2.
Proof.
  revert s. induction l1 as [|i l1 IH]; intros s; simpl; [done|].
  by rewrite IH.
Qed.

Lemma length_states (values : list num) (w : nat) (s : RollVar.State num)
  (l : list nat) :
  length (RollVar.states A values w s l) = length l.
Proof. revert s. induction l as [|i l IH]; intros s; simpl; [done|]. by rewrite IH. Qed.

Lemma state_at_fold (values : list num) (w t : nat) :
  RollVar.state_at A values w t
  = fold_left (RollVar.step A values w) (seq 0 (S t)) (RollVar.initial A).
Proof.
  induction t as [|t IH]; [done|].
  cbn [RollVar.state_at]. rewrite IH, (seq_S (S t)), fold_left_app. done.
Qed.

Lemma states_lookup (values : list num) (w n t : nat) :
  (t < n)%nat ->
  RollVar.states A values w (RollVar.initial A) (seq 0 n) !! t
  = Some (RollVar.state_at A values w t).
Proof.
  intros Ht.
  replace n with (t + (1 + (n - S t)))%nat by lia.
  rewrite !seq_app, !states_app.
  rewrite lookup_app_r; rewrite length_states, length_seq; [|lia].
  rewrite Nat.sub_diag. simpl.
  f_equal. rewrite state_at_fold, seq_S, fold_left_app. done.
Qed.

Lemma roll_var_lookup (values : list num) (w minp ddof t : nat) :
  (t < length values)%nat ->
  RollVar.roll_var A values w minp ddof !! t
  = Some (RollVar.calc_var A (Nat.max minp 1) ddof
            (RollVar.state_at A values w t)).
Proof.
  intros Ht. unfold RollVar.roll_var.
  by rewrite list_lookup_fmap, states_lookup.
Qed.


(** The window of the next position: the value at its head leaves once the
    window is full, and the next value enters. *)
Lemma window_S (values : list num) (w t : nat) (v : num) :
  (1 <= w)%nat ->
  values !! S t = Some v ->
  RollVar.window values w (S t)
  = (if (w <=? S t)%nat then drop 1 (RollVar.window values w t)
     else RollVar.window values w t) ++ [v].
Proof.
  intros Hw Hv. unfold RollVar.window.
  rewrite (take_S_r _ (S t) v) by done.
  assert (Hlen : (S t < length values)%nat) by by eapply lookup_lt_Some.
  destruct (w <=? S t)%nat eqn:E.
  - apply Nat.leb_le in E. rewrite drop_drop.
    replace (S t - w + 1)%nat with (S (S t) - w)%nat by lia.
    rewrite drop_app_le; [done|]. rewrite length_take. lia.
  - apply Nat.leb_gt in E.
    replace (S (S t) - w)%nat with 0%nat by lia.
    replace (S t - w)%nat with 0%nat by lia. by rewrite !drop_0.
Qed.

Lemma window_head (values : list num) (w t : nat) :
  (1 <= w)%nat -> (w <= S t)%nat -> (t < length values)%nat ->
  exists v, values !! (S t - w)%nat = Some v
            /\ RollVar.window values w t = v :: drop 1 (RollVar.window values w t).
Proof.
  intros Hw Hwt Ht. unfold RollVar.window.
  destruct (lookup_lt_is_Some_2 values (S t - w)) as [v Hv]; [lia|].
  exists v. split; [done|].
  rewrite drop_drop.
  rewrite (drop_S _ v (S t - w)).
  - f_equal. f_equal. lia.
  - rewrite lookup_take_lt by lia. done.
Qed.

Section Invariant.

(** A relation between a window and a state that holds at the start and
    that [add_var] and [remove_var] maintain holds at every position. *)
Variable Inv : list num -> RollVar.State num -> Prop.

Hypothesis Inv_initial : Inv [] (RollVar.initial A).
Hypothesis Inv_add : forall l s v,
  Inv l s -> Inv (l ++ [v]) (RollVar.add_var A v s).
Hypothesis Inv_remove : forall l s v,
  Inv (v :: l) s -> Inv l (RollVar.remove_var A v s).

Lemma state_at_invariant (values : list num) (w t : nat) :
  (1 <= w)%nat -> (t < length values)%nat ->
  Inv (RollVar.window values w t) (RollVar.state_at A values w t).
Proof.
  intros Hw. induction t as [|t IH]; intros Ht.
  - destruct values as [|v values]; [simpl in Ht; lia|].
    unfold RollVar.window. replace (1 - w)%nat with 0%nat by lia.
    simpl. unfold RollVar.step.
    replace (w <=? 0)%nat with false by (symmetry; apply Nat.leb_gt; lia).
    simpl. rewrite take_0. by apply (Inv_add []).
  - specialize (IH ltac:(lia)).
    destruct (lookup_lt_is_Some_2 values (S t) Ht) as [v Hv].
    rewrite (window_S values w t v) by done.
    cbn [RollVar.state_at]. unfold RollVar.step. rewrite Hv.
    destruct (w <=? S t)%nat eqn:E.
    + apply Nat.leb_le in E.
      destruct (window_head values w t) as (v0 & Hv0 & Hwin); [lia..|].
      rewrite Hv0. apply Inv_add, Inv_remove. by rewrite <- Hwin.
    + by apply Inv_add.
Qed.

End Invariant.

(** The state counts the observations of its window that are numbers. *)
Lemma state_at_nobs (values : list num) (w t : nat) :
  (1 <= w)%nat -> (t < length values)%nat ->
  RollVar.nobs (RollVar.state_at A values w t)
  = length (filter (fun x => Arithmetic.isnan A x = false)
                   (RollVar.window values w t)).
Proof.
  apply (state_at_invariant
           (fun l s => RollVar.nobs s
                       = length (filter (fun x => Arithmetic.isnan A x = false) l))).
  - done.
  - intros l s v H. unfold RollVar.add_var. rewrite filter_app, length_app.
    destruct (Arithmetic.isnan A v) eqn:E.
    + rewrite filter_cons_False by (rewrite E; done). simpl. lia.
    + rewrite filter_cons_True by done. simpl. lia.
  - intros l s v H. unfold RollVar.remove_var.
    destruct (Arithmetic.isnan A v) eqn:E.
    + rewrite filter_cons_False in H by (rewrite E; done). done.
    + rewrite filter_cons_True in H by done. simpl in H. rewrite H. simpl.
      by destruct (length _).
Qed.

End RollVarProperties.

(** ** The rolling variance in exact arithmetic *)

Section ExactVariance.

Open Scope Q_scope.

Ltac exact_arithmetic :=
  cbn [Arithmetic.isnan Arithmetic.is_zero Arithmetic.add Arithmetic.sub
       Arithmetic.mul Arithmetic.div Arithmetic.of_Z Arithmetic.exact
       RollVar.nobs RollVar.mean_x RollVar.ssqdm_x RollVar.compensation_add
       RollVar.compensation_remove].

Lemma inject_Z_S (n : nat) :
  inject_Z (Z.of_nat (S n)) == inject_Z (Z.of_nat n) + 1.
Proof. rewrite Nat2Z.inj_succ, <- Z.add_1_r, inject_Z_plus. reflexivity. Qed.

Lemma inject_Z_nat_nonneg (n : nat) : 0 <= inject_Z (Z.of_nat n).
Proof.
  change 0 with (inject_Z 0). rewrite <- Zle_Qle. lia.
Qed.

Lemma exact_state_add (l : list Q) (s : RollVar.State Q) (v : Q) :
  exact_state l s ->
  exact_state (l ++ [v]) (RollVar.add_var Arithmetic.exact v s).
Proof.
  destruct s as [n m ssq ca cr]. unfold exact_state, RollVar.add_var.
  exact_arithmetic.
  intros (-> & Hca & Hcr & Hm & Hssq).
  pose proof (inject_Z_nat_nonneg (length l)) as Hq.
  rewrite length_app. cbn [length]. rewrite Nat.add_1_r.
  split; [done|].
  unfold squares. rewrite map_app. cbn [map]. rewrite !sum_in_snoc.
  fold (squares l).
  rewrite Hssq, <- Hm, Hca, !inject_Z_S.
  set (q := inject_Z (Z.of_nat (length l))) in *.
  repeat split; try done; field; lra.
Qed.

Lemma exact_state_remove (l : list Q) (s : RollVar.State Q) (v : Q) :
  exact_state (v :: l) s ->
  exact_state l (RollVar.remove_var Arithmetic.exact v s).
Proof.
  destruct s as [n m ssq ca cr]. unfold exact_state, RollVar.remove_var.
  exact_arithmetic.
  intros (-> & Hca & Hcr & Hm & Hssq).
  cbn [length Nat.pred] in *.
  unfold squares in Hssq. cbn [map] in Hssq. fold (squares l) in Hssq.
  rewrite !sum_in_cons in Hssq. rewrite sum_in_cons in Hm.
  rewrite inject_Z_S in Hm.
  destruct (length l) as [|k] eqn:Ek.
  { apply length_zero_iff_nil in Ek. subst l. exact_arithmetic.
    repeat split; try done; vm_compute; reflexivity. }
  exact_arithmetic.
  assert (Hq : 1 <= inject_Z (Z.of_nat (S k))).
  { rewrite inject_Z_S. pose proof (inject_Z_nat_nonneg k). lra. }
  set (q := inject_Z (Z.of_nat (S k))) in *.
  assert (HS1 : sum_in Arithmetic.exact l == (q + 1) * m - v)
    by (rewrite Hm; ring).
  assert (HS2 : sum_in Arithmetic.exact (squares l)
                == ssq - v * v + m * ((q + 1) * m))
    by (rewrite Hssq, HS1; ring).
  split; [done|].
  rewrite HS2, HS1, Hcr.
  repeat split; try done; field; lra.
Qed.

Lemma exact_state_at (xs : list Q) (w t : nat) :
  (1 <= w)%nat -> (t < length xs)%nat ->
  exact_state (RollVar.window xs w t)
    (RollVar.state_at Arithmetic.exact xs w t).
Proof.
  apply (state_at_invariant Arithmetic.exact exact_state).
  - repeat split; vm_compute; reflexivity.
  - apply exact_state_add.
  - apply exact_state_remove.
Qed.

Lemma sum_squared_deviations (l : list Q) (mu : Q) :
  sum_in Arithmetic.exact (map (fun x => (x - mu) * (x - mu)) l)
  == sum_in Arithmetic.exact (squares l)
     - 2 * mu * sum_in Arithmetic.exact l
     + inject_Z (Z.of_nat (length l)) * (mu * mu).
Proof.
  induction l as [|x l IH].
  - unfold sum_in, squares. cbn [map fold_left length]. exact_arithmetic.
    change (inject_Z (Z.of_nat 0)) with 0. change (inject_Z 0) with 0. ring.
  - unfold squares. cbn [map length]. fold (squares l).
    rewrite !sum_in_cons, IH, inject_Z_S. ring.
Qed.

(** In exact arithmetic the running update holds the population variance
    of its window. *)
Lemma exact_state_variance (l : list Q) (s : RollVar.State Q) :
  exact_state l s -> l <> [] ->
  RollVar.ssqdm_x s / inject_Z (Z.of_nat (length l))
  == population_variance Arithmetic.exact l.
Proof.
  intros (_ & _ & _ & Hm & Hssq) Hl.
  unfold population_variance. cbn [Arithmetic.div Arithmetic.sub Arithmetic.mul
    Arithmetic.of_Z Arithmetic.exact].
  rewrite sum_squared_deviations, Hssq, <- Hm.
  assert (Hq : 1 <= inject_Z (Z.of_nat (length l))).
  { destruct l as [|x l]; [done|]. cbn [length]. rewrite inject_Z_S.
    pose proof (inject_Z_nat_nonneg (length l)). lra. }
  set (q := inject_Z (Z.of_nat (length l))) in *.
  field. lra.
Qed.

Lemma window_trailing {A : Type} (xs : list A) (w t : nat) :
  (w <= S t)%nat -> RollVar.window xs w t = trailing w xs t.
Proof.
  intros H. unfold RollVar.window, trailing. rewrite take_drop_commute.
  by replace (S t - w + w)%nat with (S t) by lia.
Qed.

Lemma length_trailing {A : Type} (xs : list A) (w t : nat) :
  (w <= S t)%nat -> (t < length xs)%nat -> length (trailing w xs t) = w.
Proof.
  intros H Ht. unfold trailing. rewrite length_take, length_drop. lia.
Qed.

(** [roll_var] in exact arithmetic: from the first full window on, the
    population variance of the [w] values that end at the position. *)
Lemma roll_var_exact (xs : list Q) (w t : nat) :
  (1 <= w)%nat -> (w <= S t)%nat -> (t < length xs)%nat ->
  exists v, RollVar.roll_var Arithmetic.exact xs w w 0 !! t = Some (Some v)
            /\ v == population_variance Arithmetic.exact (trailing w xs t).
Proof.
  intros Hw Hwt Ht.
  pose proof (exact_state_at xs w t Hw Ht) as Hs.
  rewrite window_trailing in Hs by done.
  pose proof (length_trailing xs w t Hwt Ht) as Hlen.
  assert (Hne : trailing w xs t <> []) by (intros E; rewrite E in Hlen; simpl in Hlen; lia).
  pose proof (exact_state_variance _ _ Hs Hne) as Hv.
  pose proof Hs as (Hn & _). rewrite Hlen in Hn, Hv.
  rewrite roll_var_lookup by done. unfold RollVar.calc_var.
  rewrite Hn. replace (Nat.max w 1) with w by lia.
  rewrite Nat.leb_refl.
  replace (0 <? w)%nat with true by (symmetry; apply Nat.ltb_lt; lia).
  cbn [andb]. eexists. split; [reflexivity|].
  exact_arithmetic.
  destruct (w =? 1)%nat eqn:E.
  - apply Nat.eqb_eq in E. subst w.
    destruct (trailing 1 xs t) as [|x [|? ?]]; try (simpl in Hlen; lia).
    unfold population_variance, sum_in. cbn [map fold_left length].
    exact_arithmetic. change (inject_Z (Z.of_nat 1)) with 1.
    change (inject_Z 0) with 0. field.
  - rewrite <- Hv. change (inject_Z (Z.of_nat 0)) with 0.
    assert (1 <= inject_Z (Z.of_nat w)).
    { destruct w; [lia|]. rewrite inject_Z_S.
      pose proof (inject_Z_nat_nonneg w). lra. }
    field. lra.
Qed.

End ExactVariance.

(** ** The [std_dev] column *)

Lemma prep_values_id (xs : list float) :
  Forall (fun x => is_inf x = false) xs -> Pandas.prep_values xs = xs.
Proof.
  unfold Pandas.prep_values. induction 1 as [|x xs Hx _ IH]; [done|].
  cbn [map]. by rewrite Hx, IH.
Qed.

Lemma cleaned_not_inf (t : nat) (x : float) : is_inf (cleaned t x) = false.
Proof. unfold cleaned. float_cases x; destruct (1 <=? t)%nat; reflexivity. Qed.

Lemma returns_column_not_inf (np_log : float -> float)
  (hist_values : list float) :
  Forall (fun r => is_inf r = false) (returns_column np_log hist_values).
Proof.
  apply Forall_lookup. intros t r. rewrite returns_column_lookup.
  destruct (raw_returns np_log hist_values !! t) as [y|]; [|done].
  intros [= <-]. apply cleaned_not_inf.
Qed.


Lemma rolling_std_lookup (w ddof : nat) (xs : list float) (t : nat) :
  (t < length xs)%nat ->
  Pandas.rolling_std w ddof xs !! t
  = Some (match RollVar.calc_var Arithmetic.binary64 (Nat.max w 1) ddof
                  (RollVar.state_at Arithmetic.binary64
                     (Pandas.prep_values xs) w t) with
          | Some x => Pandas.zsqrt x
          | None => nan
          end).
Proof.
  intros Ht. unfold Pandas.rolling_std.
  rewrite list_lookup_fmap, roll_var_lookup; [done|].
  unfold Pandas.prep_values. by rewrite length_map.
Qed.

(** C7, as amended.  The [std_dev] column of [make_returns_df] is
    not-a-number at every position [t] with fewer than 7 preceding periods.
    From position 7 on, the running update of [roll_var] holds 7
    observations, and [std_dev] is the square root of its sum of squared
    deviations over 7.  In exact arithmetic that quotient is the
    population variance of the 7 values that end at the position; in
    binary64 it is so only up to the rounding of the running update. *)
Theorem make_returns_df_std_dev (np_log : float -> float)
  (hist_values : list float) (t : nat) :
  np_log nan = nan ->
  (t < length hist_values)%nat ->
  let df := make_returns_df np_log hist_values in
  ((t < 7)%nat -> df_std_dev df !! t = Some nan)
  /\ ((7 <= t)%nat ->
      let s := RollVar.state_at Arithmetic.binary64 (df_returns df) 7 t in
      RollVar.nobs s = 7%nat
      /\ df_std_dev df !! t
         = Some (Pandas.zsqrt (div (RollVar.ssqdm_x s) (of_Z 7))))
  /\ (forall (xs : list Q) (k : nat),
        (6 <= k)%nat -> (k < length xs)%nat ->
        exists v,
          RollVar.roll_var Arithmetic.exact xs 7 7 0 !! k = Some (Some v)
          /\ (v == population_variance Arithmetic.exact (trailing 7 xs k))%Q).
Proof.
  intros Hnan Ht df. subst df. cbn [make_returns_df df_std_dev df_returns].
  set (returns := returns_column np_log hist_values).
  assert (Hlen : length returns = length hist_values)
    by apply length_returns_column.
  assert (Hprep : Pandas.prep_values returns = returns)
    by apply prep_values_id, returns_column_not_inf.
  rewrite rolling_std_lookup by lia. rewrite Hprep.
  unfold ROLLING_WINDOW_DAYS.
  pose proof (state_at_nobs Arithmetic.binary64 returns 7 t ltac:(lia) ltac:(lia))
    as Hnobs.
  cbn [Arithmetic.isnan Arithmetic.binary64] in Hnobs.
  split; [|split].
  - intros Ht7. unfold RollVar.window in Hnobs.
    replace (S t - 7)%nat with 0%nat in Hnobs by lia. rewrite drop_0 in Hnobs.
    assert (Hfirst : returns !! 0%nat = Some nan).
    { apply returns_column_first; [done|]. intros ->. simpl in Ht. lia. }
    destruct returns as [|x xs]; [done|]. injection Hfirst as ->.
    rewrite firstn_cons, filter_cons_False in Hnobs by done.
    assert (H : (RollVar.nobs
                   (RollVar.state_at Arithmetic.binary64 (nan :: xs) 7 t) < 7)%nat).
    { rewrite Hnobs. eapply Nat.le_lt_trans; [apply length_filter|].
      rewrite length_take. lia. }
    unfold RollVar.calc_var. cbn [Nat.max].
    apply Nat.leb_gt in H. by rewrite H.
  - intros Ht7. cbv zeta.
    rewrite window_trailing in Hnobs by lia.
    rewrite filter_all in Hnobs; cycle 1.
    { intros x [i Hi]%list_elem_of_lookup. unfold trailing in Hi.
      apply lookup_take_Some in Hi as [Hi _]. rewrite lookup_drop in Hi.
      eapply (returns_column_not_nan np_log); [|exact Hi]. lia. }
    rewrite length_trailing in Hnobs by lia.
    split; [done|].
    unfold RollVar.calc_var. rewrite Hnobs. reflexivity.
  - intros xs k Hk Hlt. apply roll_var_exact; lia.
Qed.

Lemma make_returns_df_std_dev_witness :
  let df := make_returns_df ln Samples.prices in
  df_std_dev df !! 6%nat = Some nan
  /\ df_std_dev df !! 9%nat
     = Some (Pandas.zsqrt
               (div (RollVar.ssqdm_x
                       (RollVar.state_at Arithmetic.binary64 (df_returns df) 7 9))
                    (of_Z 7)))
  /\ exists v,
       RollVar.roll_var Arithmetic.exact [0; 0; 0; 0; 0; 1; 0; 2]%Q 7 7 0 !! 7%nat
       = Some (Some v)
       /\ (v == population_variance Arithmetic.exact
                  (trailing 7 [0; 0; 0; 0; 0; 1; 0; 2] 7))%Q.
Proof.
  split; [|split].
  - refine (proj1 (make_returns_df_std_dev ln Samples.prices 6 eq_refl _) _);
      [vm_compute; lia|lia].
  - refine (proj2 (proj1 (proj2
              (make_returns_df_std_dev ln Samples.prices 9 eq_refl _)) _));
      [vm_compute; lia|lia].
  - refine (proj2 (proj2
              (make_returns_df_std_dev ln Samples.prices 9 eq_refl _))
              [0; 0; 0; 0; 0; 1; 0; 2]%Q 7%nat _ _);
      [vm_compute; lia|lia|vm_compute; lia].
Defined.

(** C7 as stated fails in binary64.  On the sample prices [std_dev] at
    position 7 is not the population standard deviation of the 7 returns
    that end there, as the formula of the specification gives it: the two
    differ in the last bit.  After a jump of the price the running update
    has lost digits: at position 8 of the second sample the square of
    [std_dev] is further than one part in [10^11] from the population
    variance of the 7 returns, which the formula of the specification
    meets to one part in [10^15]. *)
Lemma std_dev_not_population_std_dev :
  (let df := make_returns_df ln Samples.prices in
   trailing 7 (df_returns df) 7
   = [zero; zero; zero; zero; zero; ln (of_Z 2); zero]
   /\ df_std_dev df !! 7%nat = Some (S754_finite false 8738820277478733 (-55))
   /\ population_std_dev (trailing 7 (df_returns df) 7)
      = S754_finite false 8738820277478734 (-55))
  /\ (let df := make_returns_df ln Samples.prices_jump in
      df_returns df
      = [nan; mul (of_Z 512) (ln (of_Z 2)); zero; zero; zero; zero; zero;
         zero; ln (of_Z 2)]
      /\ let variance :=
        population_variance Arithmetic.exact
          (map to_Q (trailing 7 (df_returns df) 8)) in
      let computed := S754_finite false 8738820277787348 (-55) in
      let by_formula := population_std_dev (trailing 7 (df_returns df) 8) in
      df_std_dev df !! 8%nat = Some computed
      /\ (variance / inject_Z (10 ^ 11)
          < Qabs (to_Q computed * to_Q computed - variance))%Q
      /\ (Qabs (to_Q by_formula * to_Q by_formula - variance)
          < variance / inject_Z (10 ^ 15))%Q).
Proof. repeat split; vm_compute; reflexivity. Qed.

(** ** The balance-spread backtester *)

Section SpreadFormulas.

Import Spread.

Context {num : Type} (A : Arithmetic.t num).

Lemma window_start (start end_ : Z) :
  (start <= end_)%Z -> start ∈ window start end_.
Proof.
  intros H. unfold window. apply elem_of_seqZ. lia.
Qed.



(** Every other symbol passes through unchanged. *)
Lemma update_balances_with_spread_other (balances : gmap string (gmap Z num))
  (source target other : string) (pct : num) (start end_ : Z)
  (out : gmap string (gmap Z num)) :
  update_balances_with_spread A balances source target pct start end_ = Some out ->
  other <> source -> other <> target ->
  out !! other = balances !! other.
Proof.
  unfold update_balances_with_spread.
  destruct (balances !! source) as [src|]; [|discriminate].
  intros [= <-] Hs Ht. by rewrite !lookup_insert_ne.
Qed.

End SpreadFormulas.

Section SpreadProperties.

Import Spread.
Open Scope Q_scope.









(** *** The scenarios of [test_update_balances_with_spread.py]

    2022-01-01 is day 1.  The scenarios run in binary64, as the tests do;
    where a test compares with [pytest.approx], the balances are in fact
    equal to the expected ones. *)

Example test_token_to_0_percent_usdc :
  let gvt := Samples.gvt Arithmetic.binary64 in
  let spread := new_source Arithmetic.binary64 gvt (of_Z 0) 1 2 in
  let usdc := new_target Arithmetic.binary64 gvt ∅ (of_Z 0) 1 2 in
  tolist usdc 1 2 = [Some zero; Some zero]
  /\ tolist spread 1 2 = [Some (of_Z 123); Some (of_Z 246)]
  /\ total_at Arithmetic.binary64 spread usdc 1
     = Some (of_Z 123).
Proof. repeat split; vm_compute; reflexivity. Qed.

Example test_token_to_20_percent_usdc :
  let gvt := Samples.gvt Arithmetic.binary64 in
  let spread := new_source Arithmetic.binary64 gvt (of_Z 20) 1 2 in
  let usdc := new_target Arithmetic.binary64 gvt ∅ (of_Z 20) 1 2 in
  tolist usdc 1 2 = [Some (of_ratio 246 10); Some (of_ratio 246 10)]
  /\ tolist spread 1 2 = [Some (of_ratio 984 10); Some (of_ratio 1968 10)]
  /\ total_at Arithmetic.binary64 spread usdc 1
     = Some (of_Z 123)
  /\ period_ratio Arithmetic.binary64 spread 2
     = period_ratio Arithmetic.binary64 gvt 2.
Proof. repeat split; vm_compute; reflexivity. Qed.

Example test_token_to_usdc_earlier_start :
  let gvt := make_balance_series [of_Z 123; of_Z 246] 2 in
  tolist (new_target Arithmetic.binary64 gvt ∅ (of_Z 20) 1 3) 1 3
  = [Some zero; Some zero; Some zero]
  /\ new_source Arithmetic.binary64 gvt (of_Z 20) 1 3 = gvt.
Proof. split; vm_compute; reflexivity. Qed.

Example test_token_to_existing_usdc :
  let gvt := Samples.gvt Arithmetic.binary64 in
  let usdc := Samples.usdc Arithmetic.binary64 in
  let spread := new_source Arithmetic.binary64 gvt (of_Z 20) 1 2 in
  let usdc' := new_target Arithmetic.binary64 gvt usdc (of_Z 20) 1 2 in
  tolist usdc' 1 2 = [Some (of_ratio 346 10); Some (of_ratio 346 10)]
  /\ tolist spread 1 2 = [Some (of_ratio 984 10); Some (of_ratio 1968 10)]
  /\ total_at Arithmetic.binary64 spread usdc' 1
     = Some (of_Z 133)
  /\ period_ratio Arithmetic.binary64 usdc' 2
     = period_ratio Arithmetic.binary64 usdc 2
  /\ period_ratio Arithmetic.binary64 spread 2
     = period_ratio Arithmetic.binary64 gvt 2.
Proof. repeat split; vm_compute; reflexivity. Qed.

Example test_token_to_exising_usdc_different_dates :
  let gvt :=
    make_balance_series [of_Z 123; of_Z 246; of_Z 123; of_Z 246] 1 in
  let usdc := make_balance_series [of_Z 10; of_Z 10] 3 in
  let spread := new_source Arithmetic.binary64 gvt (of_Z 20) 1 4 in
  let usdc' := new_target Arithmetic.binary64 gvt usdc (of_Z 20) 1 4 in
  tolist usdc' 1 4
  = [Some (of_ratio 246 10); Some (of_ratio 246 10);
     Some (of_ratio 346 10); Some (of_ratio 346 10)]
  /\ tolist spread 1 4
     = [Some (of_ratio 984 10); Some (of_ratio 1968 10);
        Some (of_ratio 984 10); Some (of_ratio 1968 10)]
  /\ total_at Arithmetic.binary64 spread usdc' 1
     = Some (of_Z 123)
  /\ period_ratio Arithmetic.binary64 usdc' 4
     = period_ratio Arithmetic.binary64 usdc 4
  /\ Forall (fun t => period_ratio Arithmetic.binary64 spread t
                      = period_ratio Arithmetic.binary64 gvt t) [2; 3; 4]%Z.
Proof.
  cbv zeta. repeat split; try (vm_compute; reflexivity).
  repeat constructor; vm_compute; reflexivity.
Qed.

End SpreadProperties.

(** ** The returns matrix: success, shape and rows *)

Lemma items_keys (hist : HistPricesBySymbol) (f : Pandas.HistPrices -> Pandas.HistPrices) :
  (map (fun item : string * Pandas.HistPrices => (item.1, f item.2)) hist).*1 = hist.*1.
Proof. induction hist as [|[s h] l IH]; simpl; [done|]. by f_equal. Qed.

Lemma reduce_Ok_no_timestamp items matrix df :
  foldM reducer_on_symbol_and_hist_prices items matrix = Ok df ->
  "timestamp" ∉ items.*1.
Proof.
  revert matrix. induction items as [|[symbol hist] items IH]; intros matrix; simpl.
  - set_solver.
  - unfold Pandas.merge_on_timestamp.
    destruct (String.eqb_spec symbol "timestamp") as [->|Hne]; simpl; [discriminate|].
    intros H%IH. set_solver.
Qed.

Lemma reduce_Ok items matrix :
  "timestamp" ∉ items.*1 ->
  exists df, foldM reducer_on_symbol_and_hist_prices items matrix = Ok df.
Proof.
  revert matrix. induction items as [|[symbol hist] items IH]; intros matrix Hk; simpl.
  - eauto.
  - unfold Pandas.merge_on_timestamp.
    destruct (String.eqb_spec symbol "timestamp") as [->|Hne]; simpl; [set_solver|].
    apply IH. set_solver.
Qed.

Lemma drop_column_present label df :
  label ∈ Pandas.columns df ->
  exists df', Pandas.drop_column label df = Ok df'.
Proof.
  intros H%existsb_eqb_elem_of. unfold Pandas.drop_column. rewrite H. eauto.
Qed.

Lemma get_asset_Ok treasury s :
  s ∈ symbols treasury -> exists a, get_asset treasury s = Ok a.
Proof.
  intros H. unfold get_asset.
  destruct (List.find _ _) eqn:E; [eauto|].
  apply find_symbol_None in E. done.
Qed.

(** X1.  With one history per symbol, [make_returns_matrix] returns a
    matrix exactly when there is a history at all, no history is filed
    under ["timestamp"] or ["returns"], and ETH is an asset of the treasury
    or has a history (which the function can then drop). *)
Theorem make_returns_matrix_succeeds_iff treasury
  (augmented_token_hist_prices : HistPricesBySymbol) start end_ :
  NoDup augmented_token_hist_prices.*1 ->
  (exists m, make_returns_matrix treasury augmented_token_hist_prices start end_ = Ok m)
  <-> augmented_token_hist_prices <> []
      /\ ("timestamp" ∉ augmented_token_hist_prices.*1)
      /\ ("returns" ∉ augmented_token_hist_prices.*1)
      /\ ("ETH" ∈ symbols treasury \/ "ETH" ∈ augmented_token_hist_prices.*1).
Proof.
  intros Hnd. unfold make_returns_matrix.
  set (items := map _ augmented_token_hist_prices).
  assert (Hitems : items.*1 = augmented_token_hist_prices.*1)
    by apply (items_keys _ (fun h => Pandas.loc start end_ (Pandas.sort_index h))).
  assert (Hnil : items = [] <-> augmented_token_hist_prices = []).
  { subst items. by destruct augmented_token_hist_prices. }
  rewrite <- Hitems in *. clearbody items.
  assert (augmented_token_hist_prices <> [] <-> items <> []) as -> by tauto.
  clear Hitems Hnil.
  destruct items as [|item items'] eqn:Eitems.
  { split; [intros [m Hm]; discriminate|intros [H _]; done]. }
  rewrite <- Eitems in *. unfold bind at 1.
  set (init := Pandas.rename _ _ _).
  assert (Hinit : Pandas.columns init = ["returns"]) by done.
  clearbody init. split.
  - intros [m Hm].
    destruct (foldM _ items init) as [joined|e] eqn:Ejoin; simpl in Hm; [|discriminate].
    destruct (Pandas.drop_column "returns" joined) as [rm|e] eqn:Edrop;
      simpl in Hm; [|discriminate].
    apply drop_column_filter in Edrop as [Hret Hrm].
    assert (Hkeys : "returns" ∉ items.*1).
    { intros Hin. revert Hret. eapply reduce_returns_key; [done|done| |done].
      rewrite Hinit. set_solver. }
    split; [by rewrite Eitems|]. split; [by eapply reduce_Ok_no_timestamp|].
    split; [done|].
    destruct (decide ("ETH" ∈ symbols treasury)) as [|Hn]; [by left|right].
    apply get_asset_StopIteration in Hn. rewrite Hn in Hm.
    apply drop_column_filter in Hm as [Heth _].
    rewrite Hrm in Heth. apply list_elem_of_filter in Heth as [_ Heth].
    apply reduce_columns in Ejoin; [|done|rewrite Hinit; set_solver].
    rewrite Ejoin, Hinit in Heth. set_solver.
  - intros (_ & Hts & Hret & Heth).
    destruct (reduce_Ok items init Hts) as [joined Ejoin]. rewrite Ejoin. simpl.
    pose proof Ejoin as Hcols.
    apply reduce_columns in Hcols; [|done|rewrite Hinit; set_solver].
    rewrite Hinit in Hcols.
    destruct (drop_column_present "returns" joined) as [rm Edrop];
      [rewrite Hcols; set_solver|].
    rewrite Edrop. simpl.
    destruct (decide ("ETH" ∈ symbols treasury)) as [Hin|Hn].
    + destruct (get_asset_Ok _ _ Hin) as [a ->]. eauto.
    + destruct Heth as [Heth|Heth]; [done|].
      apply get_asset_StopIteration in Hn. rewrite Hn.
      apply drop_column_present.
      apply drop_column_filter in Edrop as [_ ->]. rewrite Hcols.
      apply list_elem_of_filter. split; [done|]. set_solver.
Qed.

Lemma make_returns_matrix_succeeds_iff_witness :
  exists m, make_returns_matrix Samples.treasury_dai
              [("ETH", Samples.hist_a); ("DAI", Samples.hist_b)] 1 3 = Ok m.
Proof.
  apply (make_returns_matrix_succeeds_iff Samples.treasury_dai
           [("ETH", Samples.hist_a); ("DAI", Samples.hist_b)] 1 3).
  - simpl. repeat constructor; set_solver.
  - simpl. split; [discriminate|]. repeat split; set_solver.
Defined.

Lemma select_length {A B : Type} (keep : list bool) (l : list A) (k : list B) :
  length l = length k ->
  length (Pandas.select keep l) = length (Pandas.select keep k).
Proof.
  revert l k. induction keep as [|b keep IH]; intros [|x l] [|y k]; simpl;
    try done.
  intros [= H]. destruct b; simpl; auto.
Qed.

Lemma drop_column_rectangular label df df' :
  rectangular df -> Pandas.drop_column label df = Ok df' -> rectangular df'.
Proof.
  unfold Pandas.drop_column, rectangular.
  destruct (existsb _ _); [|discriminate]. intros H [= <-]. simpl.
  apply Forall_fmap. eapply Forall_impl; [exact H|].
  intros r Hr. simpl. by apply select_length.
Qed.

Lemma merge_rectangular left symbol right df :
  rectangular left ->
  Pandas.merge_on_timestamp left symbol right = Ok df ->
  rectangular df.
Proof.
  unfold Pandas.merge_on_timestamp, rectangular.
  destruct (String.eqb symbol "timestamp"); [discriminate|].
  intros H [= <-]. simpl. rewrite Forall_forall in H.
  apply Forall_forall. intros r Hr.
  apply list_elem_of_In, in_flat_map in Hr as (l & Hl%list_elem_of_In & Hr).
  apply in_map_iff in Hr as (x & <- & _). simpl.
  rewrite !length_app, length_map, (H l Hl). done.
Qed.

Lemma reduce_rectangular items matrix df :
  rectangular matrix ->
  foldM reducer_on_symbol_and_hist_prices items matrix = Ok df ->
  rectangular df.
Proof.
  revert matrix. induction items as [|[symbol hist] items IH]; intros matrix Hm; simpl.
  - by intros [= <-].
  - destruct (Pandas.merge_on_timestamp matrix symbol hist) as [m'|e] eqn:E;
      simpl; [|discriminate].
    apply IH. by eapply merge_rectangular.
Qed.

(** The timestamps of a join: those of the left table that the right one
    has too. *)
Lemma merge_timestamps left symbol right df ts :
  Pandas.merge_on_timestamp left symbol right = Ok df ->
  ts ∈ (Pandas.rows df).*1 <-> ts ∈ (Pandas.rows left).*1 /\ ts ∈ right.*1.
Proof.
  unfold Pandas.merge_on_timestamp.
  destruct (String.eqb symbol "timestamp"); [discriminate|].
  intros [= <-]. simpl. rewrite !list_elem_of_fmap. split.
  - intros (r & -> & Hr).
    apply list_elem_of_In, in_flat_map in Hr as (l & Hl%list_elem_of_In & Hr).
    apply in_map_iff in Hr as (x & <- & Hx%list_elem_of_In).
    apply list_elem_of_filter in Hx as [Hx Hin]. simpl. split; [eauto|].
    exists x. done.
  - intros [(l & -> & Hl) (x & Hx & Hin)].
    exists (l.1, l.2 ++ [x.2]). split; [done|].
    apply list_elem_of_In, in_flat_map. exists l. split; [by apply list_elem_of_In|].
    apply in_map_iff. exists x. split; [done|].
    apply list_elem_of_In, list_elem_of_filter. done.
Qed.

Lemma reduce_timestamps items matrix df ts :
  foldM reducer_on_symbol_and_hist_prices items matrix = Ok df ->
  ts ∈ (Pandas.rows df).*1
  <-> ts ∈ (Pandas.rows matrix).*1 /\ forall item, item ∈ items -> ts ∈ item.2.*1.
Proof.
  revert matrix. induction items as [|[symbol hist] items IH]; intros matrix; simpl.
  - intros [= <-]. set_solver.
  - destruct (Pandas.merge_on_timestamp matrix symbol hist) as [m'|e] eqn:E;
      simpl; [|discriminate].
    intros H. rewrite (IH _ H), (merge_timestamps _ _ _ _ _ E). split.
    + intros [[Hm Hh] Hrest]. split; [done|].
      intros item [->|Hin]%elem_of_cons; [done|auto].
    + intros [Hm Hall]. split; [split; [done|]|].
      * apply (Hall (symbol, hist)). set_solver.
      * intros item Hin. apply Hall. set_solver.
Qed.

Lemma drop_column_timestamps label df df' :
  Pandas.drop_column label df = Ok df' ->
  (Pandas.rows df').*1 = (Pandas.rows df).*1.
Proof.
  unfold Pandas.drop_column. destruct (existsb _ _); [|discriminate].
  intros [= <-]. simpl. rewrite <- list_fmap_compose. done.
Qed.

(** [sort_index] keeps the rows and puts them in order. *)
Lemma insert_row_Permutation (r : Z * float) (df : Pandas.HistPrices) :
  Pandas.insert_row r df ≡ₚ r :: df.
Proof.
  induction df as [|r' df IH]; [done|]. cbn [Pandas.insert_row].
  case_decide; [done|]. rewrite IH. apply Permutation_swap.
Qed.

Lemma sort_index_Permutation (df : Pandas.HistPrices) :
  Pandas.sort_index df ≡ₚ df.
Proof.
  unfold Pandas.sort_index. induction df as [|r df IH]; [done|].
  cbn [foldr]. by rewrite insert_row_Permutation, IH.
Qed.

Lemma insert_row_sorted (r : Z * float) (df : Pandas.HistPrices) :
  StronglySorted Pandas.timestamp_le df ->
  StronglySorted Pandas.timestamp_le (Pandas.insert_row r df).
Proof.
  induction 1 as [|r' df Hs IH Hall]; cbn [Pandas.insert_row].
  - repeat constructor.
  - case_decide as Hle.
    + constructor; [by constructor|]. constructor; [done|].
      eapply Forall_impl; [exact Hall|]. intros b Hb.
      unfold Pandas.timestamp_le in *. lia.
    + constructor; [done|]. rewrite insert_row_Permutation.
      constructor; [|done]. unfold Pandas.timestamp_le in *. lia.
Qed.

Lemma sort_index_sorted (df : Pandas.HistPrices) :
  StronglySorted Pandas.timestamp_le (Pandas.sort_index df).
Proof.
  unfold Pandas.sort_index. induction df as [|r df IH]; [constructor|].
  cbn [foldr]. by apply insert_row_sorted.
Qed.

Lemma loc_sort_timestamps start end_ (h : Pandas.HistPrices) ts :
  ts ∈ (Pandas.loc start end_ (Pandas.sort_index h)).*1
  <-> (start <= ts <= end_) /\ ts ∈ h.*1.
Proof.
  unfold Pandas.loc. rewrite !list_elem_of_fmap. split.
  - intros (r & -> & Hr). apply list_elem_of_filter in Hr as [Hw Hr].
    rewrite sort_index_Permutation in Hr. split; [lia|eauto].
  - intros [Hw (r & -> & Hr)]. exists r. split; [done|].
    apply list_elem_of_filter. rewrite sort_index_Permutation. split; [lia|done].
Qed.

(** The steps of a call that succeeds. *)
Lemma make_returns_matrix_inv treasury (hist : HistPricesBySymbol) start end_ m :
  make_returns_matrix treasury hist start end_ = Ok m ->
  exists first joined returns_matrix,
    head (hist_prices_items hist start end_) = Some first
    /\ foldM reducer_on_symbol_and_hist_prices (hist_prices_items hist start end_)
         (Pandas.rename "return" first.1 (Pandas.select_returns first.2))
       = Ok joined
    /\ Pandas.drop_column "returns" joined = Ok returns_matrix
    /\ (("ETH" ∈ symbols treasury /\ m = returns_matrix)
        \/ (("ETH" ∉ symbols treasury)
            /\ Pandas.drop_column "ETH" returns_matrix = Ok m)).
Proof.
  unfold make_returns_matrix. fold (hist_prices_items hist start end_).
  destruct (hist_prices_items hist start end_) as [|item items'] eqn:Eitems;
    [discriminate|].
  rewrite <- Eitems. unfold bind at 1.
  destruct (foldM _ _ _) as [joined|e] eqn:Ejoin; simpl; [|discriminate].
  destruct (Pandas.drop_column "returns" joined) as [rm|e] eqn:Edrop;
    simpl; [|discriminate].
  intros Hm. exists item, joined, rm. rewrite Eitems. split; [done|].
  rewrite <- Eitems. split; [done|]. split; [done|].
  destruct (decide ("ETH" ∈ symbols treasury)) as [Hin|Hn].
  - left. destruct (get_asset_Ok _ _ Hin) as [a Ha]. rewrite Ha in Hm.
    by injection Hm as <-.
  - right. split; [done|]. apply get_asset_StopIteration in Hn.
    by rewrite Hn in Hm.
Qed.

(** X2.  The columns of the returns matrix are the symbols of the
    histories in their order, ETH being left out when the treasury holds
    none; every row has one value per column. *)
Theorem returns_matrix_shape treasury (hist : HistPricesBySymbol) start end_ m :
  NoDup hist.*1 ->
  make_returns_matrix treasury hist start end_ = Ok m ->
  Pandas.columns m
  = filter (fun s => s <> "ETH" \/ "ETH" ∈ symbols treasury) hist.*1
  /\ Forall (fun r : Z * list float => length r.2 = length (Pandas.columns m))
            (Pandas.rows m).
Proof.
  intros Hnd Hm. split; [by eapply make_returns_matrix_columns|].
  apply make_returns_matrix_inv in Hm
    as (first & joined & rm & _ & Hjoin & Hdrop & Heth).
  assert (Hrm : rectangular rm).
  { eapply drop_column_rectangular; [|exact Hdrop].
    eapply reduce_rectangular; [|exact Hjoin].
    unfold rectangular. simpl. apply Forall_fmap, Forall_forall. done. }
  destruct Heth as [[_ ->]|[_ Heth]]; [done|].
  by eapply drop_column_rectangular.
Qed.

Lemma returns_matrix_shape_witness :
  Pandas.columns Samples.matrix_ab
  = filter (fun s => s <> "ETH" \/ "ETH" ∈ symbols Samples.treasury_eth_dai)
           [("ETH", Samples.hist_a); ("DAI", Samples.hist_b)].*1
  /\ Forall (fun r : Z * list float =>
               length r.2 = length (Pandas.columns Samples.matrix_ab))
            (Pandas.rows Samples.matrix_ab).
Proof.
  apply (returns_matrix_shape Samples.treasury_eth_dai
           [("ETH", Samples.hist_a); ("DAI", Samples.hist_b)] 1 3).
  - simpl. repeat constructor; set_solver.
  - vm_compute. reflexivity.
Defined.

(** X3.  The timestamps of the rows of the returns matrix are those of
    the window from [start] to [end_], both included, that every history
    has. *)
Theorem returns_matrix_timestamps treasury (hist : HistPricesBySymbol)
  start end_ m ts :
  make_returns_matrix treasury hist start end_ = Ok m ->
  ts ∈ (Pandas.rows m).*1
  <-> (start <= ts <= end_)
      /\ forall item, item ∈ hist -> ts ∈ item.2.*1.
Proof.
  intros Hm. apply make_returns_matrix_inv in Hm
    as (first & joined & rm & Hfirst & Hjoin & Hdrop & Heth).
  assert (ts ∈ (Pandas.rows m).*1 <-> ts ∈ (Pandas.rows rm).*1) as ->.
  { destruct Heth as [[_ ->]|[_ Heth]]; [done|].
    by rewrite (drop_column_timestamps _ _ _ Heth). }
  rewrite (drop_column_timestamps _ _ _ Hdrop), (reduce_timestamps _ _ _ _ Hjoin).
  assert (Hin : first ∈ hist_prices_items hist start end_).
  { destruct (hist_prices_items hist start end_); [done|].
    injection Hfirst as ->. set_solver. }
  assert (Hitems : forall item, item ∈ hist_prices_items hist start end_
            <-> exists item', item' ∈ hist
                  /\ item = (item'.1, Pandas.loc start end_ (Pandas.sort_index item'.2))).
  { intros item. unfold hist_prices_items. rewrite list_elem_of_fmap. naive_solver. }
  split.
  - intros [_ Hall].
    apply Hitems in Hin as (item0 & Hin0 & ->).
    assert (Hw : start <= ts <= end_).
    { pose proof (Hall (item0.1, Pandas.loc start end_ (Pandas.sort_index item0.2))) as H.
      simpl in H. apply loc_sort_timestamps in H; [tauto|].
      apply Hitems. eauto. }
    split; [done|]. intros item Hitem.
    pose proof (Hall (item.1, Pandas.loc start end_ (Pandas.sort_index item.2))) as H.
    simpl in H. apply loc_sort_timestamps in H; [tauto|].
    apply Hitems. eauto.
  - intros [Hw Hall].
    assert (Hall' : forall item, item ∈ hist_prices_items hist start end_ ->
              ts ∈ item.2.*1).
    { intros item (item' & Hin' & ->)%Hitems. simpl.
      apply loc_sort_timestamps. auto. }
    split; [|done].
    change ((Pandas.rows (Pandas.rename "return" first.1
               (Pandas.select_returns first.2))).*1)
      with ((map (fun r : Z * float => (r.1, [r.2])) first.2).*1).
    rewrite <- list_fmap_compose. by apply Hall'.
Qed.

Lemma returns_matrix_timestamps_witness :
  2 ∈ (Pandas.rows Samples.matrix_ab).*1.
Proof.
  apply (returns_matrix_timestamps Samples.treasury_eth_dai
           [("ETH", Samples.hist_a); ("DAI", Samples.hist_b)] 1 3
           Samples.matrix_ab 2).
  - vm_compute. reflexivity.
  - split; [lia|]. intros item Hin.
    assert (item = ("ETH", Samples.hist_a) \/ item = ("DAI", Samples.hist_b))
      as [->| ->] by set_solver; simpl; set_solver.
Defined.

Lemma elem_of_cells df s ts v :
  (s, ts, v) ∈ cells df
  <-> exists vs, (ts, vs) ∈ Pandas.rows df /\ (s, v) ∈ zip (Pandas.columns df) vs.
Proof.
  unfold cells. rewrite list_elem_of_In, in_flat_map. split.
  - intros ([ts' vs] & Hr%list_elem_of_In & Hc).
    apply in_map_iff in Hc as ([s' v'] & [= -> -> ->] & Hc%list_elem_of_In).
    eauto.
  - intros (vs & Hr & Hc). exists (ts, vs). split; [by apply list_elem_of_In|].
    apply in_map_iff. exists (s, v). split; [done|]. by apply list_elem_of_In.
Qed.

Lemma zip_select_subseteq {A B : Type} (keep : list bool) (l : list A) (k : list B) :
  zip (Pandas.select keep l) (Pandas.select keep k) ⊆ zip l k.
Proof.
  revert l k. induction keep as [|b keep IH]; intros l k p.
  - destruct l; simpl; by intros ?%elem_of_nil.
  - destruct l as [|x l]; [simpl; by intros ?%elem_of_nil|].
    destruct k as [|y k].
    { simpl. destruct b; [|rewrite zip_with_nil_r]; by intros ?%elem_of_nil. }
    simpl. destruct b; simpl.
    + intros [->|Hp%IH]%elem_of_cons; [left|by right].
    + intros Hp%IH. by right.
Qed.

Lemma drop_column_cells label df df' :
  Pandas.drop_column label df = Ok df' ->
  cells df' ⊆ cells df.
Proof.
  unfold Pandas.drop_column. destruct (existsb _ _); [|discriminate].
  intros [= <-] [[s ts] v]. rewrite !elem_of_cells. simpl.
  intros (vs & Hr & Hc). apply list_elem_of_fmap in Hr as ([ts' vs'] & [= -> ->] & Hr).
  exists vs'. split; [done|]. by apply zip_select_subseteq in Hc.
Qed.

Lemma merge_cells left symbol right df s ts v :
  rectangular left ->
  symbol ∉ Pandas.columns left ->
  Pandas.merge_on_timestamp left symbol right = Ok df ->
  (s, ts, v) ∈ cells df ->
  (s, ts, v) ∈ cells left \/ (s = symbol /\ (ts, v) ∈ right).
Proof.
  intros Hrect Hfresh Hm. pose proof (merge_columns_fresh _ _ _ _ Hfresh Hm) as Hcols.
  rewrite !elem_of_cells, Hcols. revert Hm. unfold Pandas.merge_on_timestamp.
  destruct (String.eqb symbol "timestamp"); [discriminate|].
  intros [= <-]. simpl. intros (vs & Hr & Hc).
  apply list_elem_of_In, in_flat_map in Hr as (l & Hl%list_elem_of_In & Hr).
  apply in_map_iff in Hr as (x & [= <- <-] & Hx%list_elem_of_In).
  apply list_elem_of_filter in Hx as [Hx Hin].
  unfold rectangular in Hrect. rewrite Forall_forall in Hrect.
  rewrite zip_with_app in Hc by (symmetry; by apply Hrect).
  apply elem_of_app in Hc as [Hc|Hc].
  - left. exists l.2. split; [by destruct l|done].
  - right. apply list_elem_of_singleton in Hc as [= -> ->].
    split; [done|]. rewrite <- Hx. by destruct x.
Qed.

Lemma reduce_cells items matrix df s ts v :
  rectangular matrix ->
  NoDup items.*1 ->
  (forall k, k ∈ items.*1 -> k ∉ Pandas.columns matrix) ->
  foldM reducer_on_symbol_and_hist_prices items matrix = Ok df ->
  (s, ts, v) ∈ cells df ->
  (s, ts, v) ∈ cells matrix \/ exists h, (s, h) ∈ items /\ (ts, v) ∈ h.
Proof.
  revert matrix. induction items as [|[symbol hist] items IH];
    intros matrix Hrect Hnd Hfresh; simpl.
  - intros [= <-]. auto.
  - apply NoDup_cons in Hnd as [Hnotin Hnd].
    destruct (Pandas.merge_on_timestamp matrix symbol hist) as [m'|e] eqn:E;
      simpl; [|discriminate].
    assert (Hsym : symbol ∉ Pandas.columns matrix) by (apply Hfresh; set_solver).
    intros Hfold Hc. eapply IH in Hc; [| |done| |exact Hfold].
    + destruct Hc as [Hc|(h & Hh & Hv)].
      * eapply merge_cells in Hc as [Hc|[-> Hc]]; [by left| |done|done|done].
        right. exists hist. set_solver.
      * right. exists h. set_solver.
    + by eapply merge_rectangular.
    + intros k Hk. rewrite (merge_columns_fresh _ _ _ _ Hsym E).
      rewrite not_elem_of_app. split; [apply Hfresh; set_solver|set_solver].
Qed.

Lemma make_returns_matrix_Ok_returns treasury (hist : HistPricesBySymbol)
  start end_ m :
  NoDup hist.*1 ->
  make_returns_matrix treasury hist start end_ = Ok m ->
  "returns" ∉ hist.*1.
Proof.
  intros Hnd Hm Hin.
  apply make_returns_matrix_inv in Hm
    as (first & joined & rm & _ & Hjoin & Hdrop & _).
  assert (Hkeys : (hist_prices_items hist start end_).*1 = hist.*1)
    by apply (items_keys _ (fun h => Pandas.loc start end_ (Pandas.sort_index h))).
  apply drop_column_filter in Hdrop as [Hret _]. revert Hret.
  eapply reduce_returns_key; [| | |exact Hjoin]; rewrite ?Hkeys; try done.
  simpl. set_solver.
Qed.

Lemma cells_label df s ts v : (s, ts, v) ∈ cells df -> s ∈ Pandas.columns df.
Proof.
  rewrite elem_of_cells. intros (vs & _ & Hc).
  apply elem_of_zip_l in Hc. done.
Qed.

(** X4.  Every cell of the returns matrix is a value that the history of
    the symbol of its column has at the timestamp of its row. *)
Theorem returns_matrix_cells treasury (hist : HistPricesBySymbol) start end_ m
  s ts v :
  NoDup hist.*1 ->
  make_returns_matrix treasury hist start end_ = Ok m ->
  (s, ts, v) ∈ cells m ->
  exists h, (s, h) ∈ hist /\ (ts, v) ∈ h.
Proof.
  intros Hnd Hm Hc.
  pose proof (make_returns_matrix_Ok_returns _ _ _ _ _ Hnd Hm) as Hret.
  apply make_returns_matrix_inv in Hm
    as (first & joined & rm & _ & Hjoin & Hdrop & Heth).
  assert (Hrm : (s, ts, v) ∈ cells rm).
  { destruct Heth as [[_ ->]|[_ Heth]]; [done|].
    by apply (drop_column_cells _ _ _ Heth). }
  assert (Hs : s <> "returns").
  { apply cells_label in Hrm. apply drop_column_filter in Hdrop as [_ Hcols].
    rewrite Hcols in Hrm. by apply list_elem_of_filter in Hrm as [? _]. }
  apply (drop_column_cells _ _ _ Hdrop) in Hrm.
  assert (Hkeys : (hist_prices_items hist start end_).*1 = hist.*1)
    by apply (items_keys _ (fun h => Pandas.loc start end_ (Pandas.sort_index h))).
  eapply reduce_cells in Hrm; [| | | |exact Hjoin].
  - destruct Hrm as [Hinit|(h' & Hh' & Hv)].
    + apply cells_label in Hinit. simpl in Hinit.
      apply list_elem_of_singleton in Hinit. done.
    + unfold hist_prices_items in Hh'.
      apply list_elem_of_fmap in Hh' as ([s' h] & [= -> ->] & Hin).
      exists h. split; [done|]. simpl in Hv. unfold Pandas.loc in Hv.
      apply list_elem_of_filter in Hv as [_ Hv].
      by rewrite sort_index_Permutation in Hv.
  - unfold rectangular. simpl. apply Forall_fmap, Forall_forall. done.
  - by rewrite Hkeys.
  - rewrite Hkeys. simpl. intros k Hk ->%list_elem_of_singleton. done.
Qed.

Lemma returns_matrix_cells_witness :
  exists h, ("DAI", h) ∈ [("ETH", Samples.hist_a); ("DAI", Samples.hist_b)]
            /\ (2, of_Z 3) ∈ h.
Proof.
  apply (returns_matrix_cells Samples.treasury_eth_dai
           [("ETH", Samples.hist_a); ("DAI", Samples.hist_b)] 1 3
           Samples.matrix_ab "DAI" 2 (of_Z 3)).
  - simpl. repeat constructor; set_solver.
  - vm_compute. reflexivity.
  - unfold cells. simpl. set_solver.
Defined.

(** *** The order of the rows *)

Lemma StronglySorted_filter {A : Type} (R : relation A) (P : A -> Prop)
  `{forall x, Decision (P x)} (l : list A) :
  StronglySorted R l -> StronglySorted R (filter P l).
Proof.
  induction 1 as [|a l Hs IH Hall]; [constructor|].
  rewrite filter_cons. case_decide; [|done].
  constructor; [done|].
  apply Forall_forall. intros b [_ Hin]%list_elem_of_filter.
  rewrite Forall_forall in Hall. by apply Hall.
Qed.

Lemma loc_sort_sorted start end_ (h : Pandas.HistPrices) :
  StronglySorted Z.le (Pandas.loc start end_ (Pandas.sort_index h)).*1.
Proof.
  unfold Pandas.loc, Pandas.sort_index.
  apply StronglySorted_fmap with (R1 := Pandas.timestamp_le); [by intros a b|].
  apply StronglySorted_filter, sort_index_sorted.
Qed.

(** *** One row per timestamp *)

Lemma filter_timestamp_NoDup (right : Pandas.HistPrices) (ts : Z)
  `{forall r : Z * float, Decision (r.1 = ts)} :
  NoDup right.*1 ->
  (length (filter (fun r : Z * float => r.1 = ts) right) <= 1)%nat.
Proof.
  intros Hnd.
  assert (Hsub : NoDup (filter (fun r : Z * float => r.1 = ts) right).*1).
  { eapply sublist_NoDup; [exact Hnd|]. apply fmap_sublist, sublist_filter. }
  assert (Hall : forall r, r ∈ filter (fun r : Z * float => r.1 = ts) right ->
                   r.1 = ts).
  { intros r Hr. by apply list_elem_of_filter in Hr as [? _]. }
  destruct (filter _ right) as [|a [|b l]]; simpl; [lia|lia|].
  rewrite !fmap_cons, NoDup_cons in Hsub. destruct Hsub as [Hab _].
  exfalso. apply Hab. rewrite (Hall a), (Hall b) by set_solver. set_solver.
Qed.

Lemma merge_ascending left symbol right df :
  StronglySorted Z.lt (Pandas.rows left).*1 ->
  NoDup right.*1 ->
  Pandas.merge_on_timestamp left symbol right = Ok df ->
  StronglySorted Z.lt (Pandas.rows df).*1.
Proof.
  unfold Pandas.merge_on_timestamp.
  destruct (String.eqb symbol "timestamp"); [discriminate|].
  intros H Hnd [= <-]. simpl. induction (Pandas.rows left) as [|l rows IH]; simpl.
  - constructor.
  - rewrite fmap_cons in H. apply StronglySorted_cons in H as [Hlt Hs].
    rewrite fmap_app. apply StronglySorted_app. split; [|split; [|by apply IH]].
    + intros x y (rx & -> & Hx)%list_elem_of_fmap (ry & -> & Hy)%list_elem_of_fmap.
      apply list_elem_of_fmap in Hx as (x' & -> & _). simpl.
      apply list_elem_of_In, in_flat_map in Hy as (l' & Hl' & Hy).
      apply in_map_iff in Hy as (y' & <- & _). simpl.
      rewrite Forall_forall in Hlt. apply Hlt, list_elem_of_fmap.
      exists l'. split; [done|]. by apply list_elem_of_In.
    + rewrite <- list_fmap_compose.
      match goal with
      | |- context [?f right] => set (chunk := f right)
      end.
      assert (Hlen : (length chunk <= 1)%nat)
        by (by apply filter_timestamp_NoDup).
      destruct chunk as [|a [|b rest]]; simpl in *; [constructor| |lia].
      repeat constructor.
Qed.

Lemma reduce_ascending items matrix df :
  StronglySorted Z.lt (Pandas.rows matrix).*1 ->
  Forall (fun item : string * Pandas.HistPrices => NoDup item.2.*1) items ->
  foldM reducer_on_symbol_and_hist_prices items matrix = Ok df ->
  StronglySorted Z.lt (Pandas.rows df).*1.
Proof.
  revert matrix. induction items as [|[symbol hist] items IH];
    intros matrix Hm Hnd; simpl.
  - by intros [= <-].
  - apply Forall_cons in Hnd as [Hh Hnd].
    destruct (Pandas.merge_on_timestamp matrix symbol hist) as [m'|e] eqn:E;
      simpl; [|discriminate].
    apply IH; [|done]. by eapply merge_ascending.
Qed.

Lemma loc_sort_NoDup start end_ (h : Pandas.HistPrices) :
  NoDup h.*1 -> NoDup (Pandas.loc start end_ (Pandas.sort_index h)).*1.
Proof.
  intros Hnd. unfold Pandas.loc.
  eapply sublist_NoDup; [|apply fmap_sublist, sublist_filter].
  by rewrite sort_index_Permutation.
Qed.

Lemma StronglySorted_le_lt (l : list Z) :
  StronglySorted Z.le l -> NoDup l -> StronglySorted Z.lt l.
Proof.
  induction 1 as [|a l Hs IH Hall]; [constructor|].
  rewrite NoDup_cons. intros [Hnotin Hnd]. constructor; [by apply IH|].
  rewrite Forall_forall in Hall |- *. intros b Hb.
  pose proof (Hall b Hb). assert (a <> b) by (intros ->; done). lia.
Qed.

(** X5.  When every history has one row per timestamp, so has the
    returns matrix, and its rows are in ascending order of timestamp,
    whatever the order of the rows of the histories. *)
Theorem returns_matrix_sorted treasury (hist : HistPricesBySymbol) start end_ m :
  (forall item, item ∈ hist -> NoDup item.2.*1) ->
  make_returns_matrix treasury hist start end_ = Ok m ->
  StronglySorted Z.lt (Pandas.rows m).*1.
Proof.
  intros Hnd Hm. apply make_returns_matrix_inv in Hm
    as (first & joined & rm & Hfirst & Hjoin & Hdrop & Heth).
  assert (Hitems : Forall (fun item : string * Pandas.HistPrices => NoDup item.2.*1)
                     (hist_prices_items hist start end_)).
  { unfold hist_prices_items. apply Forall_fmap, Forall_forall.
    intros item Hin. simpl. by apply loc_sort_NoDup, Hnd. }
  assert (StronglySorted Z.lt (Pandas.rows rm).*1) as Hrm.
  { rewrite (drop_column_timestamps _ _ _ Hdrop).
    eapply reduce_ascending; [|exact Hitems|exact Hjoin].
    change ((Pandas.rows (Pandas.rename "return" first.1
               (Pandas.select_returns first.2))).*1)
      with ((map (fun r : Z * float => (r.1, [r.2])) first.2).*1).
    rewrite <- list_fmap_compose.
    unfold hist_prices_items in Hfirst. destruct hist as [|item hist]; [done|].
    injection Hfirst as <-. simpl.
    apply StronglySorted_le_lt; [apply loc_sort_sorted|].
    apply loc_sort_NoDup, Hnd. set_solver. }
  destruct Heth as [[_ ->]|[_ Heth]]; [done|].
  by rewrite (drop_column_timestamps _ _ _ Heth).
Qed.

Lemma returns_matrix_sorted_witness :
  StronglySorted Z.lt (Pandas.rows Samples.matrix_ab).*1.
Proof.
  apply (returns_matrix_sorted Samples.treasury_eth_dai
           [("ETH", Samples.hist_a); ("DAI", Samples.hist_b)] 1 3).
  - intros item Hin.
    assert (item = ("ETH", Samples.hist_a) \/ item = ("DAI", Samples.hist_b))
      as [->| ->] by set_solver; simpl; repeat constructor; set_solver.
  - vm_compute. reflexivity.
Defined.

(** *** The exceptions *)



(** ** The risk decomposition: what a call leaves alone *)

Lemma set_risk_contribution_holdings s p (l l' : list Asset) :
  set_risk_contribution s p l = Ok l' -> holding <$> l' = holding <$> l.
Proof.
  revert l'. induction l as [|a l IH]; intros l'; simpl; [discriminate|].
  destruct (String.eqb (token_symbol a) s).
  - by intros [= <-].
  - destruct (set_risk_contribution s p l) as [l''|e]; simpl; [|discriminate].
    intros [= <-]. rewrite !fmap_cons. f_equal. by apply IH.
Qed.

Lemma set_risk_contribution_lookup s p (l l' : list Asset) i a :
  set_risk_contribution s p l = Ok l' ->
  l !! i = Some a ->
  exists a', l' !! i = Some a'
    /\ (a' = a \/ (token_symbol a = s /\ risk_contribution a' = Some p)).
Proof.
  revert l' i. induction l as [|b l IH]; intros l' i; simpl; [discriminate|].
  destruct (String.eqb_spec (token_symbol b) s) as [Hs|Hs].
  - intros [= <-]. destruct i as [|i]; simpl.
    + intros [= <-]. eauto.
    + eauto.
  - destruct (set_risk_contribution s p l) as [l''|e]; simpl; [|discriminate].
    intros [= <-]. destruct i as [|i]; simpl; [intros [= <-]; eauto|].
    by apply IH.
Qed.

Lemma assign_risk_contributions_frame treasury pairs :
  let out := assign_risk_contributions treasury pairs in
  usd_total (final out) = usd_total treasury
  /\ holding <$> assets (final out) = holding <$> assets treasury
  /\ forall i a, assets treasury !! i = Some a ->
       exists a', assets (final out) !! i = Some a'
         /\ (risk_contribution a' = risk_contribution a
             \/ token_symbol a ∈ pairs.*1).
Proof.
  revert treasury. induction pairs as [|[s p] pairs IH]; intros treasury; simpl.
  - split; [done|]. split; [done|]. eauto.
  - destruct (set_risk_contribution s p (assets treasury)) as [l'|e] eqn:E; simpl.
    + destruct (IH {| assets := l'; usd_total := usd_total treasury |})
        as (Hu & Hh & Hr).
      split; [done|]. split.
      * rewrite Hh. simpl. by eapply set_risk_contribution_holdings.
      * intros i a Ha.
        destruct (set_risk_contribution_lookup _ _ _ _ _ _ E Ha) as (a1 & Ha1 & Hcase).
        destruct (Hr i a1 Ha1) as (a' & Ha' & Hcase').
        exists a'. split; [done|].
        assert (Hsym : token_symbol a1 = token_symbol a).
        { apply set_risk_contribution_holdings in E.
          apply (f_equal (fun l => l !! i)) in E.
          rewrite !list_lookup_fmap, Ha, Ha1 in E. by injection E. }
        destruct Hcase' as [Hsame|Hin]; [|right; rewrite <- Hsym; set_solver].
        destruct Hcase as [->|[Hs _]]; [by left|right; set_solver].
    + split; [done|]. split; [done|]. eauto.
Qed.

(** X7.  A call of [fill_asset_risk_contributions] that raises has
    written nothing; no call changes a symbol, a balance, the order of the
    assets or [usd_total]; and the only [risk_contribution]s that may
    change are those of assets whose symbol is a column of the returns
    matrix. *)
Theorem fill_asset_risk_contributions_frame treasury (hist : HistPricesBySymbol)
  start end_ :
  let out := fill_asset_risk_contributions treasury hist start end_ in
  (forall e, raised out = Some e -> final out = treasury)
  /\ usd_total (final out) = usd_total treasury
  /\ holding <$> assets (final out) = holding <$> assets treasury
  /\ forall i a, assets treasury !! i = Some a ->
       exists a', assets (final out) !! i = Some a'
         /\ (risk_contribution a' = risk_contribution a
             \/ exists m, make_returns_matrix treasury hist start end_ = Ok m
                          /\ token_symbol a ∈ Pandas.columns m).
Proof.
  cbv zeta.
  destruct (make_returns_matrix treasury hist start end_) as [m|e] eqn:Hm;
    [|rewrite (fill_matrix_Err _ _ _ _ _ Hm); simpl; eauto 10].
  destruct (make_weights treasury (Pandas.columns m)) as [w|e] eqn:Hw;
    [|rewrite (fill_weights_Err _ _ _ _ _ _ Hm Hw); simpl; eauto 10].
  destruct (reconciled (decompose w (Pandas.cov m))) eqn:Hc;
    [|rewrite (fill_unreconciled _ _ _ _ _ _ Hm Hw Hc); simpl; eauto 10].
  destruct (fill_reconciled _ _ _ _ _ _ Hm Hw Hc) as [Hfill Hret].
  split; [intros e; by rewrite Hret|].
  rewrite Hfill.
  destruct (assign_risk_contributions_frame treasury
              (zip (Pandas.columns m)
                   (component_percentages (decompose w (Pandas.cov m)))))
    as (Hu & Hh & Hr).
  split; [done|]. split; [done|].
  intros i a Ha. destruct (Hr i a Ha) as (a' & Ha' & [Hsame|Hin]); eauto.
  exists a'. split; [done|]. right. exists m. split; [done|].
  by apply zip_fst_subseteq in Hin.
Qed.

Lemma fill_asset_risk_contributions_frame_witness :
  let out := fill_asset_risk_contributions Samples.treasury_dai
               [("DAI", Samples.hist_b)] 1 3 in
  raised out = Some (KeyError "['ETH'] not found in axis")
  /\ final out = Samples.treasury_dai.
Proof.
  cbv zeta.
  assert (H : raised (fill_asset_risk_contributions Samples.treasury_dai
                        [("DAI", Samples.hist_b)] 1 3)
              = Some (KeyError "['ETH'] not found in axis"))
    by (vm_compute; reflexivity).
  split; [exact H|].
  exact (proj1 (fill_asset_risk_contributions_frame Samples.treasury_dai
                  [("DAI", Samples.hist_b)] 1 3) _ H).
Defined.

(** ** The risk decomposition: running it again *)

Lemma symbols_holdings t t' :
  holding <$> assets t' = holding <$> assets t -> symbols t' = symbols t.
Proof.
  intros H. unfold symbols.
  apply (f_equal (fmap fst)) in H. rewrite <- !list_fmap_compose in H. exact H.
Qed.

Lemma make_returns_matrix_holdings t t' hist start end_ :
  symbols t' = symbols t ->
  make_returns_matrix t' hist start end_ = make_returns_matrix t hist start end_.
Proof.
  intros Hs.
  assert (Hmatch : forall rm : Pandas.DataFrame,
    match get_asset t' "ETH" with
    | Ok _ => Ok rm
    | Err StopIteration => Pandas.drop_column "ETH" rm
    | Err e => Err e
    end
    = match get_asset t "ETH" with
      | Ok _ => Ok rm
      | Err StopIteration => Pandas.drop_column "ETH" rm
      | Err e => Err e
      end).
  { intros rm. destruct (decide ("ETH" ∈ symbols t)) as [Hin|Hn].
    - destruct (get_asset_Ok t "ETH" Hin) as [a ->].
      rewrite <- Hs in Hin. by destruct (get_asset_Ok t' "ETH" Hin) as [a' ->].
    - pose proof Hn as Hn'. rewrite <- Hs in Hn'.
      apply get_asset_StopIteration in Hn, Hn'. by rewrite Hn, Hn'. }
  unfold make_returns_matrix. cbv zeta.
  destruct (match map _ hist with [] => _ | item :: _ => _ end) as [first|e];
    cbn [bind]; [|reflexivity].
  destruct (foldM _ _ _) as [joined|e]; cbn [bind]; [|reflexivity].
  destruct (Pandas.drop_column "returns" joined) as [rm|e]; cbn [bind];
    [|reflexivity].
  apply Hmatch.
Qed.

Lemma current_balances_holdings t t' :
  holding <$> assets t' = holding <$> assets t ->
  current_balances t' = current_balances t.
Proof.
  unfold current_balances. generalize (∅ : gmap string float).
  generalize (assets t). induction (assets t') as [|a' l' IH]; intros [|a l] m;
    simpl; try done.
  intros [= Hs Hb H]. rewrite Hs, Hb. by apply IH.
Qed.

Lemma risk_percentages_holdings t t' hist start end_ :
  holding <$> assets t' = holding <$> assets t ->
  usd_total t' = usd_total t ->
  risk_percentages t' hist start end_ = risk_percentages t hist start end_.
Proof.
  intros Hh Hu. unfold risk_percentages, make_weights.
  rewrite (make_returns_matrix_holdings t t') by by apply symbols_holdings.
  by rewrite (current_balances_holdings t t'), Hu.
Qed.

Lemma set_risk_contribution_again s p (l : list Asset) a :
  List.find (fun a => String.eqb (token_symbol a) s) l = Some a ->
  risk_contribution a = Some p ->
  set_risk_contribution s p l = Ok l.
Proof.
  induction l as [|b l IH]; simpl; [discriminate|].
  destruct (String.eqb (token_symbol b) s) eqn:E.
  - intros [= ->] Hr. destruct a as [sym bal r]. simpl in *. by rewrite Hr.
  - intros Hf Hr. by rewrite (IH Hf Hr).
Qed.

Lemma assign_risk_contributions_keeps s treasury pairs :
  s ∉ pairs.*1 ->
  raised (assign_risk_contributions treasury pairs) = None ->
  List.find (fun a => String.eqb (token_symbol a) s)
    (assets (final (assign_risk_contributions treasury pairs)))
  = List.find (fun a => String.eqb (token_symbol a) s) (assets treasury).
Proof.
  revert treasury. induction pairs as [|[s' p] pairs IH]; intros t Hn; simpl; [done|].
  destruct (set_risk_contribution s' p (assets t)) as [l'|e] eqn:E; simpl;
    [|discriminate].
  intros Hr. rewrite IH; [|set_solver|done]. simpl.
  eapply set_risk_contribution_find_ne; [|done]. set_solver.
Qed.

Lemma assign_risk_contributions_again treasury pairs :
  NoDup pairs.*1 ->
  raised (assign_risk_contributions treasury pairs) = None ->
  assign_risk_contributions
    (final (assign_risk_contributions treasury pairs)) pairs
  = assign_risk_contributions treasury pairs.
Proof.
  revert treasury. induction pairs as [|[s p] pairs IH]; intros t Hnd; simpl; [done|].
  apply NoDup_cons in Hnd as [Hnotin Hnd].
  destruct (set_risk_contribution s p (assets t)) as [l'|e] eqn:E; simpl;
    [|discriminate].
  intros Hr.
  set (u := {| assets := l'; usd_total := usd_total t |}) in *.
  destruct (set_risk_contribution_find_eq _ _ _ _ E) as (a & Ha & Hp).
  rewrite (set_risk_contribution_again s p _ a).
  - destruct (assign_risk_contributions_frame u pairs) as (Hu & _).
    cbv zeta in Hu.
    replace {| assets := assets (final (assign_risk_contributions u pairs));
               usd_total := usd_total (final (assign_risk_contributions u pairs)) |}
      with (final (assign_risk_contributions u pairs))
      by by destruct (final (assign_risk_contributions u pairs)).
    by apply IH.
  - by rewrite (assign_risk_contributions_keeps s u pairs).
  - done.
Qed.

Lemma risk_percentages_reconciled treasury (hist : HistPricesBySymbol)
  start end_ m w :
  make_returns_matrix treasury hist start end_ = Ok m ->
  make_weights treasury (Pandas.columns m) = Ok w ->
  reconciled (decompose w (Pandas.cov m)) = true ->
  risk_percentages treasury hist start end_
  = Ok (zip (Pandas.columns m)
            (component_percentages (decompose w (Pandas.cov m)))).
Proof.
  intros H H' Hc. unfold risk_percentages.
  rewrite H. cbn [bind]. rewrite H'. cbn [bind]. cbv zeta. by rewrite Hc.
Qed.

(** X8.  Running [fill_asset_risk_contributions] again on the treasury
    that a first run left, with the same histories and window, ends the
    same way and leaves the same treasury: the risk contributions depend
    on the symbols, the balances and [usd_total] only. *)
Theorem fill_asset_risk_contributions_again treasury (hist : HistPricesBySymbol)
  start end_ :
  NoDup hist.*1 ->
  let out := fill_asset_risk_contributions treasury hist start end_ in
  fill_asset_risk_contributions (final out) hist start end_ = out.
Proof.
  intros Hnd. cbv zeta.
  destruct (make_returns_matrix treasury hist start end_) as [m|e] eqn:Hm;
    [|rewrite (fill_matrix_Err _ _ _ _ _ Hm); cbn [final]; by rewrite (fill_matrix_Err _ _ _ _ _ Hm)].
  destruct (make_weights treasury (Pandas.columns m)) as [w|e] eqn:Hw;
    [|rewrite (fill_weights_Err _ _ _ _ _ _ Hm Hw); cbn [final]; by rewrite (fill_weights_Err _ _ _ _ _ _ Hm Hw)].
  destruct (reconciled (decompose w (Pandas.cov m))) eqn:Hc;
    [|rewrite (fill_unreconciled _ _ _ _ _ _ Hm Hw Hc); cbn [final]; by rewrite (fill_unreconciled _ _ _ _ _ _ Hm Hw Hc)].
  destruct (fill_reconciled _ _ _ _ _ _ Hm Hw Hc) as [Hfill Hret].
  pose proof (risk_percentages_reconciled _ _ _ _ _ _ Hm Hw Hc) as Hp.
  rewrite Hfill in Hret |- *.
  set (pairs := zip (Pandas.columns m)
                  (component_percentages (decompose w (Pandas.cov m)))) in *.
  destruct (assign_risk_contributions_frame treasury pairs) as (Hu & Hh & _).
  cbv zeta in Hu, Hh.
  unfold fill_asset_risk_contributions.
  rewrite (risk_percentages_holdings treasury _ hist start end_ Hh Hu), Hp.
  apply assign_risk_contributions_again; [|done].
  unfold pairs. rewrite fst_zip; [by eapply make_returns_matrix_NoDup|].
  destruct (decompose_lengths w (Pandas.cov m)) as [_ ->].
  destruct (make_weights_Ok treasury (Pandas.columns m)) as (w' & Hw' & Hlen);
    [by eapply make_weights_Ok_inv|].
  assert (w' = w) as -> by congruence. lia.
Qed.

Lemma fill_asset_risk_contributions_again_witness :
  let out := fill_asset_risk_contributions Samples.treasury_eth_dai
               [("ETH", Samples.hist_a); ("DAI", Samples.hist_b)] 1 3 in
  fill_asset_risk_contributions (final out)
    [("ETH", Samples.hist_a); ("DAI", Samples.hist_b)] 1 3 = out.
Proof.
  apply (fill_asset_risk_contributions_again Samples.treasury_eth_dai
           [("ETH", Samples.hist_a); ("DAI", Samples.hist_b)] 1 3).
  simpl. repeat constructor; set_solver.
Defined.

(** ** The risk decomposition: its exceptions *)

Lemma make_weights_Err treasury cols e :
  make_weights treasury cols = Err e ->
  exists k, e = KeyError k /\ k ∈ cols /\ k ∉ symbols treasury.
Proof.
  unfold make_weights. induction cols as [|c cols IH]; simpl; [discriminate|].
  destruct (current_balances treasury !! c) as [b|] eqn:E; simpl.
  - destruct (mapM _ cols) as [bs|e']; simpl in *; [discriminate|].
    intros [= <-]. destruct (IH eq_refl) as (k & -> & Hk & Hn).
    exists k. set_solver.
  - intros [= <-]. exists c. split; [done|]. split; [set_solver|].
    by apply current_balances_None.
Qed.

(** X9.  [fill_asset_risk_contributions] raises in three ways only: with
    the exception of [make_returns_matrix]; with the [KeyError] of a column
    of the matrix whose symbol no asset has; with the [AssertionError] of
    the check of the decomposition.  Its final loop never raises. *)
Theorem fill_asset_risk_contributions_raises treasury
  (hist : HistPricesBySymbol) start end_ e :
  raised (fill_asset_risk_contributions treasury hist start end_) = Some e ->
  make_returns_matrix treasury hist start end_ = Err e
  \/ exists m,
       make_returns_matrix treasury hist start end_ = Ok m
       /\ ((exists k, e = KeyError k /\ k ∈ Pandas.columns m
                      /\ k ∉ symbols treasury)
           \/ (e = AssertionError "error in calculations"
               /\ exists w, make_weights treasury (Pandas.columns m) = Ok w
                            /\ reconciled (decompose w (Pandas.cov m)) = false)).
Proof.
  destruct (make_returns_matrix treasury hist start end_) as [m|e'] eqn:Hm.
  - destruct (make_weights treasury (Pandas.columns m)) as [w|e'] eqn:Hw.
    + destruct (reconciled (decompose w (Pandas.cov m))) eqn:Hc.
      * destruct (fill_reconciled _ _ _ _ _ _ Hm Hw Hc) as [_ Hret].
        rewrite Hret. discriminate.
      * rewrite (fill_unreconciled _ _ _ _ _ _ Hm Hw Hc). simpl.
        intros [= <-]. right. exists m. split; [done|]. right. eauto.
    + rewrite (fill_weights_Err _ _ _ _ _ _ Hm Hw). simpl. intros [= <-].
      right. exists m. split; [done|]. left. by eapply make_weights_Err.
  - rewrite (fill_matrix_Err _ _ _ _ _ Hm). simpl. intros [= <-]. by left.
Qed.

Lemma fill_asset_risk_contributions_raises_witness :
  make_returns_matrix Samples.treasury_eth
    [("ETH", Samples.hist_a); ("DAI", Samples.hist_b)] 1 3
  = Err (KeyError "DAI")
  \/ exists m,
       make_returns_matrix Samples.treasury_eth
         [("ETH", Samples.hist_a); ("DAI", Samples.hist_b)] 1 3
       = Ok m
       /\ ((exists k, KeyError "DAI" = KeyError k /\ k ∈ Pandas.columns m
                      /\ k ∉ symbols Samples.treasury_eth)
           \/ (KeyError "DAI" = AssertionError "error in calculations"
               /\ exists w, make_weights Samples.treasury_eth
                              (Pandas.columns m) = Ok w
                            /\ reconciled (decompose w (Pandas.cov m)) = false)).
Proof.
  apply (fill_asset_risk_contributions_raises Samples.treasury_eth
           [("ETH", Samples.hist_a); ("DAI", Samples.hist_b)] 1 3).
  vm_compute. reflexivity.
Defined.

(** ** The table of [make_returns_df] as a whole *)






(** ** The token whitelists *)

Section WhitelistsProperties.

Import Whitelists.

Lemma chain_1_addresses_Returns_inv (tokens : list json) (r : list json) :
  chain_1_addresses tokens = Returns r ->
  Forall (fun token => (exists chain_id, getitem token "chainId" = Returns chain_id)
                       /\ (on_chain_1 token = true -> is_Some (address_of token)))
         tokens
  /\ r = omap address_of (filter (fun token => on_chain_1 token = true) tokens).
Proof.
  revert r. induction tokens as [|token tokens IH]; intros r; simpl.
  - intros [= <-]. by split.
  - destruct (getitem token "chainId") as [chain_id|e] eqn:Ec; simpl;
      [|discriminate].
    assert (Hon : on_chain_1 token = equals_1 chain_id)
      by (unfold on_chain_1; by rewrite Ec).
    rewrite Forall_cons, filter_cons, Hon.
    destruct (equals_1 chain_id) eqn:E1.
    + destruct (getitem token "address") as [address|e] eqn:Ea; simpl;
        [|discriminate].
      assert (Haddr : address_of token = Some address)
        by (unfold address_of; by rewrite Ea).
      destruct (chain_1_addresses tokens) as [rest|e]; simpl; [|discriminate].
      intros [= <-]. destruct (IH rest eq_refl) as [HF ->].
      rewrite ?decide_True by done. simpl. rewrite Haddr. simpl. eauto 6.
    + intros Hr. destruct (IH r Hr) as [HF ->].
      rewrite ?decide_False by done. split; [|done]. split; [|done].
      split; [eauto|done].
Qed.

Lemma chain_1_addresses_Returns (tokens : list json) :
  Forall (fun token => (exists chain_id, getitem token "chainId" = Returns chain_id)
                       /\ (on_chain_1 token = true -> is_Some (address_of token)))
         tokens ->
  chain_1_addresses tokens
  = Returns (omap address_of (filter (fun token => on_chain_1 token = true) tokens)).
Proof.
  induction 1 as [|token tokens [[chain_id Hc] Ha] _ IH]; simpl; [done|].
  assert (Hon : on_chain_1 token = equals_1 chain_id)
    by (unfold on_chain_1; by rewrite Hc).
  rewrite filter_cons, Hc. rewrite Hon in Ha |- *. simpl.
  destruct (equals_1 chain_id) eqn:E1.
  - destruct (Ha eq_refl) as [address Haddr].
    rewrite ?decide_True by done. simpl. rewrite Haddr. simpl.
    unfold address_of in Haddr.
    destruct (getitem token "address") as [a|e]; [|discriminate].
    injection Haddr as ->. simpl. by rewrite IH.
  - by rewrite ?decide_False by done.
Qed.

(** X11.  On a list of tokens [process_raw_tokenlist] returns exactly when
    every token is a dict with a [chainId] and every token whose [chainId]
    equals 1 has an [address]; it then returns the addresses of these
    tokens, in their order, followed by the ETH placeholder.  A token of
    another chain needs no [address]. *)
Theorem process_raw_tokenlist_Returns (tokens r : list json) :
  process_raw_tokenlist (JArray tokens) = Returns r <->
  Forall (fun token => (exists chain_id, getitem token "chainId" = Returns chain_id)
                       /\ (on_chain_1 token = true -> is_Some (address_of token)))
         tokens
  /\ r = omap address_of (filter (fun token => on_chain_1 token = true) tokens)
         ++ [ETH_PLACEHOLDER].
Proof.
  unfold process_raw_tokenlist. simpl. split.
  - destruct (chain_1_addresses tokens) as [addresses|e] eqn:E; simpl;
      [|discriminate].
    intros [= <-]. apply chain_1_addresses_Returns_inv in E as [HF ->]. by split.
  - intros [HF ->]. by rewrite (chain_1_addresses_Returns _ HF).
Qed.

(** The exceptions of [process_raw_tokenlist]. *)
Lemma chain_1_addresses_Raises (tokens : list json) (e : error) :
  chain_1_addresses tokens = Raises e ->
  e = TypeError \/ e = KeyError "chainId" \/ e = KeyError "address".
Proof.
  assert (Hget : forall token key e', getitem token key = Raises e' ->
                   e' = TypeError \/ e' = KeyError key).
  { intros token key e'. destruct token; simpl; try (intros [= <-]; by left).
    destruct (List.find _ _); [discriminate|]. intros [= <-]. by right. }
  induction tokens as [|token tokens IH]; simpl; [discriminate|].
  destruct (getitem token "chainId") as [chain_id|e'] eqn:Ec; simpl.
  - destruct (equals_1 chain_id); [|done].
    destruct (getitem token "address") as [address|e'] eqn:Ea; simpl.
    + destruct (chain_1_addresses tokens) as [rest|e']; simpl; [discriminate|].
      intros [= <-]. by apply IH.
    + intros [= <-]. destruct (Hget _ _ _ Ea); auto.
  - intros [= <-]. destruct (Hget _ _ _ Ec); auto.
Qed.

End WhitelistsProperties.

Section Pagination.

Import Whitelists.

Variable respond : request -> outcome json.
Variable protocol : string.
Variable chain_id : Z.

Lemma covalent_pairs_from_S (fuel page_number : nat) :
  covalent_pairs_from respond (S fuel) protocol chain_id page_number
  = match covalent_page respond chain_id protocol page_number with
    | Raises e => Some (Raises e)
    | Returns (whitelist, has_more) =>
        if has_more
        then
          match covalent_pairs_from respond fuel protocol chain_id (S page_number) with
          | Some (Returns rest) => Some (Returns (whitelist ++ rest))
          | Some (Raises e) => Some (Raises e)
          | None => None
          end
        else Some (Returns whitelist)
    end.
Proof. reflexivity. Qed.

(** The pages from [first] to [last], the last being the first page that
    ends the loop, with a value or with an exception. *)
Lemma covalent_pairs_from_pages (whitelists : nat -> list json)
  (first last fuel : nat) (r : outcome (list json * bool)) :
  (first <= last)%nat ->
  (forall n, (first <= n < last)%nat ->
     covalent_page respond chain_id protocol n = Returns (whitelists n, true)) ->
  covalent_page respond chain_id protocol last = r ->
  match r with Returns (_, has_more) => has_more = false | Raises _ => True end ->
  covalent_pairs_from respond fuel protocol chain_id first
  = if decide (last - first < fuel)%nat
    then Some match r with
              | Returns (whitelist, _) =>
                  Returns (concat (map whitelists (seq first (last - first)))
                           ++ whitelist)
              | Raises e => Raises e
              end
    else None.
Proof.
  intros Hle Hmore Hlast Hr. revert first Hle Hmore.
  induction fuel as [|fuel IH]; intros first Hle Hmore.
  - rewrite decide_False by lia. done.
  - rewrite covalent_pairs_from_S.
    destruct (decide (first = last)) as [->|Hne].
    + rewrite Hlast, Nat.sub_diag, decide_True by lia. simpl.
      destruct r as [[whitelist has_more]|e]; [|done]. by rewrite Hr.
    + rewrite Hmore by lia. rewrite IH by (try lia; intros; apply Hmore; lia).
      replace (last - first)%nat with (S (last - S first)) by lia.
      destruct (decide (last - S first < fuel)%nat).
      * rewrite decide_True by lia.
        destruct r as [[whitelist has_more]|e]; [|done].
        simpl. by rewrite <- app_assoc.
      * by rewrite decide_False by lia.
Qed.

(** X12.  [get_covalent_pair_list] fetches the pages from 0 on, up to the
    first whose [has_more] is not true; the exchanges of these pages, in their order, are the result,
    whatever the remote side would answer for later pages. *)
Theorem get_covalent_pair_list_pages (whitelists : nat -> list json)
  (last fuel : nat) :
  (forall n, (n < last)%nat ->
     covalent_page respond chain_id protocol n = Returns (whitelists n, true)) ->
  covalent_page respond chain_id protocol last = Returns (whitelists last, false) ->
  (last < fuel)%nat ->
  get_covalent_pair_list respond fuel protocol chain_id
  = Some (Returns (concat (map whitelists (seq 0 (S last))))).
Proof.
  intros Hmore Hlast Hfuel. unfold get_covalent_pair_list.
  rewrite (covalent_pairs_from_pages whitelists 0 last fuel _ ltac:(lia)
             ltac:(intros; apply Hmore; lia) Hlast eq_refl).
  rewrite Nat.sub_0_r, decide_True by done.
  by rewrite seq_S, map_app, concat_app, Nat.add_0_l; simpl; rewrite app_nil_r.
Qed.

(** X13.  An exception on a page ends [get_covalent_pair_list] with that
    exception: the exchanges of the pages before are lost. *)
Theorem get_covalent_pair_list_raises (whitelists : nat -> list json)
  (last fuel : nat) (e : error) :
  (forall n, (n < last)%nat ->
     covalent_page respond chain_id protocol n = Returns (whitelists n, true)) ->
  covalent_page respond chain_id protocol last = Raises e ->
  (last < fuel)%nat ->
  get_covalent_pair_list respond fuel protocol chain_id = Some (Raises e).
Proof.
  intros Hmore Hlast Hfuel. unfold get_covalent_pair_list.
  rewrite (covalent_pairs_from_pages whitelists 0 last fuel _ ltac:(lia)
             ltac:(intros; apply Hmore; lia) Hlast I).
  by rewrite Nat.sub_0_r, decide_True by done.
Qed.

(** X14.  While every page says that there is more,
    [get_covalent_pair_list] goes on: no number of turns of its loop is
    enough. *)
Theorem get_covalent_pair_list_endless (fuel : nat) :
  (forall n, exists whitelist,
     covalent_page respond chain_id protocol n = Returns (whitelist, true)) ->
  get_covalent_pair_list respond fuel protocol chain_id = None.
Proof.
  intros Hmore. unfold get_covalent_pair_list. generalize 0%nat.
  induction fuel as [|fuel IH]; intros page_number; [done|].
  rewrite covalent_pairs_from_S.
  destruct (Hmore page_number) as [whitelist ->]. by rewrite IH.
Qed.

End Pagination.

Section StoreAndGet.

Import Whitelists.

Variable respond : request -> outcome json.
Variable first_raised : list error -> error.
Context {Provider : Type}.
Variable store_token_whitelist : list json -> Provider -> Provider * option error.
Variable retrieve_token_whitelist : Provider -> outcome (list json).

Lemma flatten_2d_concat {A : Type} (input_list : list (list A)) :
  flatten_2d input_list = concat input_list.
Proof.
  unfold flatten_2d. rewrite <- (app_nil_l (concat input_list)).
  generalize (@nil A). induction input_list as [|l ls IH]; intros acc; simpl.
  - by rewrite app_nil_r.
  - by rewrite IH, app_assoc.
Qed.

Lemma get_processed_tokenlists_serves (tokenlist_url : string)
  (tokens : list json) :
  serves respond tokenlist_url tokens ->
  Forall well_formed tokens ->
  get_processed_tokenlists respond tokenlist_url
  = Returns (chain_1 tokens ++ [ETH_PLACEHOLDER]).
Proof.
  intros (body & Hbody & Htokens) Hwf.
  unfold get_processed_tokenlists, get_raw_tokenlist.
  rewrite Hbody. simpl. rewrite Htokens. simpl.
  unfold process_raw_tokenlist. simpl.
  by rewrite (chain_1_addresses_Returns _ Hwf).
Qed.

(** X15.  When the three sources answer with well-formed token lists, the
    whitelist that [store_and_get_tokenlist_whitelist] stores and returns is made of the chain-1 addresses of
    CoinMarketCap, of CoinGecko and of the Uniswap pair tokens, in this
    order, each followed by the ETH placeholder. *)
Theorem store_and_get_tokenlist_whitelist_stores (w : World Provider)
  (cmc coingecko uniswap : list json) :
  serves respond cmc_tokenlists_url cmc -> Forall well_formed cmc ->
  serves respond coingecko_tokenlists_url coingecko ->
  Forall well_formed coingecko ->
  serves respond uniswap_pairs_tokenlists_url uniswap ->
  Forall well_formed uniswap ->
  store_and_get_tokenlist_whitelist respond first_raised store_token_whitelist w
  = Some (store_and_return store_token_whitelist
            (chain_1 cmc ++ [ETH_PLACEHOLDER]
             ++ chain_1 coingecko ++ [ETH_PLACEHOLDER]
             ++ chain_1 uniswap ++ [ETH_PLACEHOLDER]) w).
Proof.
  intros H1 W1 H2 W2 H3 W3.
  unfold store_and_get_tokenlist_whitelist, get_all_tokenlists,
    get_whitelists_from_apis, get_cmc_tokenlists, get_coingecko_tokenlists,
    get_uniswap_pairs_tokenlists.
  rewrite (get_processed_tokenlists_serves _ _ H1 W1),
    (get_processed_tokenlists_serves _ _ H2 W2),
    (get_processed_tokenlists_serves _ _ H3 W3).
  unfold gather. cbn [with_datasource raised_by omap list_omap returned_by].
  rewrite flatten_2d_concat. cbn [map concat snd]. rewrite app_nil_r.
  by rewrite <- !app_assoc.
Qed.

Hypothesis first_raised_elem :
  forall es, es <> [] -> first_raised es ∈ es.

Lemma gather_raises {A : Type} (awaited : list (option (outcome A))) :
  raised_by awaited <> [] ->
  exists e, e ∈ raised_by awaited
            /\ gather first_raised awaited = Some (Raises e).
Proof.
  intros Hne. unfold gather.
  destruct (raised_by awaited) as [|e es] eqn:E; [done|].
  exists (first_raised (e :: es)). split; [|done]. by apply first_raised_elem.
Qed.

(** X16.  When a download of a token list raises,
    [store_and_get_tokenlist_whitelist] stores nothing.  If the
    exception that reaches the handler is of a handled class the call logs
    one message and returns the empty list; the message speaks of
    receiving only for the classes [HTTPStatusError] and [RequestError]
    themselves.  Any other exception leaves the call. *)
Theorem store_and_get_tokenlist_whitelist_fails (w : World Provider) :
  raised_by [get_cmc_tokenlists respond; get_coingecko_tokenlists respond;
             get_uniswap_pairs_tokenlists respond] <> [] ->
  exists e,
    e ∈ raised_by [get_cmc_tokenlists respond; get_coingecko_tokenlists respond;
                   get_uniswap_pairs_tokenlists respond]
    /\ store_and_get_tokenlist_whitelist respond first_raised
         store_token_whitelist w
       = Some (if handled e
               then (logger_error (tokenlist_message e) w, Returns [])
               else (w, Raises e)).
Proof.
  intros Hne. destruct (gather_raises _ Hne) as (e & He & Hg).
  exists e. split; [done|].
  unfold store_and_get_tokenlist_whitelist, get_all_tokenlists,
    get_whitelists_from_apis.
  rewrite Hg. unfold tokenlist_message.
  destruct (handled e); [|done]. by destruct (class_is_http_or_request e).
Qed.

(** X17.  The same holds of [store_and_get_covalent_pairs_whitelist], also
    when the other download would never end. *)
Theorem store_and_get_covalent_pairs_whitelist_fails (fuel : nat)
  (w : World Provider) :
  raised_by [get_uniswap_v2_pairs_covalent respond fuel;
             get_sushiswap_pairs_covalent respond fuel] <> [] ->
  exists e,
    e ∈ raised_by [get_uniswap_v2_pairs_covalent respond fuel;
                   get_sushiswap_pairs_covalent respond fuel]
    /\ store_and_get_covalent_pairs_whitelist respond first_raised
         store_token_whitelist fuel w
       = Some (if handled e
               then (logger_error (covalent_pairs_message e) w, Returns [])
               else (w, Raises e)).
Proof.
  intros Hne. destruct (gather_raises _ Hne) as (e & He & Hg).
  exists e. split; [done|].
  unfold store_and_get_covalent_pairs_whitelist, get_all_covalent_pairs,
    get_whitelists_from_apis.
  rewrite Hg. unfold covalent_pairs_message.
  destruct (handled e); [|done]. by destruct (class_is_http_or_request e).
Qed.

End StoreAndGet.

Section MaybePopulate.

Import Whitelists.

Variable respond : request -> outcome json.
Variable first_raised : list error -> error.
Context {Provider : Type}.
Variable store_token_whitelist : list json -> Provider -> Provider * option error.
Variable retrieve_token_whitelist : Provider -> outcome (list json).

Lemma process_raw_tokenlist_last (raw_tokenlist : json) (r : list json) :
  process_raw_tokenlist raw_tokenlist = Returns r ->
  last r = Some ETH_PLACEHOLDER.
Proof.
  unfold process_raw_tokenlist.
  destruct (iterate raw_tokenlist) as [tokens|e]; simpl; [|discriminate].
  destruct (chain_1_addresses tokens) as [addresses|e]; simpl; [|discriminate].
  intros [= <-]. by rewrite last_snoc.
Qed.

Lemma get_processed_tokenlists_last (tokenlist_url : string) (r : list json) :
  get_processed_tokenlists respond tokenlist_url = Returns r ->
  last r = Some ETH_PLACEHOLDER.
Proof.
  unfold get_processed_tokenlists.
  destruct (get_raw_tokenlist respond tokenlist_url) as [raw|e]; simpl;
    [|discriminate].
  apply process_raw_tokenlist_last.
Qed.

(** What [get_all_tokenlists] returns holds the placeholder of each of
    the three lists. *)
Lemma get_all_tokenlists_Returns (latest_whitelist : list json) :
  get_all_tokenlists respond first_raised = Some (Returns latest_whitelist) ->
  exists cmc coingecko uniswap,
    latest_whitelist
    = cmc ++ [ETH_PLACEHOLDER] ++ coingecko ++ [ETH_PLACEHOLDER]
      ++ uniswap ++ [ETH_PLACEHOLDER].
Proof.
  assert (Hlast : forall r : list json, last r = Some ETH_PLACEHOLDER ->
                    exists r', r = r' ++ [ETH_PLACEHOLDER]).
  { intros r Hr. destruct r as [|x r _] using rev_ind; [done|].
    rewrite last_snoc in Hr. injection Hr as ->. eauto. }
  unfold get_all_tokenlists, get_whitelists_from_apis, gather,
    get_cmc_tokenlists, get_coingecko_tokenlists, get_uniswap_pairs_tokenlists.
  destruct (get_processed_tokenlists respond cmc_tokenlists_url)
    as [r1|e1] eqn:E1;
  destruct (get_processed_tokenlists respond coingecko_tokenlists_url)
    as [r2|e2] eqn:E2;
  destruct (get_processed_tokenlists respond uniswap_pairs_tokenlists_url)
    as [r3|e3] eqn:E3;
  cbn [with_datasource raised_by omap list_omap returned_by]; try discriminate.
  rewrite flatten_2d_concat. cbn [map concat snd]. rewrite app_nil_r.
  intros [= <-].
  apply get_processed_tokenlists_last, Hlast in E1 as [cmc ->].
  apply get_processed_tokenlists_last, Hlast in E2 as [coingecko ->].
  apply get_processed_tokenlists_last, Hlast in E3 as [uniswap ->].
  exists cmc, coingecko, uniswap. by rewrite <- !app_assoc.
Qed.

Lemma store_and_get_tokenlist_whitelist_empty (w w1 : World Provider) :
  store_and_get_tokenlist_whitelist respond first_raised
    store_token_whitelist w = Some (w1, Returns []) ->
  exists e, get_all_tokenlists respond first_raised = Some (Raises e)
            /\ handled e = true
            /\ w1 = logger_error (tokenlist_message e) w.
Proof.
  unfold store_and_get_tokenlist_whitelist, tokenlist_message.
  destruct (get_all_tokenlists respond first_raised) as [[l|e]|] eqn:E;
    [| |discriminate].
  - apply get_all_tokenlists_Returns in E as (a & b & c & ->).
    unfold store_and_return. destruct (store_token_whitelist _ _).2; [discriminate|].
    intros [= _ H]. by destruct a.
  - destruct (handled e) eqn:Hh; [|discriminate].
    destruct (class_is_http_or_request e) eqn:Hc; intros [= <-]; exists e;
      by rewrite Hc.
Qed.

Lemma store_and_get_covalent_pairs_whitelist_log (fuel : nat)
  (w1 w2 : World Provider) (r : outcome (list json)) :
  store_and_get_covalent_pairs_whitelist respond first_raised
    store_token_whitelist fuel w1 = Some (w2, r) ->
  log w1 `prefix_of` log w2.
Proof.
  unfold store_and_get_covalent_pairs_whitelist.
  destruct (get_all_covalent_pairs respond first_raised fuel) as [[l|e]|];
    [| |discriminate].
  - unfold store_and_return. by intros [= <- _].
  - destruct (handled e); intros [= <- _]; [|done].
    simpl. by apply prefix_app_r.
Qed.

(** X18.  [maybe_populate_whitelist] returns an empty whitelist only if the
    provider had none and the download of the token lists raised an
    exception of a handled class, which was logged: token lists that were
    downloaded are never empty. *)
Theorem maybe_populate_whitelist_empty (fuel : nat) (w w' : World Provider) :
  maybe_populate_whitelist respond first_raised store_token_whitelist
    retrieve_token_whitelist fuel w = Some (w', Returns []) ->
  retrieve_token_whitelist (provider w) = Returns []
  /\ exists e, get_all_tokenlists respond first_raised = Some (Raises e)
               /\ handled e = true
               /\ (log w ++ [tokenlist_message e]) `prefix_of` log w'.
Proof.
  unfold maybe_populate_whitelist.
  destruct (retrieve_token_whitelist (provider w)) as [[|x cached]|e];
    [|discriminate..].
  destruct (store_and_get_tokenlist_whitelist _ _ _ w)
    as [[w1 [tokenlist|e]]|] eqn:Et; [|discriminate..].
  destruct (store_and_get_covalent_pairs_whitelist _ _ _ fuel w1)
    as [[w2 [pairs|e]]|] eqn:Ep; [|discriminate..].
  intros [= -> Hnil]. split; [done|].
  apply app_eq_nil in Hnil as [-> ->].
  apply store_and_get_tokenlist_whitelist_empty in Et as (e & He & Hh & ->).
  exists e. split; [done|]. split; [done|].
  by apply store_and_get_covalent_pairs_whitelist_log in Ep.
Qed.

End MaybePopulate.

(** *** The properties at the sample answers *)

Section WhitelistsSamples.

Import Whitelists.

Lemma process_raw_tokenlist_Returns_witness :
  process_raw_tokenlist (JArray Responses.tokens)
  = Returns [JString "0xa"; JString "0xb"; ETH_PLACEHOLDER].
Proof.
  apply (proj2 (process_raw_tokenlist_Returns Responses.tokens
                  [JString "0xa"; JString "0xb"; ETH_PLACEHOLDER])).
  split; [|vm_compute; reflexivity].
  repeat constructor; simpl; eauto; discriminate.
Defined.

Lemma get_covalent_pair_list_pages_witness :
  get_covalent_pair_list Responses.respond 2 "uniswap_v2" 1
  = Some (Returns [JString "0xp0"; JString "0xp1"]).
Proof.
  apply (get_covalent_pair_list_pages Responses.respond "uniswap_v2" 1
           (fun n => match n with
                     | O => [JString "0xp0"]
                     | S _ => [JString "0xp1"]
                     end) 1 2).
  - intros [|n] Hn; [reflexivity|lia].
  - reflexivity.
  - lia.
Defined.

Lemma get_covalent_pair_list_raises_witness :
  get_covalent_pair_list Responses.respond 2 "sushiswap" 1
  = Some (Raises (KeyError "has_more")).
Proof.
  apply (get_covalent_pair_list_raises Responses.respond "sushiswap" 1
           (fun _ => [JString "0xs0"]) 1 2).
  - intros [|n] Hn; [reflexivity|lia].
  - reflexivity.
  - lia.
Defined.

Lemma get_covalent_pair_list_endless_witness :
  get_covalent_pair_list Responses.respond_endless 1000 "uniswap_v2" 1 = None.
Proof.
  apply (get_covalent_pair_list_endless Responses.respond_endless
           "uniswap_v2" 1 1000).
  intros n. exists []. reflexivity.
Defined.

Lemma store_and_get_tokenlist_whitelist_stores_witness :
  store_and_get_tokenlist_whitelist Responses.respond Responses.first_raised
    Responses.store_token_whitelist Responses.empty
  = Some ({| provider := [JString "0xa"; JString "0xb"; ETH_PLACEHOLDER;
                          JString "0xa"; JString "0xb"; ETH_PLACEHOLDER;
                          JString "0xa"; JString "0xb"; ETH_PLACEHOLDER];
             log := [] |},
          Returns [JString "0xa"; JString "0xb"; ETH_PLACEHOLDER;
                   JString "0xa"; JString "0xb"; ETH_PLACEHOLDER;
                   JString "0xa"; JString "0xb"; ETH_PLACEHOLDER]).
Proof.
  assert (Hserves : forall url, serves Responses.respond url Responses.tokens).
  { intros url. eexists. split; reflexivity. }
  assert (Hwf : Forall well_formed Responses.tokens).
  { repeat constructor; simpl; eauto; discriminate. }
  exact (store_and_get_tokenlist_whitelist_stores Responses.respond
           Responses.first_raised Responses.store_token_whitelist
           Responses.empty Responses.tokens Responses.tokens Responses.tokens
           (Hserves _) Hwf (Hserves _) Hwf (Hserves _) Hwf).
Defined.

Lemma first_raised_head (es : list error) :
  es <> [] -> Responses.first_raised es ∈ es.
Proof. destruct es as [|e es]; [done|]. intros _. simpl. by left. Defined.

Lemma store_and_get_tokenlist_whitelist_fails_witness :
  store_and_get_tokenlist_whitelist Responses.respond_down
    Responses.first_raised Responses.store_token_whitelist Responses.empty
  = Some ({| provider := [];
             log := ["error processing token list API repsonse"] |},
          Returns []).
Proof.
  destruct (store_and_get_tokenlist_whitelist_fails Responses.respond_down
              Responses.first_raised Responses.store_token_whitelist
              first_raised_head Responses.empty)
    as (e & He & ->); [discriminate|].
  assert (e = RequestError "ConnectTimeout") as -> by (simpl in He; set_solver).
  reflexivity.
Defined.

Lemma store_and_get_covalent_pairs_whitelist_fails_witness :
  store_and_get_covalent_pairs_whitelist Responses.respond
    Responses.first_raised Responses.store_token_whitelist 2 Responses.empty
  = Some ({| provider := [];
             log := ["error processing pairs from Covalent API repsonse"] |},
          Returns []).
Proof.
  destruct (store_and_get_covalent_pairs_whitelist_fails Responses.respond
              Responses.first_raised Responses.store_token_whitelist
              first_raised_head 2 Responses.empty)
    as (e & He & ->); [discriminate|].
  assert (e = KeyError "has_more") as -> by (vm_compute in He; set_solver).
  reflexivity.
Defined.

Lemma maybe_populate_whitelist_empty_witness :
  Responses.retrieve_token_whitelist (provider Responses.empty) = Returns []
  /\ exists e,
       get_all_tokenlists Responses.respond_down Responses.first_raised
       = Some (Raises e)
       /\ handled e = true
       /\ (log Responses.empty ++ [tokenlist_message e])
          `prefix_of` ["error processing token list API repsonse";
                       "error processing pairs from Covalent API repsonse"].
Proof.
  apply (maybe_populate_whitelist_empty Responses.respond_down
           Responses.first_raised Responses.store_token_whitelist
           Responses.retrieve_token_whitelist 1 Responses.empty
           {| provider := [];
              log := ["error processing token list API repsonse";
                      "error processing pairs from Covalent API repsonse"] |}).
  reflexivity.
Defined.

End WhitelistsSamples.
